(** * asn_block: range-to-CIDR reduction and firewall orchestration

    A shallow embedding of [asn_block.py] and [iptables_asn_block.py].
    Addresses are unbounded Python integers, modelled as [Z]; the external
    tools are modelled by the commands issued to them. *)

From Stdlib Require Import ZArith List String Ascii Bool Lia DecimalString DecimalZ.
Import ListNotations.
Local Open Scope Z_scope.

(** ** Outcomes of a Python computation *)

Inductive exn : Type :=
| TypeError
| ValueError
| AddressValueError
| NetmaskValueError
| IndexError
| FileNotFoundError
| HTTPError.

(** [OutOfFuel] is not a Python outcome: it is what a bounded unrolling of
    a [while] loop answers when the bound is too small. *)
Inductive result (A : Type) : Type :=
| Ok (a : A)
| Raise (e : exn)
| OutOfFuel.

Arguments Ok {A} a.
Arguments Raise {A} e.
Arguments OutOfFuel {A}.

(** ** The [ipaddress] data model *)

Inductive version : Type := v4 | v6.

Definition version_eqb (a b : version) : bool :=
  match a, b with
  | v4, v4 | v6, v6 => true
  | _, _ => false
  end.

Definition max_prefixlen (v : version) : Z :=
  match v with v4 => 32 | v6 => 128 end.

Definition ALL_ONES (v : version) : Z := 2 ^ max_prefixlen v - 1.

Record IpAddress : Type := mkAddr { addr_version : version; addr_ip : Z }.

Record CidrBlock : Type :=
  mkNet { net_version : version; network_address : Z; prefixlen : Z }.

Definition wf_address (a : IpAddress) : Prop :=
  0 <= addr_ip a <= ALL_ONES (addr_version a).

(** [int.bit_length()] *)
Definition bit_length (n : Z) : Z :=
  if n =? 0 then 0 else Z.log2 (Z.abs n) + 1.

Module ipaddress.

(** Modelled from the spec: [ipaddress] is the Python standard library,
    not part of src/.  Section 4.2 gives the algorithm of
    [summarize_address_range]: take the largest aligned power-of-two block
    at the current address that does not pass [last], emit it, advance,
    until the current address is past [last] or the address space is
    exhausted.  The block size is computed as the library does, from the
    number of trailing zero bits of the current address and the bit length
    of what remains. *)
Definition count_righthand_zero_bits (number bits : Z) : Z :=
  if number =? 0 then bits
  else Z.min bits (bit_length (Z.land (Z.lnot number) (number - 1))).

(** Modelled from the spec: the netmask of a prefix length,
    [_ALL_ONES ^ (_ALL_ONES >> prefixlen)]. *)
Definition ip_int_from_prefix (v : version) (p : Z) : Z :=
  Z.lxor (ALL_ONES v) (Z.shiftr (ALL_ONES v) p).

(** Modelled from the spec: the network constructor on an
    [(int, prefixlen)] pair, strict: the data model of section 3 wants the
    network address in range, the prefix length within [0, bits] and all
    host bits zero; the library raises otherwise. *)
Definition ip_network (v : version) (address p : Z) : result CidrBlock :=
  if (address <? 0) || (ALL_ONES v <? address) then Raise AddressValueError
  else if (p <? 0) || (max_prefixlen v <? p) then Raise NetmaskValueError
  else if Z.land address (ip_int_from_prefix v p) =? address
       then Ok (mkNet v address p)
       else Raise ValueError.

(** Modelled from the spec: the size, in bits, of the largest aligned
    block at [first_int] that does not pass [last_int]. *)
Definition nbits_of (v : version) (first_int last_int : Z) : Z :=
  Z.min (count_righthand_zero_bits first_int (max_prefixlen v))
        (bit_length (last_int - first_int + 1) - 1).

(** Modelled from the spec: the loop [while first_int <= last_int] of the
    summarizer, unrolled [fuel] times; it also stops once the block just
    emitted ends at the last address of the version. *)
Fixpoint summarize_loop (fuel : nat) (v : version) (first_int last_int : Z)
  : result (list CidrBlock) :=
  match fuel with
  | O => OutOfFuel
  | S fuel' =>
      if first_int <=? last_int then
        let nbits := nbits_of v first_int last_int in
        match ip_network v first_int (max_prefixlen v - nbits) with
        | Ok net =>
            let first_int' := first_int + Z.shiftl 1 nbits in
            if first_int' - 1 =? ALL_ONES v then Ok [net]
            else match summarize_loop fuel' v first_int' last_int with
                 | Ok rest => Ok (net :: rest)
                 | Raise e => Raise e
                 | OutOfFuel => OutOfFuel
                 end
        | Raise e => Raise e
        | OutOfFuel => OutOfFuel
        end
      else Ok []
  end.

(** Enough unrollings for any range of the version (see
    [loop_measure_bound]). *)
Definition summarize_fuel (v : version) : nat :=
  Z.to_nat (3 * max_prefixlen v + 4).

(** Modelled from the spec: [summarize_address_range]; the library
    raises when the versions differ or [last] is below [first]. *)
Definition summarize_address_range (first last : IpAddress)
  : result (list CidrBlock) :=
  if negb (version_eqb (addr_version first) (addr_version last))
  then Raise TypeError
  else if addr_ip last <? addr_ip first then Raise ValueError
  else summarize_loop (summarize_fuel (addr_version first))
         (addr_version first) (addr_ip first) (addr_ip last).

End ipaddress.

(** ** What a list of blocks covers *)

Definition block_size (b : CidrBlock) : Z :=
  2 ^ (max_prefixlen (net_version b) - prefixlen b).

Definition in_block (b : CidrBlock) (a : Z) : bool :=
  (network_address b <=? a) && (a <? network_address b + block_size b).

Definition covered (l : list CidrBlock) (a : Z) : bool :=
  existsb (fun b => in_block b a) l.

Definition overlap (b1 b2 : CidrBlock) : Prop :=
  exists a, in_block b1 a = true /\ in_block b2 a = true.

(** A valid CIDR block: prefix length within the address width, network
    address in range with all host bits zero. *)
Definition valid_block (b : CidrBlock) : Prop :=
  0 <= prefixlen b <= max_prefixlen (net_version b) /\
  0 <= network_address b <= ALL_ONES (net_version b) /\
  (block_size b | network_address b).

(** Two blocks are the two halves of one parent block of twice the size:
    same version, same prefix length [p > 0], different network addresses
    that agree on the first [p - 1] bits. *)
Definition siblings (b1 b2 : CidrBlock) : bool :=
  version_eqb (net_version b1) (net_version b2) &&
  (prefixlen b1 =? prefixlen b2) &&
  (0 <? prefixlen b1) &&
  negb (network_address b1 =? network_address b2) &&
  (network_address b1 / (2 * block_size b1)
   =? network_address b2 / (2 * block_size b2)).

(** [b1] lies within [b2]. *)
Definition inside (b1 b2 : CidrBlock) : Prop :=
  network_address b2 <= network_address b1 /\
  network_address b1 + block_size b1 <= network_address b2 + block_size b2.

Definition adjacent {A} (l : list A) (x y : A) : Prop :=
  exists pre post, l = pre ++ x :: y :: post.

(** [greedy v a b l]: the blocks of [l] tile [a, b) from left to right,
    each one aligned and the largest aligned block at its address that
    stays below [b]. *)
Fixpoint greedy (v : version) (a b : Z) (l : list CidrBlock) : Prop :=
  match l with
  | [] => a = b
  | blk :: rest =>
      net_version blk = v /\ network_address blk = a /\
      0 <= prefixlen blk <= max_prefixlen v /\
      (block_size blk | a) /\
      a + block_size blk <= b /\
      (forall n, max_prefixlen v - prefixlen blk < n <= max_prefixlen v ->
                 (2 ^ n | a) -> b < a + 2 ^ n) /\
      greedy v (a + block_size blk) b rest
  end.

(** A bound on the iterations left in [summarize_loop]. *)
Definition loop_measure (v : version) (first_int last_int : Z) : Z :=
  if last_int <? first_int then 0
  else
    let l := bit_length (last_int - first_int + 1) in
    1 + max_prefixlen v + l +
    Z.max 0 (l - ipaddress.count_righthand_zero_bits first_int (max_prefixlen v)).

(** ** Python strings

    A string is a sequence of characters with code points below 256. *)

Local Open Scope string_scope.

(** [str.isspace] on one character. *)
Definition is_space (c : ascii) : bool :=
  let n := Z.of_N (N_of_ascii c) in
  ((9 <=? n)%Z && (n <=? 13)%Z) || ((28 <=? n)%Z && (n <=? 32)%Z) ||
  (n =? 133)%Z || (n =? 160)%Z.

Definition is_digit (c : ascii) : bool :=
  let n := Z.of_N (N_of_ascii c) in (48 <=? n)%Z && (n <=? 57)%Z.

Fixpoint lstrip (s : string) : string :=
  match s with
  | EmptyString => EmptyString
  | String c r => if is_space c then lstrip r else s
  end.

Fixpoint rstrip (s : string) : string :=
  match s with
  | EmptyString => EmptyString
  | String c r =>
      match rstrip r with
      | EmptyString => if is_space c then EmptyString else String c EmptyString
      | r' => String c r'
      end
  end.

(** [s.strip()] *)
Definition strip (s : string) : string := rstrip (lstrip s).

(** [s.split(sep)] for a one-character separator. *)
Fixpoint split (sep : ascii) (s : string) : list string :=
  match s with
  | EmptyString => [EmptyString]
  | String c r =>
      if Ascii.eqb c sep then EmptyString :: split sep r
      else match split sep r with
           | [] => [String c EmptyString]
           | p :: ps => String c p :: ps
           end
  end.

Definition tab : ascii := ascii_of_nat 9.
Definition newline : ascii := ascii_of_nat 10.

(** [sep.join(l)] *)
Definition join (sep : string) (l : list string) : string := String.concat sep l.

(** [s.startswith(p)] *)
Definition startswith (s p : string) : bool := String.prefix p s.

Fixpoint all_chars (f : ascii -> bool) (s : string) : bool :=
  match s with
  | EmptyString => true
  | String c r => f c && all_chars f r
  end.

(** [str(n)] for an integer. *)
Definition str_of_int (n : Z) : string := NilZero.string_of_int (Z.to_int n).

(** ** Generators

    What a generator yields before it ends, and the exception it ends
    with, if any. *)
Definition gen (A : Type) : Type := (list A * option exn)%type.

Inductive line_outcome : Type :=
| Skip
| Yield (start end_ : string)
| Fail (e : exn).

Fixpoint parse_lines (parse_line : string -> line_outcome) (lines : list string)
  : gen (string * string) :=
  match lines with
  | [] => ([], None)
  | line :: rest =>
      match parse_line line with
      | Skip => parse_lines parse_line rest
      | Yield a b => let (ys, e) := parse_lines parse_line rest in ((a, b) :: ys, e)
      | Fail e => ([], Some e)
      end
  end.

(** [validate_asn], the same in both scripts; an [argparse] integer is
    always an [int]. *)
Definition validate_asn (asn : Z) : bool :=
  (0 <? asn)%Z && (asn <? 4294967295)%Z.

(** The part of [ipaddress] the scripts use besides the summarizer: the
    address parser and the printer of networks, taken as parameters. *)
Class IpLibrary : Type := {
  ip_address : string -> option IpAddress;
  str_network : CidrBlock -> string
}.

(** [iprange_to_cidr], the same in both scripts; [ip_address] raises
    [ValueError] on a string that is no address. *)
Definition iprange_to_cidr {L : IpLibrary} (start_ip end_ip : string)
  : result (list CidrBlock) :=
  match ip_address start_ip with
  | None => Raise ValueError
  | Some start =>
      match ip_address end_ip with
      | None => Raise ValueError
      | Some end_ => ipaddress.summarize_address_range start end_
      end
  end.

(** ** The system the scripts act on *)

Definition BIN_SYSTEMCTL : string := "/bin/systemctl".
Definition BIN_FIREWALL_CMD : string := "/usr/bin/firewall-cmd".
Definition BIN_UFW : string := "/usr/sbin/ufw".
Definition BIN_IPSET : string := "/sbin/ipset".
Definition BIN_IPTABLES : string := "/sbin/iptables".
Definition BIN_IP6TABLES : string := "/sbin/ip6tables".

Definition version_str (v : version) : string :=
  match v with v4 => "v4" | v6 => "v6" end.

Inductive loglevel : Type := Info | Warning | Error.

(** What a run does that can be observed, in order. *)
Inductive event : Type :=
| Run (argv : list string)            (* subprocess.run, subprocess.call *)
| Print (line : string)               (* print *)
| Log (level : loglevel) (msg : string)
| Mkdir                               (* DATA_DIR.mkdir *)
| Download (v : version).             (* requests.get of a dataset *)

(** The state of the host: which services are active, the ipsets with
    their members, the set names matched by the DROP rules of the INPUT
    chain of iptables ([v4]) and ip6tables ([v6]), first rule first, the cache
    directory and the cached datasets (the lines as iteration over the
    file yields them), and the lines a download would fetch ([None]: the
    request fails). *)
Record World : Type := mkWorld {
  active : string -> bool;
  ipsets : list (string * list string);
  chain : version -> list string;
  datadir : bool;
  files : version -> option (list string);
  remote : version -> option (list string)
}.

Definition with_ipsets (w : World) (s : list (string * list string)) : World :=
  mkWorld (active w) s (chain w) (datadir w) (files w) (remote w).

Definition with_chain (w : World) (v : version) (c : list string) : World :=
  mkWorld (active w) (ipsets w)
    (fun v' => if version_eqb v' v then c else chain w v')
    (datadir w) (files w) (remote w).

Definition with_datadir (w : World) : World :=
  mkWorld (active w) (ipsets w) (chain w) true (files w) (remote w).

Definition with_file (w : World) (v : version) (lines : list string) : World :=
  mkWorld (active w) (ipsets w) (chain w) (datadir w)
    (fun v' => if version_eqb v' v then Some lines else files w v')
    (remote w).

Definition mem (x : string) (l : list string) : bool := existsb (String.eqb x) l.

Definition set_exists (w : World) (name : string) : bool :=
  existsb (fun p => fst p =? name) (ipsets w).

Definition set_in_use (w : World) (name : string) : bool :=
  mem name (chain w v4) || mem name (chain w v6).

Fixpoint remove_first (x : string) (l : list string) : list string :=
  match l with
  | [] => []
  | y :: r => if x =? y then r else y :: remove_first x r
  end.

Definition tool_version (tool : string) : option version :=
  if tool =? BIN_IPTABLES then Some v4
  else if tool =? BIN_IP6TABLES then Some v6
  else None.

(** The DROP rule of the scripts: the arguments after the chain name. *)
Definition rule_spec (ipset_name : string) : list string :=
  ["-m"; "set"; "--match-set"; ipset_name; "src"; "-j"; "DROP"].

Definition argv_eqb (a b : list string) : bool :=
  if list_eq_dec string_dec a b then true else false.

(** A command that only asks: its effect is its return code. *)
Definition is_query (argv : list string) : bool :=
  match argv with
  | bin :: a :: _ =>
      ((bin =? BIN_SYSTEMCTL) && (a =? "is-active")) ||
      ((bin =? BIN_IPSET) && (a =? "list")) ||
      (((bin =? BIN_IPTABLES) || (bin =? BIN_IP6TABLES)) && (a =? "-C"))
  | _ => false
  end.


Definition ipset_command (w : World) (op name : string) (args : list string)
  : Z * World :=
  if op =? "list" then ((if set_exists w name then 0 else 1)%Z, w)
  else if op =? "destroy" then
    if set_exists w name && negb (set_in_use w name)
    then (0%Z, with_ipsets w (filter (fun p => negb (fst p =? name)) (ipsets w)))
    else (1%Z, w)
  else if op =? "create" then
    if set_exists w name then (1%Z, w)
    else (0%Z, with_ipsets w (ipsets w ++ [(name, [])])%list)
  else if op =? "flush" then
    if set_exists w name
    then (0%Z, with_ipsets w
                 (map (fun p => if fst p =? name then (name, []) else p) (ipsets w)))
    else (1%Z, w)
  else if op =? "add" then
    match args with
    | [cidr] =>
        if existsb (fun p => (fst p =? name) && negb (mem cidr (snd p))) (ipsets w)
        then (0%Z, with_ipsets w
                     (map (fun p => if fst p =? name then (name, (snd p ++ [cidr])%list) else p)
                          (ipsets w)))
        else (1%Z, w)
    | _ => (2%Z, w)
    end
  else (2%Z, w).

Definition iptables_command (w : World) (v : version) (op : string)
  (args : list string) : Z * World :=
  match args with
  | [ch; m; st; ms; name; src; j; tgt] =>
      if argv_eqb ("INPUT" :: rule_spec name) args then
        if op =? "-C" then ((if mem name (chain w v) then 0 else 1)%Z, w)
        else if op =? "-I" then
          if set_exists w name then (0%Z, with_chain w v (name :: chain w v))
          else (2%Z, w)
        else if op =? "-D" then
          if mem name (chain w v)
          then (0%Z, with_chain w v (remove_first name (chain w v)))
          else (1%Z, w)
        else (2%Z, w)
      else (2%Z, w)
  | _ => (2%Z, w)
  end.

(** The external tools, as far as the scripts drive them: the return code
    and the new state.  [ipset destroy] refuses a set a rule still
    matches; what firewall-cmd and ufw change is not tracked. *)
Definition exec (w : World) (argv : list string) : Z * World :=
  match argv with
  | bin :: op :: rest =>
      if bin =? BIN_SYSTEMCTL then
        match rest with
        | [quiet; service] =>
            if (op =? "is-active") && (quiet =? "--quiet")
            then ((if active w service then 0 else 3)%Z, w)
            else (0%Z, w)
        | _ => (0%Z, w)
        end
      else if bin =? BIN_IPSET then
        match rest with
        | name :: args => ipset_command w op name args
        | [] => (2%Z, w)
        end
      else match tool_version bin with
           | Some v => iptables_command w v op rest
           | None => (0%Z, w)
           end
  | _ => (0%Z, w)
  end.

(** ** Computations with effects *)

Definition M (A : Type) : Type := World -> result A * World * list event.

Definition ret {A} (a : A) : M A := fun w => (Ok a, w, []).

Definition raise {A} (e : exn) : M A := fun w => (Raise e, w, []).

Definition bind {A B} (m : M A) (k : A -> M B) : M B :=
  fun w =>
    match m w with
    | (Ok a, w1, t1) => let '(r, w2, t2) := k a w1 in (r, w2, (t1 ++ t2)%list)
    | (Raise e, w1, t1) => (Raise e, w1, t1)
    | (OutOfFuel, w1, t1) => (OutOfFuel, w1, t1)
    end.

Declare Scope py_scope.
Delimit Scope py_scope with py.
Notation "x <- m ;; k" := (bind m (fun x => k))
  (at level 61, m at next level, right associativity) : py_scope.
Notation "m ;; k" := (bind m (fun _ => k))
  (at level 61, right associativity) : py_scope.
Local Open Scope py_scope.

Definition emit (e : event) : M unit := fun w => (Ok tt, w, [e]).

Definition print (line : string) : M unit := emit (Print line).

Definition logger (level : loglevel) (msg : string) : M unit := emit (Log level msg).

(** [subprocess.run(argv).returncode] *)
Definition run (argv : list string) : M Z :=
  fun w => let (rc, w') := exec w argv in (Ok rc, w', [Run argv]).

Definition dry_run_line (cmd : string) : string := "[DRY-RUN] Would run: " ++ cmd.

(** [for x in l: s = body(s, x)] *)
Fixpoint foldM {A S} (body : S -> A -> M S) (l : list A) (s : S) : M S :=
  match l with
  | [] => ret s
  | x :: r => s' <- body s x ;; foldM body r s'
  end.

(** A [for] loop over a generator: the body runs on what is yielded, then
    the exception the generator ends with is raised. *)
Definition for_gen {A S} (g : gen A) (body : S -> A -> M S) (s : S) : M S :=
  s' <- foldM body (fst g) s ;;
  match snd g with
  | Some e => raise e
  | None => ret s'
  end.

(** A [for] loop over a generator that raises before its first item or
    yields a whole list. *)
Definition for_result {A S} (r : result (list A)) (body : S -> A -> M S) (s : S)
  : M S :=
  match r with
  | Ok l => foldM body l s
  | Raise e => raise e
  | OutOfFuel => fun w => (OutOfFuel, w, [])
  end.

Definition for_each {A} (l : list A) (body : A -> M unit) : M unit :=
  foldM (fun _ x => body x) l tt.

(** The argv of the commands a trace ran. *)
Fixpoint commands (t : list event) : list (list string) :=
  match t with
  | [] => []
  | Run argv :: r => argv :: commands r
  | _ :: r => commands r
  end.

(** The commands of a trace that are issued to change something. *)
Definition mutations (t : list event) : list (list string) :=
  filter (fun argv => negb (is_query argv)) (commands t).

(** The lines a trace printed. *)
Fixpoint printed (t : list event) : list string :=
  match t with
  | [] => []
  | Print s :: r => s :: printed r
  | _ :: r => printed r
  end.

Definition outcome {A} (x : result A * World * list event) : result A := fst (fst x).
Definition final {A} (x : result A * World * list event) : World := snd (fst x).
Definition trace {A} (x : result A * World * list event) : list event := snd x.

(** [DATA_DIR.mkdir(parents=True, exist_ok=True)] *)
Definition ensure_data_dir : M unit :=
  fun w => (Ok tt, with_datadir w, [Mkdir]).

(** [FILES[version].exists()] *)
Definition file_exists (v : version) : M bool :=
  fun w => (Ok (match files w v with Some _ => true | None => false end), w, []).

(** Opening and reading [FILES[version]]. *)
Definition read_file (v : version) : M (option (list string)) :=
  fun w => (Ok (files w v), w, []).

(** [download_file]: fetch, keep the lines [keep] accepts (the regular
    expression of the script, applied to the stripped line), write them
    to the cache. *)
Definition download_file (keep : string -> bool) (v : version) : M unit :=
  fun w =>
    match remote w v with
    | None => (Raise HTTPError, w, [Download v])
    | Some lines => (Ok tt, with_file w v (filter (fun l => keep (strip l)) lines),
                     [Download v])
    end.

(** [update_datasets]; the two scripts differ by the filter of
    [download_file] and by the last message, [updated]. *)
Definition update_datasets (keep : string -> bool) (updated : string) : M unit :=
  ensure_data_dir ;;
  logger Info "Downloading IPv4 dataset..." ;;
  download_file keep v4 ;;
  logger Info "Downloading IPv6 dataset..." ;;
  download_file keep v6 ;;
  logger Info updated.

Definition ensure_datasets (keep : string -> bool) (updated : string) : M unit :=
  e4 <- file_exists v4 ;;
  e6 <- file_exists v6 ;;
  if negb e4 || negb e6 then
    logger Warning "Datasets missing, downloading now..." ;;
    update_datasets keep updated
  else ret tt.

(** [parse_dataset(FILES[version], asn)]: the file is opened when the
    generator starts. *)
Definition parse_dataset (parse_line : string -> line_outcome)
  (file : option (list string)) : gen (string * string) :=
  match file with
  | None => ([], Some FileNotFoundError)
  | Some lines => parse_lines parse_line lines
  end.

Definition set_name (asn : Z) (v : version) : string :=
  "ASN" ++ str_of_int asn ++ "_" ++ version_str v.

Definition iptables_bin (v : version) : string :=
  match v with v4 => BIN_IPTABLES | v6 => BIN_IP6TABLES end.

Inductive action : Type := update | block | unblock.

(** The parsed command line: [args.action], [args.asn] ([None] when
    omitted), [args.dry_run]. *)
Record Args : Type := mkArgs {
  args_action : action;
  args_asn : option Z;
  args_dry_run : bool
}.

(** [not args.asn] *)
Definition asn_missing (a : option Z) : bool :=
  match a with
  | None => true
  | Some n => (n =? 0)%Z
  end.

Definition nonempty (s : string) : bool := negb (s =? "").

Definition no_space (s : string) : bool := all_chars (fun c => negb (is_space c)) s.

Definition sum_bools (l : list bool) : Z :=
  fold_right (fun b n => (Z.b2z b + n)%Z) 0%Z l.

(** What [detect_firewall_backend] answers, from which backends are
    active. *)
Definition detected (firewalld ufw ipt : bool) : string :=
  if (1 <? sum_bools [firewalld; ufw; ipt])%Z then "conflict"
  else if firewalld then "firewalld"
  else if ufw then "ufw"
  else if ipt then "iptables"
  else "unknown".

(** An event that changes nothing on the host: output, or a command that
    only asks. *)
Definition harmless (e : event) : bool :=
  match e with
  | Run argv => is_query argv
  | Print _ | Log _ _ => true
  | Mkdir | Download _ => false
  end.

(** The services [detect_firewall_backend] asks about. *)
Definition backend_services : list string :=
  ["firewalld"; "ufw"; "iptables"; "ip6tables"].

(** How many of them report active. *)
Definition active_services (w : World) : Z :=
  sum_bools (map (active w) backend_services).

Definition lift_result {A B} (f : A -> B) (r : result A) : result B :=
  match r with
  | Ok a => Ok (f a)
  | Raise e => Raise e
  | OutOfFuel => OutOfFuel
  end.

(** The CIDR strings of a list of ranges, in order, without the effects
    of the loops that compute them. *)
Fixpoint pure_cidrs {L : IpLibrary} (pairs : list (string * string))
  : result (list string) :=
  match pairs with
  | [] => Ok []
  | se :: r =>
      match iprange_to_cidr (fst se) (snd se) with
      | Ok nets =>
          match pure_cidrs r with
          | Ok l => Ok (map str_network nets ++ l)%list
          | Raise e => Raise e
          | OutOfFuel => OutOfFuel
          end
      | Raise e => Raise e
      | OutOfFuel => OutOfFuel
      end
  end.

Definition cidr_list_of {L : IpLibrary} (g : gen (string * string))
  : result (list string) :=
  match pure_cidrs (fst g) with
  | Ok l => match snd g with Some e => Raise e | None => Ok l end
  | Raise e => Raise e
  | OutOfFuel => OutOfFuel
  end.

(** Two states of the host with the same services and datasets. *)
Definition same_env (w w' : World) : Prop :=
  active w' = active w /\ files w' = files w /\ remote w' = remote w.

(** Two states of the host that differ at most by the members of the
    ipsets. *)
Definition keeps (w w' : World) : Prop :=
  same_env w w' /\ (forall v, chain w' v = chain w v) /\
  (forall n, set_exists w' n = set_exists w n).

(** What [add_ip_to_ipset] does. *)
Definition add_event (dry_run : bool) (ipset_name cidr : string) : event :=
  if dry_run
  then Print (dry_run_line (join " " [BIN_IPSET; "add"; ipset_name; cidr]))
  else Run [BIN_IPSET; "add"; ipset_name; cidr].

(** The command that creates the set of one version. *)
Definition create_cmd (ipset_name : string) (v : version) : list string :=
  [BIN_IPSET; "create"; ipset_name; "hash:net"; "family";
   match v with v6 => "inet6" | v4 => "inet" end].


(** ** asn_block.py *)

Module asn_block.

(** [re.match(r"^\S+\t\S+\t\d+(?:\t.+)?$", s)] on a stripped line [s]. *)
Definition line_shape_ok (s : string) : bool :=
  match split tab s with
  | a :: b :: c :: rest =>
      nonempty a && no_space a && nonempty b && no_space b &&
      nonempty c && all_chars is_digit c &&
      match rest with
      | [] => true
      | _ => let tail := join (String tab EmptyString) rest in
             nonempty tail && all_chars (fun ch => negb (Ascii.eqb ch newline)) tail
      end
  | _ => false
  end.

(** One iteration of the loop of [parse_dataset]. *)
Definition parse_line (asn : Z) (line : string) : line_outcome :=
  if startswith line "#" || (strip line =? "") then Skip
  else
    match split tab (strip line) with
    | start :: end_ :: record_asn :: _ =>
        if record_asn =? str_of_int asn then Yield start end_ else Skip
    | _ => Fail IndexError
    end.

Section WithIpLibrary.
Context {L : IpLibrary}.

Definition is_service_active (service : string) : M bool :=
  rc <- run [BIN_SYSTEMCTL; "is-active"; "--quiet"; service] ;;
  ret (rc =? 0)%Z.

Definition detect_firewall_backend : M string :=
  firewalld <- is_service_active "firewalld" ;;
  ufw <- is_service_active "ufw" ;;
  ipt <- (a <- is_service_active "iptables" ;;
          if a then ret true else is_service_active "ip6tables") ;;
  if (1 <? sum_bools [firewalld; ufw; ipt])%Z then
    logger Error "Multiple conflicting firewall systems detected. Please ensure only one is active." ;;
    ret "conflict"
  else if firewalld then ret "firewalld"
  else if ufw then ret "ufw"
  else if ipt then ret "iptables"
  else ret "unknown".

Definition create_or_reset_ipset (ipset_name : string) (version : version)
  (dry_run : bool) : M unit :=
  rc <- run [BIN_IPSET; "list"; ipset_name] ;;
  (if (rc =? 0)%Z then
     if dry_run
     then print (dry_run_line (BIN_IPSET ++ " destroy " ++ ipset_name))
     else (_ <- run [BIN_IPSET; "destroy"; ipset_name] ;; ret tt)
   else ret tt) ;;
  let cmd := [BIN_IPSET; "create"; ipset_name; "hash:net"; "family";
              match version with v6 => "inet6" | v4 => "inet" end] in
  if dry_run then print (dry_run_line (join " " cmd))
  else (_ <- run cmd ;; ret tt).

Definition add_ip_to_ipset (ipset_name cidr : string) (dry_run : bool) : M unit :=
  let cmd := [BIN_IPSET; "add"; ipset_name; cidr] in
  if dry_run then print (dry_run_line (join " " cmd))
  else (_ <- run cmd ;; ret tt).

Definition apply_firewalld_rule (ipset_name : string) (dry_run : bool) : M unit :=
  let zone := "block" in
  let cmd_add := [BIN_FIREWALL_CMD; "--permanent"; "--zone=" ++ zone;
                  "--add-source=ipset:" ++ ipset_name] in
  let cmd_reload := [BIN_FIREWALL_CMD; "--reload"] in
  if dry_run then
    print (dry_run_line (join " " cmd_add)) ;;
    print (dry_run_line (join " " cmd_reload))
  else
    _ <- run cmd_add ;; _ <- run cmd_reload ;; ret tt.

Definition remove_firewalld_rule (ipset_name : string) (dry_run : bool) : M unit :=
  let zone := "block" in
  let cmd_del := [BIN_FIREWALL_CMD; "--permanent"; "--zone=" ++ zone;
                  "--remove-source=ipset:" ++ ipset_name] in
  let cmd_reload := [BIN_FIREWALL_CMD; "--reload"] in
  if dry_run then
    print (dry_run_line (join " " cmd_del)) ;;
    print (dry_run_line (join " " cmd_reload))
  else
    _ <- run cmd_del ;; _ <- run cmd_reload ;; ret tt.

Definition apply_ufw_rule (cidr_list : list string) (dry_run : bool) : M unit :=
  for_each cidr_list
    (fun cidr =>
       let rule := [BIN_UFW; "deny"; "from"; cidr] in
       if dry_run then print (dry_run_line (join " " rule))
       else (_ <- run rule ;; ret tt)).

Definition remove_ufw_rule (cidr_list : list string) (dry_run : bool) : M unit :=
  for_each cidr_list
    (fun cidr =>
       let rule := [BIN_UFW; "delete"; "deny"; "from"; cidr] in
       if dry_run then print (dry_run_line (join " " rule))
       else (_ <- run rule ;; ret tt)).

Definition apply_iptables_rule (cmd_path ipset_name : string) (dry_run : bool)
  : M unit :=
  let rule := cmd_path :: "-I" :: "INPUT" :: rule_spec ipset_name in
  if dry_run then print (dry_run_line (join " " rule))
  else (_ <- run rule ;; ret tt).

Definition remove_iptables_rule (cmd_path ipset_name : string) (dry_run : bool)
  : M unit :=
  let rule := cmd_path :: "-D" :: "INPUT" :: rule_spec ipset_name in
  if dry_run then print (dry_run_line (join " " rule))
  else (_ <- run rule ;; ret tt).

(** The two nested loops of [create_ipset_and_rules] that fill the set
    and build [cidr_list]. *)
Definition block_cidr_list (asn : Z) (dry_run : bool) (version : version)
  (ipset_name : string) : M (list string) :=
  file <- read_file version ;;
  for_gen (parse_dataset (parse_line asn) file)
    (fun cidr_list se =>
       for_result (iprange_to_cidr (fst se) (snd se))
         (fun cidr_list net =>
            let cidr := str_network net in
            add_ip_to_ipset ipset_name cidr dry_run ;;
            ret (cidr_list ++ [cidr])%list)
         cidr_list)
    [].

(** The body of the loop [for version in ["v4", "v6"]] of
    [create_ipset_and_rules]. *)
Definition block_version (asn : Z) (dry_run : bool) (firewall : string)
  (version : version) : M unit :=
  let ipset_name := set_name asn version in
  create_or_reset_ipset ipset_name version dry_run ;;
  cidr_list <- block_cidr_list asn dry_run version ipset_name ;;
  if firewall =? "iptables" then
    apply_iptables_rule (iptables_bin version) ipset_name dry_run
  else if firewall =? "firewalld" then
    apply_firewalld_rule ipset_name dry_run
  else if firewall =? "ufw" then
    apply_ufw_rule cidr_list dry_run
  else ret tt.

Definition create_ipset_and_rules (asn : Z) (dry_run : bool) : M unit :=
  print "--- Creating block rules ---" ;;
  if negb (validate_asn asn) then logger Error "Invalid ASN."
  else
    firewall <- detect_firewall_backend ;;
    if firewall =? "conflict" then ret tt
    else
      print ("Firewall system detected: " ++ firewall) ;;
      ensure_data_dir ;;
      ensure_datasets line_shape_ok "Datasets updated." ;;
      for_each [v4; v6] (block_version asn dry_run firewall).

(** The two nested loops of [cleanup_ipsets] that rebuild [cidr_list]. *)
Definition unblock_cidr_list (asn : Z) (version : version) : M (list string) :=
  file <- read_file version ;;
  for_gen (parse_dataset (parse_line asn) file)
    (fun cidr_list se =>
       for_result (iprange_to_cidr (fst se) (snd se))
         (fun cidr_list net => ret (cidr_list ++ [str_network net])%list)
         cidr_list)
    [].

(** The body of the loop [for version in ["v4", "v6"]] of
    [cleanup_ipsets]. *)
Definition unblock_version (asn : Z) (dry_run : bool) (firewall : string)
  (version : version) : M unit :=
  let ipset_name := set_name asn version in
  cidr_list <- unblock_cidr_list asn version ;;
  (if firewall =? "iptables" then
     remove_iptables_rule (iptables_bin version) ipset_name dry_run
   else if firewall =? "firewalld" then
     remove_firewalld_rule ipset_name dry_run
   else if firewall =? "ufw" then
     remove_ufw_rule cidr_list dry_run
   else ret tt) ;;
  if dry_run then
    print (dry_run_line (BIN_IPSET ++ " destroy " ++ ipset_name))
  else
    _ <- run [BIN_IPSET; "destroy"; ipset_name] ;;
    logger Info ("Removed ipset and rules for " ++ ipset_name).

Definition cleanup_ipsets (asn : Z) (dry_run : bool) : M unit :=
  print "--- Cleaning up block rules ---" ;;
  if negb (validate_asn asn) then logger Error "Invalid ASN."
  else
    firewall <- detect_firewall_backend ;;
    if firewall =? "conflict" then ret tt
    else
      print ("Firewall system detected: " ++ firewall) ;;
      for_each [v4; v6] (unblock_version asn dry_run firewall).

Definition main (args : Args) : M unit :=
  match args_action args with
  | update => update_datasets line_shape_ok "Datasets updated."
  | block =>
      if asn_missing (args_asn args) then logger Error "ASN argument required."
      else create_ipset_and_rules (match args_asn args with Some n => n | None => 0%Z end)
             (args_dry_run args)
  | unblock =>
      if asn_missing (args_asn args) then logger Error "ASN argument required."
      else cleanup_ipsets (match args_asn args with Some n => n | None => 0%Z end)
             (args_dry_run args)
  end.

End WithIpLibrary.
End asn_block.

(** ** iptables_asn_block.py

    The emoji that open the log messages of this script are left out. *)

Module iptables_asn_block.

(** [re.match(r"^\d+\t\d+\t\d+$", s)] on a stripped line [s]. *)
Definition line_shape_ok (s : string) : bool :=
  match split tab s with
  | [a; b; c] =>
      nonempty a && all_chars is_digit a && nonempty b && all_chars is_digit b &&
      nonempty c && all_chars is_digit c
  | _ => false
  end.

(** One iteration of the loop of [parse_dataset]: the unpacking wants
    exactly three fields. *)
Definition parse_line (asn : Z) (line : string) : line_outcome :=
  if startswith line "#" || (strip line =? "") then Skip
  else
    match split tab (strip line) with
    | [start; end_; record_asn] =>
        if record_asn =? str_of_int asn then Yield start end_ else Skip
    | _ => Fail ValueError
    end.

Section WithIpLibrary.
Context {L : IpLibrary}.

(** The two nested loops of [create_ipset_and_rules]; the result is
    [count]. *)
Definition add_cidrs (asn : Z) (dry_run : bool) (version : version)
  (ipset_name : string) : M Z :=
  file <- read_file version ;;
  for_gen (parse_dataset (parse_line asn) file)
    (fun count se =>
       for_result (iprange_to_cidr (fst se) (snd se))
         (fun count cidr =>
            (if dry_run then
               print ("[DRY-RUN] Would add " ++ str_network cidr ++ " to ipset '"
                      ++ ipset_name ++ "'")
             else (_ <- run [BIN_IPSET; "add"; ipset_name; str_network cidr] ;; ret tt)) ;;
            ret (count + 1)%Z)
         count)
    0%Z.

Definition create_ipset_and_rules (asn : Z) (dry_run : bool) : M unit :=
  if negb (validate_asn asn) then logger Error "Invalid ASN."
  else
    ensure_data_dir ;;
    ensure_datasets line_shape_ok "Datasets updated!" ;;
    for_each [v4; v6]
      (fun version =>
         let ipset_name := set_name asn version in
         let ip_version := match version with v4 => "inet" | v6 => "inet6" end in
         (if negb dry_run then
            _ <- run [BIN_IPSET; "create"; ipset_name; "hash:net"; "family"; ip_version] ;;
            _ <- run [BIN_IPSET; "flush"; ipset_name] ;;
            ret tt
          else ret tt) ;;
         count <- add_cidrs asn dry_run version ipset_name ;;
         logger Info (str_of_int count ++ " CIDRs "
                      ++ (if dry_run then "would be" else "added to")
                      ++ " ipset '" ++ ipset_name ++ "'") ;;
         if negb dry_run then
           let chain := "INPUT" in
           let cmd := iptables_bin version in
           rc <- run (cmd :: "-C" :: chain :: rule_spec ipset_name) ;;
           let rule_exists := (rc =? 0)%Z in
           if negb rule_exists then
             _ <- run (cmd :: "-I" :: chain :: rule_spec ipset_name) ;;
             logger Info ("Rule added to " ++ chain ++ " chain for ipset '"
                          ++ ipset_name ++ "'")
           else ret tt
         else ret tt).

Definition cleanup_ipsets (asn : Z) : M unit :=
  if negb (validate_asn asn) then logger Error "Invalid ASN."
  else
    for_each [v4; v6]
      (fun version =>
         let ipset_name := set_name asn version in
         let cmd := iptables_bin version in
         _ <- run (cmd :: "-D" :: "INPUT" :: rule_spec ipset_name) ;;
         _ <- run [BIN_IPSET; "destroy"; ipset_name] ;;
         logger Info ("Removed ipset and rules for " ++ ipset_name)).

Definition main (args : Args) : M unit :=
  match args_action args with
  | update => update_datasets line_shape_ok "Datasets updated!"
  | block =>
      if asn_missing (args_asn args) then logger Error "ASN argument required."
      else create_ipset_and_rules (match args_asn args with Some n => n | None => 0%Z end)
             (args_dry_run args)
  | unblock =>
      if asn_missing (args_asn args) then logger Error "ASN argument required."
      else cleanup_ipsets (match args_asn args with Some n => n | None => 0%Z end)
  end.

End WithIpLibrary.
End iptables_asn_block.

(** ** A sample address library

    Dotted-quad IPv4 only, to run the scripts on concrete datasets; the
    theorems hold for every [IpLibrary]. *)

Fixpoint decimal_value (s : string) (acc : Z) : Z :=
  match s with
  | EmptyString => acc
  | String c r => decimal_value r (10 * acc + (Z.of_N (N_of_ascii c) - 48))%Z
  end.

Definition parse_octet (s : string) : option Z :=
  if nonempty s && all_chars is_digit s && (Z.of_nat (String.length s) <=? 3)%Z
     && (decimal_value s 0 <=? 255)%Z
  then Some (decimal_value s 0) else None.

Definition dotted_quad (s : string) : option IpAddress :=
  match map parse_octet (split "."%char s) with
  | [Some a; Some b; Some c; Some d] =>
      Some (mkAddr v4 (((a * 256 + b) * 256 + c) * 256 + d)%Z)
  | _ => None
  end.

Definition str_dotted_quad (n : Z) : string :=
  str_of_int (n / 16777216 mod 256)%Z ++ "." ++ str_of_int (n / 65536 mod 256)%Z
  ++ "." ++ str_of_int (n / 256 mod 256)%Z ++ "." ++ str_of_int (n mod 256)%Z.

Definition sample_library : IpLibrary := {|
  ip_address := dotted_quad;
  str_network := fun b =>
    match net_version b with
    | v4 => str_dotted_quad (network_address b)
    | v6 => str_of_int (network_address b)
    end ++ "/" ++ str_of_int (prefixlen b)
|}.

(** A host for the examples: no ipset, no rule, both datasets cached,
    the IPv4 one with two ranges of AS64500 and one of AS64501. *)
Definition sample_lines_v4 : list string :=
  [ "1.2.3.0" ++ String tab "1.2.3.255" ++ String tab "64500" ++ String tab "US"
      ++ String tab "EXAMPLE" ++ String newline "";
    "1.2.4.4" ++ String tab "1.2.4.9" ++ String tab "64500" ++ String tab "US"
      ++ String tab "EXAMPLE" ++ String newline "";
    "1.2.5.0" ++ String tab "1.2.5.255" ++ String tab "64501" ++ String tab "US"
      ++ String tab "OTHER" ++ String newline "" ].

Definition sample_world (services : list string) : World := {|
  active := fun s => mem s services;
  ipsets := [];
  chain := fun _ => [];
  datadir := true;
  files := fun v => match v with v4 => Some sample_lines_v4 | v6 => Some [] end;
  remote := fun _ => None
|}.

(** ** The shape of dataset lines *)

Inductive script : Type := asn_block_py | iptables_asn_block_py.

Definition parse_line_of (s : script) : Z -> string -> line_outcome :=
  match s with
  | asn_block_py => asn_block.parse_line
  | iptables_asn_block_py => iptables_asn_block.parse_line
  end.

Definition line_shape_ok_of (s : script) : string -> bool :=
  match s with
  | asn_block_py => asn_block.line_shape_ok
  | iptables_asn_block_py => iptables_asn_block.line_shape_ok
  end.

(** The tab-separated fields of a line. *)
Definition fields (line : string) : list string := split tab (strip line).

(** A comment line or a blank line. *)
Definition skipped (line : string) : bool :=
  startswith line "#" || (strip line =? "").

(** A line [parse_dataset] can take: a comment, a blank line, or a line
    with at least three fields (exactly three in iptables_asn_block.py). *)
Definition well_shaped (s : script) (line : string) : bool :=
  skipped line ||
  match s with
  | asn_block_py => (3 <=? Z.of_nat (List.length (fields line)))%Z
  | iptables_asn_block_py => (Z.of_nat (List.length (fields line)) =? 3)%Z
  end.

(** What a line contributes to the ranges of [asn]: its first two fields
    when it is no comment, not blank, and its third field is [asn]. *)
Definition wanted (asn : Z) (line : string) : list (string * string) :=
  if skipped line then []
  else match fields line with
       | a :: b :: c :: _ => if c =? str_of_int asn then [(a, b)] else []
       | _ => []
       end.

(** ** More hosts for the examples *)

(** A cache written by hand with three-field lines, as
    iptables_asn_block.py wants them. *)
Definition sample_lines3_v4 : list string :=
  [ "1.2.3.0" ++ String tab "1.2.3.255" ++ String tab "64500" ++ String newline "";
    "1.2.4.4" ++ String tab "1.2.4.9" ++ String tab "64500" ++ String newline "" ].

Definition sample_world3 (services : list string) : World := {|
  active := fun s => mem s services;
  ipsets := [];
  chain := fun _ => [];
  datadir := true;
  files := fun v => match v with v4 => Some sample_lines3_v4 | v6 => Some [] end;
  remote := fun _ => None
|}.

(** A host that blocked AS64500 through iptables and then lost its
    dataset cache; a download would fetch the sample lines. *)
Definition missing_world : World := {|
  active := fun s => mem s ["iptables"];
  ipsets := [("ASN64500_v4", ["1.2.3.0/24"]); ("ASN64500_v6", [])];
  chain := fun v => match v with v4 => ["ASN64500_v4"] | v6 => ["ASN64500_v6"] end;
  datadir := true;
  files := fun _ => None;
  remote := fun v => match v with v4 => Some sample_lines_v4 | v6 => Some [] end
|}.

(** A host with no firewall service active, no set, no rule and no
    dataset cache; a download would fetch the sample lines. *)
Definition bare_world : World := {|
  active := fun _ => false;
  ipsets := [];
  chain := fun _ => [];
  datadir := true;
  files := fun _ => None;
  remote := fun v => match v with v4 => Some sample_lines_v4 | v6 => Some [] end
|}.

(** A download event. *)
Definition is_download (e : event) : bool :=
  match e with Download _ => true | _ => false end.

(** ** Dry run against live run *)

(** The line a dry run prints for a command. *)
Definition describe (argv : list string) : string := dry_run_line (join " " argv).

(** A line that describes a command. *)
Definition is_would_run (line : string) : bool :=
  startswith line "[DRY-RUN] Would run: ".

(** The descriptions of commands a trace printed. *)
Definition would_run (t : list event) : list string :=
  filter is_would_run (printed t).

(** [argv] is an ipset command on the set [name]. *)
Definition touches (argv : list string) (name : string) : bool :=
  match argv with
  | bin :: _ :: n :: _ => (bin =? BIN_IPSET) && (n =? name)
  | _ => false
  end.

(** A dry run and a live run side by side: same services and datasets,
    and the same ipsets except those named in [D]. *)
Definition agree (D : list string) (wd wl : World) : Prop :=
  same_env wd wl /\ forall n, ~ In n D -> set_exists wd n = set_exists wl n.

(** [dry] simulates [live]: from hosts that agree, same outcome, hosts
    that still agree, no mutation by [dry], and the lines [dry] prints as
    would-run are the descriptions of the mutations of [live]. *)
Definition simulates {A} (D D' : list string) (dry live : M A) : Prop :=
  forall wd wl, agree D wd wl ->
    outcome (dry wd) = outcome (live wl) /\
    agree D' (final (dry wd)) (final (live wl)) /\
    mutations (trace (dry wd)) = [] /\
    would_run (trace (dry wd)) = map describe (mutations (trace (live wl))).

(** ** Vocabulary for the runs of the scripts *)

(** [main] of either script. *)
Definition main_of {L : IpLibrary} (s : script) : Args -> M unit :=
  match s with
  | asn_block_py => asn_block.main
  | iptables_asn_block_py => iptables_asn_block.main
  end.

(** The last message of [update_datasets]. *)
Definition updated_of (s : script) : string :=
  match s with
  | asn_block_py => "Datasets updated."
  | iptables_asn_block_py => "Datasets updated!"
  end.

(** What [download_file] writes to the cache from the lines fetched. *)
Definition kept (s : script) (lines : list string) : list string :=
  filter (fun l => line_shape_ok_of s (strip l)) lines.

(** The question [is_service_active] asks. *)
Definition ask (service : string) : list string :=
  [BIN_SYSTEMCTL; "is-active"; "--quiet"; service].

(** The rule commands of [create_ipset_and_rules] for one version, by
    backend. *)
Definition block_rules (firewall : string) (v : version) (ipset_name : string)
  (cidr_list : list string) : list (list string) :=
  if firewall =? "iptables" then
    [iptables_bin v :: "-I" :: "INPUT" :: rule_spec ipset_name]
  else if firewall =? "firewalld" then
    [[BIN_FIREWALL_CMD; "--permanent"; "--zone=block"; "--add-source=ipset:" ++ ipset_name];
     [BIN_FIREWALL_CMD; "--reload"]]
  else if firewall =? "ufw" then
    map (fun cidr => [BIN_UFW; "deny"; "from"; cidr]) cidr_list
  else [].

(** The rule commands of [cleanup_ipsets] for one version, by backend. *)
Definition unblock_rules (firewall : string) (v : version) (ipset_name : string)
  (cidr_list : list string) : list (list string) :=
  if firewall =? "iptables" then
    [iptables_bin v :: "-D" :: "INPUT" :: rule_spec ipset_name]
  else if firewall =? "firewalld" then
    [[BIN_FIREWALL_CMD; "--permanent"; "--zone=block"; "--remove-source=ipset:" ++ ipset_name];
     [BIN_FIREWALL_CMD; "--reload"]]
  else if firewall =? "ufw" then
    map (fun cidr => [BIN_UFW; "delete"; "deny"; "from"; cidr]) cidr_list
  else [].

(** The body of the loop [for version in ["v4", "v6"]] of
    [create_ipset_and_rules] in iptables_asn_block.py. *)
Definition iptables_block_version {L : IpLibrary} (asn : Z) (dry_run : bool)
  (version : version) : M unit :=
  let ipset_name := set_name asn version in
  let ip_version := match version with v4 => "inet" | v6 => "inet6" end in
  (if negb dry_run then
     _ <- run [BIN_IPSET; "create"; ipset_name; "hash:net"; "family"; ip_version] ;;
     _ <- run [BIN_IPSET; "flush"; ipset_name] ;;
     ret tt
   else ret tt) ;;
  count <- iptables_asn_block.add_cidrs asn dry_run version ipset_name ;;
  logger Info (str_of_int count ++ " CIDRs "
               ++ (if dry_run then "would be" else "added to")
               ++ " ipset '" ++ ipset_name ++ "'") ;;
  if negb dry_run then
    let chain := "INPUT" in
    let cmd := iptables_bin version in
    rc <- run (cmd :: "-C" :: chain :: rule_spec ipset_name) ;;
    let rule_exists := (rc =? 0)%Z in
    if negb rule_exists then
      _ <- run (cmd :: "-I" :: chain :: rule_spec ipset_name) ;;
      logger Info ("Rule added to " ++ chain ++ " chain for ipset '"
                   ++ ipset_name ++ "'")
    else ret tt
  else ret tt.

(** A computation that keeps a relation between the host before and
    after, whatever its outcome. *)
Definition stable (P : World -> World -> Prop) {A} (m : M A) : Prop :=
  forall w, P w (final (m w)).

(** A command that is no ipset command, or an ipset command on the set
    [name]. *)
Definition owned (name : string) (argv : list string) : bool :=
  touches argv name || negb (hd "" argv =? BIN_IPSET).

(** The commands one version of block or unblock may run: queries, and in
    a live run the commands on its own set and the rule commands. *)
Definition issued (dry_run : bool) (name : string) (argv : list string) : Prop :=
  is_query argv = true \/ (dry_run = false /\ owned name argv = true).

(** [P] is kept by every command one version of block or unblock may
    run. *)
Definition runs_keep (P : World -> World -> Prop) (dry_run : bool) (name : string)
  : Prop :=
  forall argv, issued dry_run name argv -> stable P (run argv).

(** Two states of the host with the same ipsets and the same rules. *)
Definition same_firewall (w w' : World) : Prop :=
  ipsets w' = ipsets w /\ chain w' = chain w.

(** What the two nested loops over a dataset end with: the accumulator
    after every CIDR, or the exception of the summarizer or of the
    generator. *)
Definition loop_result {S} (upd : S -> string -> S) (init : S)
  (cidrs : result (list string)) (stop : option exn) : result S :=
  match cidrs with
  | Ok l => match stop with
            | Some e => Raise e
            | None => Ok (fold_left upd l init)
            end
  | Raise e => Raise e
  | OutOfFuel => OutOfFuel
  end.

(** The host after one [ipset add], which a dry run does not issue. *)
Definition add_step (dry_run : bool) (ipset_name : string) (w : World) (cidr : string)
  : World :=
  if dry_run then w else snd (exec w [BIN_IPSET; "add"; ipset_name; cidr]).

(** The line a dry run of iptables_asn_block.py prints for one CIDR. *)
Definition would_add (ipset_name cidr : string) : string :=
  "[DRY-RUN] Would add " ++ cidr ++ " to ipset '" ++ ipset_name ++ "'".

(** The message that reports the number of CIDRs of one version. *)
Definition count_message (dry_run : bool) (ipset_name : string) (n : nat) : string :=
  str_of_int (Z.of_nat n) ++ " CIDRs " ++ (if dry_run then "would be" else "added to")
  ++ " ipset '" ++ ipset_name ++ "'".

(** The chain of one version after the check-then-insert of
    iptables_asn_block.py. *)
Definition ensure_rule (name : string) (rules : list string) : list string :=
  if mem name rules then rules else name :: rules.

(** The ipsets other than [name]. *)
Definition without (name : string) (sets : list (string * list string))
  : list (string * list string) :=
  filter (fun p => negb (fst p =? name)) sets.

(** * Proofs *)

Import ipaddress.

(** ** The summarizer *)

Local Close Scope py_scope.
Local Close Scope string_scope.

(** The bit length of a positive integer brackets it between two powers
    of two. *)
Lemma bit_length_pos n : 0 < n -> 0 <= bit_length n - 1 /\ 2 ^ (bit_length n - 1) <= n < 2 ^ bit_length n.
Proof.
  intros Hn. unfold bit_length.
  destruct (Z.eqb_spec n 0); [lia|].
  rewrite Z.abs_eq by lia.
  pose proof (Z.log2_spec n Hn) as H. pose proof (Z.log2_nonneg n).
  replace (Z.log2 n + 1 - 1) with (Z.log2 n) by lia.
  replace (Z.log2 n + 1) with (Z.succ (Z.log2 n)) by lia. lia.
Qed.

Lemma bit_length_double_succ x : 0 <= x -> bit_length (2 * x + 1) = bit_length x + 1.
Proof.
  intros Hx. unfold bit_length.
  destruct (Z.eqb_spec (2 * x + 1) 0); [lia|].
  rewrite !Z.abs_eq by lia.
  destruct (Z.eqb_spec x 0) as [->|Hx0]; [reflexivity|].
  rewrite Z.log2_succ_double by lia. lia.
Qed.

Lemma lnot_land_pred_even q :
  Z.land (Z.lnot (2 * q)) (2 * q - 1) = 2 * Z.land (Z.lnot q) (q - 1) + 1.
Proof.
  apply Z.bits_inj'. intros i Hi.
  replace (2 * q - 1) with (2 * (q - 1) + 1) by lia.
  rewrite Z.land_spec, Z.lnot_spec by lia.
  destruct (Z.eq_dec i 0) as [->|Hne].
  - rewrite Z.testbit_even_0, !Z.testbit_odd_0. reflexivity.
  - replace i with (Z.succ (i - 1)) by lia.
    rewrite Z.testbit_even_succ, !Z.testbit_odd_succ by lia.
    rewrite Z.land_spec, Z.lnot_spec by lia. reflexivity.
Qed.

Lemma lnot_land_pred_odd q :
  Z.land (Z.lnot (2 * q + 1)) (2 * q + 1 - 1) = 0.
Proof.
  apply Z.bits_inj'. intros i Hi.
  replace (2 * q + 1 - 1) with (2 * q) by lia.
  rewrite Z.land_spec, Z.lnot_spec, Z.bits_0 by lia.
  destruct (Z.eq_dec i 0) as [->|Hne].
  - rewrite Z.testbit_even_0, Z.testbit_odd_0. reflexivity.
  - replace i with (Z.succ (i - 1)) by lia.
    rewrite Z.testbit_even_succ, Z.testbit_odd_succ by lia.
    apply andb_negb_l.
Qed.

(** The trailing-zero count of a positive number. *)
(** [~n & (n - 1)] is the mask of the trailing zero bits of [n]: its bit
    length [t] is the exponent of 2 in [n]. *)
Lemma trailing_zeros_pos p :
  let t := bit_length (Z.land (Z.lnot (Z.pos p)) (Z.pos p - 1)) in
  0 <= Z.land (Z.lnot (Z.pos p)) (Z.pos p - 1) /\ 0 <= t /\
  exists m, Z.pos p = (2 * m + 1) * 2 ^ t.
Proof.
  induction p as [q _|q IH|]; cbv zeta in *.
  - rewrite Pos2Z.inj_xI, lnot_land_pred_odd. cbn.
    split; [lia|]. split; [lia|]. exists (Z.pos q). lia.
  - rewrite Pos2Z.inj_xO, lnot_land_pred_even.
    destruct IH as (H0 & Ht & m & Hm).
    rewrite bit_length_double_succ by assumption.
    split; [lia|]. split; [lia|]. exists m.
    rewrite Z.pow_add_r, Z.pow_1_r by lia. lia.
  - cbn. split; [lia|]. split; [lia|]. exists 0. reflexivity.
Qed.

Lemma odd_mul_pow2_not_divide m t k :
  0 <= t -> t < k -> ~ (2 ^ k | (2 * m + 1) * 2 ^ t).
Proof.
  intros Ht Hk [c Hc].
  replace k with (t + 1 + (k - t - 1)) in Hc by lia.
  rewrite !Z.pow_add_r, Z.pow_1_r in Hc by lia.
  assert (Hp : 0 < 2 ^ t) by (apply Z.pow_pos_nonneg; lia).
  assert (2 * m + 1 = 2 * (c * 2 ^ (k - t - 1))) by nia.
  lia.
Qed.

Lemma pow2_divide_mono a b n : 0 <= a <= b -> (2 ^ b | n) -> (2 ^ a | n).
Proof.
  intros Hab [c Hc]. exists (c * 2 ^ (b - a)).
  rewrite <- Z.mul_assoc, <- Z.pow_add_r by lia.
  replace (b - a + a) with b by lia. exact Hc.
Qed.

(** [count_righthand_zero_bits]: the largest power of two, up to [bits],
    that divides the number. *)
Lemma crzb_spec number bits :
  0 <= bits -> 0 <= number < 2 ^ bits ->
  let c := count_righthand_zero_bits number bits in
  0 <= c <= bits /\ (2 ^ c | number) /\
  (number <> 0 -> c < bits /\ ~ (2 ^ (c + 1) | number)).
Proof.
  intros Hb [Hn0 Hn]. unfold count_righthand_zero_bits.
  destruct (Z.eqb_spec number 0) as [->|Hne]; cbv zeta.
  - split; [lia|]. split; [apply Z.divide_0_r|]. intros; lia.
  - destruct number as [|p|p]; try lia.
    destruct (trailing_zeros_pos p) as (_ & Ht & m & Hm). cbv zeta in *.
    set (t := bit_length _) in *.
    assert (Hp : 0 < 2 ^ t) by (apply Z.pow_pos_nonneg; lia).
    assert (Hm0 : 0 <= m) by nia.
    assert (Htb : t < bits).
    { apply (Z.pow_lt_mono_r_iff 2); [lia|lia|]. nia. }
    rewrite Z.min_r by lia.
    split; [lia|]. split; [exists (2 * m + 1); exact Hm|].
    intros _. split; [lia|]. rewrite Hm. apply odd_mul_pow2_not_divide; lia.
Qed.

Lemma max_prefixlen_pos v : 0 < max_prefixlen v.
Proof. destruct v; cbn; lia. Qed.

Lemma ALL_ONES_eq v : ALL_ONES v = Z.ones (max_prefixlen v).
Proof. unfold ALL_ONES. rewrite Z.ones_equiv. lia. Qed.

Lemma crzb_ge number bits k :
  0 <= bits -> 0 < number < 2 ^ bits -> 0 <= k -> (2 ^ k | number) ->
  k <= count_righthand_zero_bits number bits.
Proof.
  intros Hb Hn Hk Hd.
  destruct (crzb_spec number bits Hb) as (Hc & _ & Hmax); [lia|].
  destruct Hmax as [_ Hnd]; [lia|].
  destruct (Z_le_gt_dec k (count_righthand_zero_bits number bits)); [assumption|].
  exfalso. apply Hnd. apply (pow2_divide_mono _ k); [lia|assumption].
Qed.

(** [nbits_of] is what section 4.2 asks for: the block is aligned, does not
    pass [last_int], and no larger aligned block fits. *)
Lemma nbits_spec v first_int last_int :
  0 <= first_int -> first_int <= last_int -> last_int <= ALL_ONES v ->
  let nb := nbits_of v first_int last_int in
  0 <= nb <= max_prefixlen v /\ (2 ^ nb | first_int) /\
  first_int + 2 ^ nb <= last_int + 1 /\
  (forall n, nb < n <= max_prefixlen v -> (2 ^ n | first_int) ->
             last_int + 1 < first_int + 2 ^ n).
Proof.
  intros H0 Hle Hmax. unfold nbits_of. cbv zeta.
  pose proof (max_prefixlen_pos v) as Hb. unfold ALL_ONES in Hmax.
  set (bits := max_prefixlen v) in *.
  destruct (bit_length_pos (last_int - first_int + 1)) as (HL & Hlo & Hhi); [lia|].
  set (L := bit_length (last_int - first_int + 1)) in *.
  destruct (crzb_spec first_int bits) as (Hc & Hdiv & Hodd); [lia|lia|].
  set (c := count_righthand_zero_bits first_int bits) in *.
  assert (HLb : L - 1 <= bits).
  { apply (Z.pow_le_mono_r_iff 2); [lia|lia|]. lia. }
  split; [lia|]. split.
  { apply (pow2_divide_mono _ c); [lia|assumption]. }
  split.
  { assert (2 ^ Z.min c (L - 1) <= 2 ^ (L - 1)) by (apply Z.pow_le_mono_r; lia). lia. }
  intros n Hn Hdn.
  destruct (Z_le_gt_dec c (L - 1)) as [Hcl|Hcl].
  - rewrite Z.min_l in Hn by lia.
    destruct (Z.eq_dec first_int 0) as [Hz|Hnz]; [|destruct (Hodd Hnz) as [_ Hnd]].
    + subst first_int. unfold c, count_righthand_zero_bits in Hn. cbn in Hn. lia.
    + exfalso. apply Hnd. apply (pow2_divide_mono _ n); [lia|assumption].
  - rewrite Z.min_r in Hn by lia.
    assert (2 ^ L <= 2 ^ n) by (apply Z.pow_le_mono_r; lia). lia.
Qed.

(** The bits of a netmask: ones on the prefix, zeros on the host part. *)
Lemma netmask_testbit v p i :
  0 <= p <= max_prefixlen v -> 0 <= i ->
  Z.testbit (ip_int_from_prefix v p) i
  = (i <? max_prefixlen v) && negb (i <? max_prefixlen v - p).
Proof.
  intros Hp Hi. unfold ip_int_from_prefix.
  pose proof (max_prefixlen_pos v).
  rewrite ALL_ONES_eq, Z.lxor_spec, Z.shiftr_spec by lia.
  rewrite !Z.testbit_ones_nonneg by lia.
  destruct (Z.ltb_spec i (max_prefixlen v)), (Z.ltb_spec (i + p) (max_prefixlen v)),
    (Z.ltb_spec i (max_prefixlen v - p)); try lia; reflexivity.
Qed.

(** The network constructor accepts an aligned address. *)
Lemma ip_network_ok v a nb :
  0 <= a <= ALL_ONES v -> 0 <= nb <= max_prefixlen v -> (2 ^ nb | a) ->
  ip_network v a (max_prefixlen v - nb) = Ok (mkNet v a (max_prefixlen v - nb)).
Proof.
  intros Ha Hnb [k Hk]. unfold ip_network.
  destruct (Z.ltb_spec a 0); [lia|]. destruct (Z.ltb_spec (ALL_ONES v) a); [lia|].
  destruct (Z.ltb_spec (max_prefixlen v - nb) 0); [lia|].
  destruct (Z.ltb_spec (max_prefixlen v) (max_prefixlen v - nb)); [lia|]. cbn [orb].
  replace (Z.land a (ip_int_from_prefix v (max_prefixlen v - nb))) with a;
    [rewrite Z.eqb_refl; reflexivity|].
  apply Z.bits_inj'. intros i Hi.
  rewrite Z.land_spec, netmask_testbit by lia.
  replace (max_prefixlen v - (max_prefixlen v - nb)) with nb by lia.
  destruct (Z.ltb_spec i nb).
  - subst a. rewrite Z.mul_pow2_bits_low by lia. reflexivity.
  - destruct (Z.ltb_spec i (max_prefixlen v)); cbn; [symmetry; apply andb_true_r|].
    rewrite andb_false_r.
    rewrite <- (Z.mod_small a (2 ^ max_prefixlen v)) by (unfold ALL_ONES in Ha; lia).
    apply Z.mod_pow2_bits_high. pose proof (max_prefixlen_pos v). lia.
Qed.

Lemma loop_measure_nonneg v first_int last_int : 0 <= loop_measure v first_int last_int.
Proof.
  unfold loop_measure. destruct (Z.ltb_spec last_int first_int); [lia|].
  pose proof (max_prefixlen_pos v).
  destruct (bit_length_pos (last_int - first_int + 1)); lia.
Qed.

(** Each iteration of the loop lowers the measure. *)
Lemma loop_measure_step v first_int last_int :
  0 <= first_int -> first_int <= last_int -> last_int <= ALL_ONES v ->
  let first' := first_int + 2 ^ nbits_of v first_int last_int in
  loop_measure v first' last_int < loop_measure v first_int last_int.
Proof.
  intros H0 Hle Hmax. cbv zeta.
  destruct (nbits_spec v first_int last_int H0 Hle Hmax) as (Hnb & Hdiv & Hfit & _).
  revert Hnb Hdiv Hfit. unfold nbits_of, loop_measure.
  pose proof (max_prefixlen_pos v) as Hb. unfold ALL_ONES in Hmax.
  set (bits := max_prefixlen v) in *.
  destruct (bit_length_pos (last_int - first_int + 1)) as (HL & Hlo & Hhi); [lia|].
  set (L := bit_length (last_int - first_int + 1)) in *.
  destruct (crzb_spec first_int bits) as (Hc & Hdc & Hodd); [lia|lia|].
  set (c := count_righthand_zero_bits first_int bits) in *.
  set (nb := Z.min c (L - 1)). intros Hnb Hdiv Hfit.
  assert (Hp : 0 < 2 ^ nb) by (apply Z.pow_pos_nonneg; lia).
  destruct (Z.ltb_spec last_int first_int); [lia|].
  destruct (Z.ltb_spec last_int (first_int + 2 ^ nb)); [lia|].
  destruct (bit_length_pos (last_int - (first_int + 2 ^ nb) + 1)) as (HL' & Hlo' & Hhi'); [lia|].
  set (L' := bit_length (last_int - (first_int + 2 ^ nb) + 1)) in *.
  assert (HLL : L' <= L).
  { assert (L' - 1 < L); [|lia]. apply (Z.pow_lt_mono_r_iff 2); lia. }
  set (c' := count_righthand_zero_bits (first_int + 2 ^ nb) bits).
  destruct (Z_le_gt_dec c (L - 1)) as [Hcl|Hcl].
  - assert (Hnbc : nb = c) by (unfold nb; lia).
    assert (Hnz : first_int <> 0).
    { intros Hz. assert (Hcb : c = bits).
      { unfold c, count_righthand_zero_bits. rewrite Hz. reflexivity. }
      rewrite Hnbc, Hcb in *. lia. }
    destruct (Hodd Hnz) as [Hcb Hnd].
    assert (Hc' : c + 1 <= c').
    { apply crzb_ge; [lia|lia|lia|]. rewrite Hnbc.
      destruct Hdc as [k Hk].
      assert (Hk2 : exists j, k = 2 * j + 1).
      { destruct (Z.even k) eqn:Ev.
        - exfalso. apply Hnd. apply Z.even_spec in Ev. destruct Ev as [j ->].
          exists j. rewrite Z.pow_add_r, Z.pow_1_r by lia. lia.
        - exists (k / 2). rewrite (Z.div_mod k 2) at 1 by lia.
          rewrite Zmod_even, Ev. lia. }
      destruct Hk2 as [j ->]. exists (j + 1).
      rewrite Z.pow_add_r, Z.pow_1_r by lia. lia. }
    lia.
  - assert (Hnbl : nb = L - 1) by (unfold nb; lia).
    assert (HL'lt : L' < L).
    { assert (L' - 1 < L - 1); [|lia]. apply (Z.pow_lt_mono_r_iff 2); [lia|lia|].
      assert (2 ^ L = 2 * 2 ^ (L - 1)).
      { replace L with (L - 1 + 1) at 1 by lia. rewrite Z.pow_add_r, Z.pow_1_r; lia. }
      rewrite Hnbl in *. lia. }
    assert (Hc' : L - 1 <= c').
    { apply crzb_ge; [lia|lia|lia|]. rewrite <- Hnbl.
      apply Z.divide_add_r; [assumption|apply Z.divide_refl]. }
    lia.
Qed.

(** With fuel above the measure the loop returns, and what it returns is
    a greedy tiling of [[first_int, last_int]]. *)
Lemma summarize_loop_greedy fuel : forall v first_int last_int,
  0 <= first_int -> first_int <= last_int + 1 -> last_int <= ALL_ONES v ->
  loop_measure v first_int last_int < Z.of_nat fuel ->
  exists l, summarize_loop fuel v first_int last_int = Ok l /\
            greedy v first_int (last_int + 1) l.
Proof.
  induction fuel as [|fuel IH]; intros v first_int last_int H0 Hle Hmax Hfuel.
  - pose proof (loop_measure_nonneg v first_int last_int). lia.
  - cbn [summarize_loop]. destruct (Z.leb_spec first_int last_int) as [Hfl|Hfl].
    + destruct (nbits_spec v first_int last_int H0 Hfl Hmax) as (Hnb & Hdiv & Hfit & Hbig).
      pose proof (loop_measure_step v first_int last_int H0 Hfl Hmax) as Hstep.
      cbv zeta in *. set (nb := nbits_of v first_int last_int) in *.
      rewrite ip_network_ok by (try assumption; lia).
      rewrite Z.shiftl_1_l.
      assert (Hblk : forall rest, greedy v (first_int + 2 ^ nb) (last_int + 1) rest ->
                greedy v first_int (last_int + 1)
                  (mkNet v first_int (max_prefixlen v - nb) :: rest)).
      { intros rest Hrest. cbn [greedy]. unfold block_size. cbn.
        replace (max_prefixlen v - (max_prefixlen v - nb)) with nb by lia.
        repeat split; try assumption; lia. }
      destruct (Z.eqb_spec (first_int + 2 ^ nb - 1) (ALL_ONES v)) as [Hend|Hend].
      * eexists. split; [reflexivity|]. apply Hblk. cbn. lia.
      * destruct (IH v (first_int + 2 ^ nb) last_int) as (rest & -> & Hrest);
          try lia.
        eexists. split; [reflexivity|]. apply Hblk, Hrest.
    + exists []. split; [reflexivity|]. cbn. lia.
Qed.

(** The fuel of [summarize_address_range] is above the measure of every
    range of the version: the loop runs at most [3 * bits + 3] times. *)
Lemma loop_measure_bound v first_int last_int :
  0 <= first_int -> last_int <= ALL_ONES v ->
  loop_measure v first_int last_int < Z.of_nat (summarize_fuel v).
Proof.
  intros H0 Hmax. unfold loop_measure, summarize_fuel.
  pose proof (max_prefixlen_pos v) as Hb.
  rewrite Z2Nat.id by lia.
  destruct (Z.ltb_spec last_int first_int); [lia|]. cbv zeta.
  destruct (bit_length_pos (last_int - first_int + 1)) as (HL & Hlo & Hhi); [lia|].
  destruct (crzb_spec first_int (max_prefixlen v)) as (Hc & _); [lia|unfold ALL_ONES in Hmax; lia|].
  assert (bit_length (last_int - first_int + 1) - 1 <= max_prefixlen v).
  { apply (Z.pow_le_mono_r_iff 2); [lia|lia|]. unfold ALL_ONES in Hmax. lia. }
  lia.
Qed.

Lemma summarize_address_range_greedy first last :
  wf_address first -> wf_address last ->
  addr_version first = addr_version last -> addr_ip first <= addr_ip last ->
  exists l, summarize_address_range first last = Ok l /\
            greedy (addr_version first) (addr_ip first) (addr_ip last + 1) l.
Proof.
  intros [Hf0 Hf1] [Hl0 Hl1] Hv Hle. unfold summarize_address_range.
  rewrite <- Hv in *.
  replace (version_eqb (addr_version first) (addr_version first)) with true
    by (destruct (addr_version first); reflexivity).
  cbn [negb]. destruct (Z.ltb_spec (addr_ip last) (addr_ip first)); [lia|].
  apply summarize_loop_greedy; try lia.
  apply loop_measure_bound; lia.
Qed.

(** *** Consequences of a greedy tiling *)

Lemma block_size_pos b : 0 <= prefixlen b <= max_prefixlen (net_version b) -> 0 < block_size b.
Proof. intros H. unfold block_size. apply Z.pow_pos_nonneg; lia. Qed.

Lemma greedy_le v l : forall a b, greedy v a b l -> a <= b.
Proof.
  induction l as [|blk rest IH]; cbn; intros a b H; [lia|].
  destruct H as (Hv & Hn & Hp & _ & Hle & _ & Hr).
  apply IH in Hr. subst v. pose proof (block_size_pos blk Hp). lia.
Qed.

Lemma greedy_starts v l : forall a b,
  greedy v a b l -> Forall (fun blk => a <= network_address blk /\
                                       network_address blk + block_size blk <= b) l.
Proof.
  induction l as [|blk rest IH]; cbn; intros a b H; constructor.
  - destruct H as (Hv & Hn & Hp & _ & Hle & _ & Hr). lia.
  - destruct H as (Hv & Hn & Hp & _ & Hle & _ & Hr).
    apply IH in Hr. subst v. pose proof (block_size_pos blk Hp).
    eapply Forall_impl; [|exact Hr]. cbn. intros; lia.
Qed.

Lemma greedy_covered v l : forall a b x,
  greedy v a b l -> (covered l x = true <-> a <= x < b).
Proof.
  induction l as [|blk rest IH]; cbn; intros a b x H.
  - split; [discriminate|lia].
  - destruct H as (Hv & Hn & Hp & _ & Hle & _ & Hr). subst v.
    pose proof (block_size_pos blk Hp) as Hpos.
    pose proof (greedy_le _ _ _ _ Hr) as Hab.
    specialize (IH _ _ x Hr). unfold covered in IH.
    rewrite orb_true_iff, IH. unfold in_block.
    rewrite andb_true_iff, Z.leb_le, Z.ltb_lt. lia.
Qed.

Lemma greedy_no_overlap v l : forall a b,
  greedy v a b l -> ForallOrdPairs (fun b1 b2 => ~ overlap b1 b2) l.
Proof.
  induction l as [|blk rest IH]; cbn; intros a b H; constructor.
  - destruct H as (Hv & Hn & Hp & _ & Hle & _ & Hr).
    apply greedy_starts in Hr. eapply Forall_impl; [|exact Hr]. cbn.
    intros b2 [Hlo _] (x & H1 & H2). unfold in_block in *.
    rewrite andb_true_iff, Z.leb_le, Z.ltb_lt in H1, H2. lia.
  - destruct H as (_ & _ & _ & _ & _ & _ & Hr). eapply IH, Hr.
Qed.

Lemma greedy_valid v l : forall a b,
  0 <= a -> b <= ALL_ONES v + 1 -> greedy v a b l -> Forall valid_block l.
Proof.
  induction l as [|blk rest IH]; cbn; intros a b Ha Hb H; constructor.
  - destruct H as (Hv & Hn & Hp & Hd & Hle & _ & Hr). subst v.
    pose proof (block_size_pos blk Hp). apply greedy_le in Hr.
    unfold valid_block. rewrite Hn. repeat split; try lia. assumption.
  - destruct H as (Hv & Hn & Hp & Hd & Hle & _ & Hr). subst v.
    pose proof (block_size_pos blk Hp).
    eapply IH; [| |exact Hr]; lia.
Qed.

(** Two neighbours of a greedy tiling are never the halves of one parent:
    the first would have been that parent. *)
Lemma greedy_no_siblings v l : forall a b x y,
  greedy v a b l -> adjacent l x y -> siblings x y = false.
Proof.
  induction l as [|blk rest IH]; intros a b x y H (pre & post & Heq).
  - destruct pre; discriminate.
  - destruct pre as [|p0 pre]; cbn in Heq; injection Heq as -> ->.
    + cbn [greedy] in H.
      destruct H as (Hv & Hn & Hp & Hd & Hle & Hbig & Hv' & Hn' & Hp' & Hd' & Hle' & _).
      unfold siblings.
      destruct (Z.eqb_spec (prefixlen x) (prefixlen y)) as [Hpp|]; [|apply andb_false_iff; left; apply andb_false_iff; left; apply andb_false_iff; left; apply andb_false_r].
      destruct (Z.ltb_spec 0 (prefixlen x)) as [Hpos|]; [|rewrite andb_false_r; reflexivity].
      destruct (Z.eqb_spec (network_address x / (2 * block_size x))
                  (network_address y / (2 * block_size y))) as [Hpar|]; [|apply andb_false_r].
      exfalso.
      assert (Hs : block_size y = block_size x) by (unfold block_size; congruence).
      rewrite Hs, Hn', Hn in *.
      pose proof (block_size_pos x ltac:(rewrite Hv; lia)) as Hsz.
      destruct Hd as [k Hk]. set (s := block_size x) in *.
      assert (Hq : (a + s) / (2 * s) = a / (2 * s)) by lia.
      rewrite Hk in Hq.
      replace (k * s + s) with ((k + 1) * s) in Hq by lia.
      rewrite !Z.div_mul_cancel_r in Hq by lia.
      assert (Hev : exists j, k = 2 * j).
      { exists (k / 2). pose proof (Z.div_mod k 2 ltac:(lia)).
        pose proof (Z.div_mod (k + 1) 2 ltac:(lia)).
        pose proof (Z.mod_pos_bound k 2 ltac:(lia)).
        pose proof (Z.mod_pos_bound (k + 1) 2 ltac:(lia)). lia. }
      destruct Hev as [j Hj].
      specialize (Hbig (max_prefixlen v - prefixlen x + 1) ltac:(lia)).
      assert (H2s : 2 ^ (max_prefixlen v - prefixlen x + 1) = 2 * s).
      { unfold s, block_size. rewrite Hv, Z.pow_add_r, Z.pow_1_r by lia. lia. }
      rewrite H2s in Hbig.
      assert (b < a + 2 * s); [|lia].
      apply Hbig. exists j. lia.
    + cbn [greedy] in H. destruct H as (_ & _ & _ & _ & _ & _ & Hr).
      eapply IH; [exact Hr|]. exists pre, post. reflexivity.
Qed.

(** *** Fewest blocks *)

Lemma valid_block_size_pos b : valid_block b -> 0 < block_size b.
Proof. intros (H & _). apply block_size_pos, H. Qed.

Lemma in_block_iff b a :
  in_block b a = true <-> network_address b <= a < network_address b + block_size b.
Proof. unfold in_block. rewrite andb_true_iff, Z.leb_le, Z.ltb_lt. reflexivity. Qed.

(** Valid blocks of one version are nested or disjoint. *)
Lemma laminar b1 b2 :
  valid_block b1 -> valid_block b2 -> net_version b1 = net_version b2 ->
  block_size b1 <= block_size b2 -> overlap b1 b2 -> inside b1 b2.
Proof.
  intros V1 V2 Hv Hs (x & H1 & H2).
  apply in_block_iff in H1. apply in_block_iff in H2.
  pose proof (valid_block_size_pos b1 V1) as P1.
  destruct V1 as (Hp1 & _ & [m1 Hm1]). destruct V2 as (Hp2 & _ & [m2 Hm2]).
  assert (Hd : (block_size b1 | block_size b2)).
  { unfold block_size in *. rewrite Hv in *.
    assert (max_prefixlen (net_version b2) - prefixlen b1
            <= max_prefixlen (net_version b2) - prefixlen b2).
    { apply (Z.pow_le_mono_r_iff 2); lia. }
    exists (2 ^ (prefixlen b1 - prefixlen b2)).
    rewrite <- Z.pow_add_r by lia. f_equal. lia. }
  destruct Hd as [q Hq]. unfold inside.
  set (s1 := block_size b1) in *. set (s2 := block_size b2) in *.
  rewrite Hm1, Hm2, Hq in *.
  assert (m2 * q < m1 + 1) by nia.
  assert (m1 < m2 * q + q) by nia.
  split; nia.
Qed.

Lemma overlap_sym b1 b2 : overlap b1 b2 -> overlap b2 b1.
Proof. intros (x & H1 & H2). exists x. split; assumption. Qed.

Lemma in_block_network b : 0 < block_size b -> in_block b (network_address b) = true.
Proof. intros H. apply in_block_iff. lia. Qed.

(** A block of a greedy tiling contains every valid block of the tiled
    interval that it meets. *)
Lemma greedy_maximal v l : forall a b,
  greedy v a b l -> 0 <= a -> b <= ALL_ONES v + 1 ->
  forall B, valid_block B -> net_version B = v ->
            a <= network_address B -> network_address B + block_size B <= b ->
  forall G, In G l -> overlap B G -> inside B G.
Proof.
  induction l as [|G0 rest IH]; intros a b Hg Ha Hb B VB HvB HaB HbB G HG Hov;
    [destruct HG|].
  pose proof (greedy_valid _ _ _ _ Ha Hb Hg) as Hval.
  pose proof (valid_block_size_pos B VB) as PB.
  cbn [greedy] in Hg. destruct Hg as (Hv0 & Hn0 & Hp0 & Hd0 & Hle0 & Hbig & Hrest).
  assert (V0 : valid_block G0) by (inversion Hval; assumption).
  pose proof (valid_block_size_pos G0 V0) as P0.
  assert (F0 : overlap B G0 -> inside B G0).
  { intros Ho. destruct (Z_le_gt_dec (block_size B) (block_size G0)) as [Hs|Hs].
    - apply laminar; try assumption. congruence.
    - exfalso.
      assert (Hin : inside G0 B).
      { apply laminar; try assumption; [congruence|lia|apply overlap_sym, Ho]. }
      destruct Hin as [Hin _]. rewrite Hn0 in Hin.
      assert (HnB : network_address B = a) by lia.
      destruct VB as (HpB & _ & HdB).
      unfold block_size in *. rewrite HvB, Hv0 in *.
      assert (Hj : max_prefixlen v - prefixlen G0 < max_prefixlen v - prefixlen B).
      { apply (Z.pow_lt_mono_r_iff 2); lia. }
      specialize (Hbig (max_prefixlen v - prefixlen B) ltac:(lia)).
      rewrite HnB in HdB. specialize (Hbig HdB). lia. }
  destruct HG as [<-|HG]; [exact (F0 Hov)|].
  destruct (Z_le_gt_dec (a + block_size G0) (network_address B)) as [Hfar|Hnear].
  - eapply (IH (a + block_size G0) b); try eassumption; lia.
  - exfalso.
    assert (Ho0 : overlap B G0).
    { exists (network_address B). split; [apply in_block_network, PB|].
      apply in_block_iff. lia. }
    destruct (F0 Ho0) as [_ Hin]. rewrite Hn0 in Hin.
    pose proof (greedy_starts _ _ _ _ Hrest) as Hst.
    rewrite Forall_forall in Hst. specialize (Hst G HG).
    destruct Hov as (y & H1 & H2). apply in_block_iff in H1. apply in_block_iff in H2. lia.
Qed.

Lemma greedy_NoDup v l : forall a b, greedy v a b l -> NoDup l.
Proof.
  induction l as [|G0 rest IH]; intros a b Hg; constructor.
  - cbn [greedy] in Hg. destruct Hg as (Hv0 & Hn0 & Hp0 & _ & _ & _ & Hrest).
    intros Hin. pose proof (greedy_starts _ _ _ _ Hrest) as Hst.
    rewrite Forall_forall in Hst. specialize (Hst G0 Hin).
    pose proof (block_size_pos G0 ltac:(rewrite Hv0; exact Hp0)). lia.
  - cbn [greedy] in Hg. destruct Hg as (_ & _ & _ & _ & _ & _ & Hrest). eapply IH, Hrest.
Qed.

(** No cover of the interval by valid blocks has fewer blocks than a
    greedy tiling. *)
Lemma greedy_fewest v l a b :
  greedy v a b l -> 0 <= a -> b <= ALL_ONES v + 1 ->
  forall cover,
    Forall (fun B => valid_block B /\ net_version B = v) cover ->
    (forall x, covered cover x = true <-> a <= x < b) ->
    (List.length l <= List.length cover)%nat.
Proof.
  intros Hg Ha Hb cover Hval Hcov.
  rewrite Forall_forall in Hval.
  assert (Hwithin : forall B, In B cover ->
            a <= network_address B /\ network_address B + block_size B <= b).
  { intros B HB. destruct (Hval B HB) as [VB _].
    pose proof (valid_block_size_pos B VB) as PB.
    assert (H1 : covered cover (network_address B) = true).
    { apply existsb_exists. exists B. split; [exact HB|apply in_block_network, PB]. }
    assert (H2 : covered cover (network_address B + block_size B - 1) = true).
    { apply existsb_exists. exists B. split; [exact HB|]. apply in_block_iff. lia. }
    apply Hcov in H1. apply Hcov in H2. lia. }
  set (f := fun G => match find (fun B => in_block B (network_address G)) cover with
                     | Some B => B
                     | None => G
                     end).
  pose proof (greedy_valid _ _ _ _ Ha Hb Hg) as HvalG. rewrite Forall_forall in HvalG.
  pose proof (greedy_starts _ _ _ _ Hg) as Hst. rewrite Forall_forall in Hst.
  assert (Hf : forall G, In G l ->
            In (f G) cover /\ in_block (f G) (network_address G) = true /\ inside (f G) G).
  { intros G HG. pose proof (valid_block_size_pos G (HvalG G HG)) as PG.
    specialize (Hst G HG). unfold f.
    destruct (find (fun B => in_block B (network_address G)) cover) as [B|] eqn:Hfind.
    - apply find_some in Hfind. destruct Hfind as [HB Hin].
      split; [exact HB|]. split; [exact Hin|].
      destruct (Hval B HB) as [VB HvB]. destruct (Hwithin B HB).
      eapply greedy_maximal; try eassumption.
      exists (network_address G). split; [exact Hin|apply in_block_network, PG].
    - exfalso. assert (Hc : covered cover (network_address G) = true) by (apply Hcov; lia).
      apply existsb_exists in Hc. destruct Hc as (B & HB & Hin).
      rewrite (find_none _ _ Hfind B HB) in Hin. discriminate. }
  rewrite <- (length_map f l). apply NoDup_incl_length.
  - apply NoDup_map_NoDup_ForallPairs; [|eapply greedy_NoDup, Hg].
    intros x y Hx Hy Hxy.
    destruct (Hf x Hx) as (Hcx & _ & Hix). destruct (Hf y Hy) as (_ & _ & Hiy).
    rewrite <- Hxy in Hiy.
    destruct (Hval _ Hcx) as [VB _]. pose proof (valid_block_size_pos _ VB) as PB.
    assert (Ho : overlap x y).
    { exists (network_address (f x)). destruct Hix, Hiy.
      split; apply in_block_iff; lia. }
    destruct (ForallOrdPairs_In (greedy_no_overlap _ _ _ _ Hg) x y Hx Hy) as [E|[N|N]];
      [exact E|destruct (N Ho)|destruct (N (overlap_sym _ _ Ho))].
  - intros B HB. apply in_map_iff in HB. destruct HB as (G & <- & HG). apply Hf, HG.
Qed.

(** ** The scripts *)

Local Open Scope string_scope.
Local Open Scope py_scope.

(** Detection leaves the host as it is, asks only questions, and answers
    from the three backends. *)
Lemma detect_run (w : World) :
  exists t,
    asn_block.detect_firewall_backend w
    = (Ok (detected (active w "firewalld") (active w "ufw")
                    (active w "iptables" || active w "ip6tables")), w, t)
    /\ forallb harmless t = true.
Proof.
  unfold asn_block.detect_firewall_backend, asn_block.is_service_active, bind, run, logger, emit, ret.
  cbn.
  destruct (active w "firewalld"), (active w "ufw"), (active w "iptables");
    cbn; try destruct (active w "ip6tables"); cbn;
    eexists; split; reflexivity.
Qed.

Lemma block_invalid {L : IpLibrary} asn dry_run w :
  validate_asn asn = false ->
  asn_block.create_ipset_and_rules asn dry_run w
  = (Ok tt, w, [Print "--- Creating block rules ---"; Log Error "Invalid ASN."]).
Proof.
  intros H. unfold asn_block.create_ipset_and_rules, bind, print, logger, emit.
  rewrite H. reflexivity.
Qed.

Lemma block_conflict {L : IpLibrary} asn dry_run w :
  detected (active w "firewalld") (active w "ufw")
           (active w "iptables" || active w "ip6tables") = "conflict" ->
  exists t, asn_block.create_ipset_and_rules asn dry_run w = (Ok tt, w, t)
            /\ forallb harmless t = true.
Proof.
  intros Hc. destruct (validate_asn asn) eqn:Hv.
  - destruct (detect_run w) as (t & Hd & Ht).
    unfold asn_block.create_ipset_and_rules, bind at 1, print, emit.
    rewrite Hv. cbn [negb]. unfold bind at 1. rewrite Hd, Hc. cbn.
    eexists. split; [reflexivity|]. rewrite app_nil_r. exact Ht.
  - rewrite block_invalid by assumption. eexists. split; reflexivity.
Qed.


Lemma same_env_refl w : same_env w w.
Proof. repeat split. Qed.

Lemma same_env_trans w1 w2 w3 : same_env w1 w2 -> same_env w2 w3 -> same_env w1 w3.
Proof. unfold same_env. intros (?&?&?) (?&?&?). repeat split; congruence. Qed.

Lemma ipset_command_env w op name args : same_env w (snd (ipset_command w op name args)).
Proof.
  unfold ipset_command.
  repeat match goal with
         | |- context [if ?b then _ else _] => destruct b
         | |- context [match ?l with [] => _ | _ :: _ => _ end] => destruct l
         end; cbn; repeat split.
Qed.

Lemma iptables_command_env w v op args : same_env w (snd (iptables_command w v op args)).
Proof.
  unfold iptables_command.
  repeat match goal with
         | |- context [if ?b then _ else _] => destruct b
         | |- context [match ?l with [] => _ | _ :: _ => _ end] => destruct l
         end; cbn; repeat split.
Qed.

(** No command changes the services or the datasets. *)
Lemma exec_env w argv : same_env w (snd (exec w argv)).
Proof.
  unfold exec.
  destruct argv as [|bin [|op rest]]; try apply same_env_refl.
  destruct (bin =? BIN_SYSTEMCTL).
  - destruct rest as [|q [|s [|]]]; try apply same_env_refl.
    destruct (_ && _); apply same_env_refl.
  - destruct (bin =? BIN_IPSET).
    + destruct rest; [apply same_env_refl|apply ipset_command_env].
    + destruct (tool_version bin); [apply iptables_command_env|apply same_env_refl].
Qed.

Lemma run_spec argv w :
  exists rc w', run argv w = (Ok rc, w', [Run argv]) /\ same_env w w'.
Proof.
  unfold run. pose proof (exec_env w argv) as H.
  destruct (exec w argv) as [rc w']. exists rc, w'. split; [reflexivity|exact H].
Qed.

(** Running [bind] step by step. *)
Lemma bind_Ok {A B} (m : M A) (k : A -> M B) w a w1 t1 :
  m w = (Ok a, w1, t1) ->
  bind m k w = (outcome (k a w1), final (k a w1), (t1 ++ trace (k a w1))%list).
Proof.
  intros H. unfold bind. rewrite H. destruct (k a w1) as [[r w2] t2]. reflexivity.
Qed.

Lemma bind_Raise {A B} (m : M A) (k : A -> M B) w e w1 t1 :
  m w = (Raise e, w1, t1) -> bind m k w = (Raise e, w1, t1).
Proof. intros H. unfold bind. rewrite H. reflexivity. Qed.

Lemma bind_OutOfFuel {A B} (m : M A) (k : A -> M B) w w1 t1 :
  m w = (OutOfFuel, w1, t1) -> bind m k w = (OutOfFuel, w1, t1).
Proof. intros H. unfold bind. rewrite H. reflexivity. Qed.

Lemma keeps_refl w : keeps w w.
Proof. split; [apply same_env_refl|split; reflexivity]. Qed.

Lemma keeps_trans w1 w2 w3 : keeps w1 w2 -> keeps w2 w3 -> keeps w1 w3.
Proof.
  intros (E1 & C1 & S1) (E2 & C2 & S2). split; [eapply same_env_trans; eassumption|].
  split; intros; [rewrite C2; apply C1|rewrite S2; apply S1].
Qed.

Lemma keeps_env w w' : keeps w w' -> same_env w w'.
Proof. intros H. apply H. Qed.

(** [ipset add] changes the members of a set, and nothing else. *)
Lemma ipset_add_keeps w name cidr : keeps w (snd (exec w [BIN_IPSET; "add"; name; cidr])).
Proof.
  change (exec w [BIN_IPSET; "add"; name; cidr]) with (ipset_command w "add" name [cidr]).
  unfold ipset_command. cbn [String.eqb Ascii.eqb Bool.eqb].
  destruct (existsb _ (ipsets w)); [|apply keeps_refl].
  split; [repeat split|]. split; [reflexivity|].
  intros n. unfold set_exists. cbn [snd ipsets with_ipsets].
  induction (ipsets w) as [|p r IH]; [reflexivity|]. cbn [map existsb]. rewrite IH.
  destruct (String.eqb_spec (fst p) name) as [->|]; reflexivity.
Qed.

(** A loop whose body always succeeds. *)
Lemma foldM_total {A S} (body : S -> A -> M S) (f : S -> A -> S)
  (ev : A -> list event) :
  (forall s x w, exists w', body s x w = (Ok (f s x), w', ev x) /\ keeps w w') ->
  forall l s w, exists w',
    foldM body l s w = (Ok (fold_left f l s), w', flat_map ev l) /\ keeps w w'.
Proof.
  intros Hb l. induction l as [|x r IH]; intros s w; cbn [foldM fold_left flat_map].
  - exists w. split; [reflexivity|apply keeps_refl].
  - destruct (Hb s x w) as (w1 & H1 & E1).
    destruct (IH (f s x) w1) as (w2 & H2 & E2).
    exists w2. split; [|eapply keeps_trans; eassumption].
    rewrite (bind_Ok _ _ _ _ _ _ H1), H2. reflexivity.
Qed.

Lemma fold_left_snoc {A} (g : A -> string) (l : list A) (acc : list string) :
  fold_left (fun a x => (a ++ [g x])%list) l acc = (acc ++ map g l)%list.
Proof.
  revert acc. induction l as [|x r IH]; intros acc; cbn.
  - now rewrite app_nil_r.
  - rewrite IH, <- app_assoc. reflexivity.
Qed.


Section NestedLoops.
Context {L : IpLibrary}.
Variable body : list string -> CidrBlock -> M (list string).
Variable ev : string -> list event.
Hypothesis body_spec : forall s x w, exists w',
  body s x w = (Ok (s ++ [str_network x])%list, w', ev (str_network x))
  /\ keeps w w'.

Let outer (acc : list string) (se : string * string) : M (list string) :=
  for_result (iprange_to_cidr (fst se) (snd se)) body acc.

Lemma inner_loop nets acc w : exists w',
  foldM body nets acc w
  = (Ok (acc ++ map str_network nets)%list, w', flat_map ev (map str_network nets))
  /\ keeps w w'.
Proof.
  destruct (foldM_total body (fun s x => (s ++ [str_network x])%list)
              (fun x => ev (str_network x)) body_spec nets acc w) as (w' & H & E).
  exists w'. split; [|exact E]. rewrite H, fold_left_snoc.
  f_equal. rewrite flat_map_concat_map, flat_map_concat_map, map_map. reflexivity.
Qed.

Lemma outer_loop pairs : forall acc w, exists w' t,
  foldM outer pairs acc w
  = (lift_result (app acc) (pure_cidrs pairs), w', t)
  /\ keeps w w'
  /\ (forall l, pure_cidrs pairs = Ok l -> t = flat_map ev l).
Proof.
  induction pairs as [|se r IH]; intros acc w; cbn [foldM pure_cidrs].
  - exists w, []. cbn. rewrite app_nil_r.
    split; [reflexivity|]. split; [apply keeps_refl|].
    intros l [= <-]. reflexivity.
  - unfold outer at 1. destruct (iprange_to_cidr (fst se) (snd se)) as [nets|e|]; cbn [for_result].
    + destruct (inner_loop nets acc w) as (w1 & H1 & E1).
      destruct (IH (acc ++ map str_network nets)%list w1) as (w2 & t2 & H2 & E2 & T2).
      rewrite (bind_Ok _ _ _ _ _ _ H1), H2. cbn [outcome final trace fst snd].
      exists w2, (flat_map ev (map str_network nets) ++ t2)%list.
      split; [|split; [eapply keeps_trans; eassumption|]].
      * destruct (pure_cidrs r); cbn; try reflexivity. now rewrite app_assoc.
      * intros l Hl. destruct (pure_cidrs r) as [l'| |]; try discriminate.
        injection Hl as <-. rewrite flat_map_app, (T2 l' eq_refl). reflexivity.
    + exists w, []. split; [reflexivity|]. split; [apply keeps_refl|discriminate].
    + exists w, []. split; [reflexivity|]. split; [apply keeps_refl|discriminate].
Qed.

Lemma dataset_loop (parse_line : string -> line_outcome) v w : exists w' t,
  (file <- read_file v ;; for_gen (parse_dataset parse_line file) outer []) w
  = (cidr_list_of (parse_dataset parse_line (files w v)), w', t)
  /\ keeps w w'
  /\ (forall l, cidr_list_of (parse_dataset parse_line (files w v)) = Ok l ->
                t = flat_map ev l).
Proof.
  unfold bind at 1, read_file. unfold for_gen, cidr_list_of.
  set (g := parse_dataset parse_line (files w v)).
  destruct (outer_loop (fst g) [] w) as (w1 & t1 & H1 & E1 & T1).
  cbn [app] in H1.
  destruct (pure_cidrs (fst g)) as [l|e|] eqn:Hp; cbn [lift_result] in H1.
  - rewrite (bind_Ok _ _ _ _ _ _ H1).
    destruct (snd g) as [e|]; cbn.
    + exists w1, (t1 ++ [])%list. split; [reflexivity|]. split; [exact E1|discriminate].
    + exists w1, (t1 ++ [])%list. split; [reflexivity|]. split; [exact E1|].
      intros l' [= <-]. rewrite app_nil_r. apply T1. reflexivity.
  - rewrite (bind_Raise _ _ _ _ _ _ H1). cbn.
    exists w1, t1. split; [reflexivity|]. split; [exact E1|discriminate].
  - rewrite (bind_OutOfFuel _ _ _ _ _ H1). cbn.
    exists w1, t1. split; [reflexivity|]. split; [exact E1|discriminate].
Qed.

End NestedLoops.


Lemma add_ip_spec ipset_name cidr dry_run w : exists w',
  asn_block.add_ip_to_ipset ipset_name cidr dry_run w
  = (Ok tt, w', [add_event dry_run ipset_name cidr]) /\ keeps w w'.
Proof.
  unfold asn_block.add_ip_to_ipset, add_event. destruct dry_run.
  - exists w. split; [reflexivity|apply keeps_refl].
  - exists (snd (exec w [BIN_IPSET; "add"; ipset_name; cidr])).
    split; [|apply ipset_add_keeps].
    unfold bind, run. destruct (exec w [BIN_IPSET; "add"; ipset_name; cidr]). reflexivity.
Qed.

(** What the loops of block compute is [cidr_list_of] the dataset; when
    that succeeds, they issue one add per CIDR. *)
Lemma block_cidr_list_run {L : IpLibrary} asn dry_run v ipset_name w : exists w' t,
  asn_block.block_cidr_list asn dry_run v ipset_name w
  = (cidr_list_of (parse_dataset (asn_block.parse_line asn) (files w v)), w', t)
  /\ keeps w w'
  /\ (forall l, cidr_list_of (parse_dataset (asn_block.parse_line asn) (files w v)) = Ok l ->
                t = map (add_event dry_run ipset_name) l).
Proof.
  unfold asn_block.block_cidr_list.
  destruct (dataset_loop
              (fun cidr_list net =>
                 asn_block.add_ip_to_ipset ipset_name (str_network net) dry_run ;;
                 ret (cidr_list ++ [str_network net])%list)
              (fun c => [add_event dry_run ipset_name c])) with
    (parse_line := asn_block.parse_line asn) (v := v) (w := w) as (w' & t & H & E & T).
  - intros s x w0. destruct (add_ip_spec ipset_name (str_network x) dry_run w0) as (w1 & H1 & E1).
    exists w1. split; [|exact E1]. rewrite (bind_Ok _ _ _ _ _ _ H1). reflexivity.
  - exists w', t. split; [exact H|]. split; [exact E|].
    intros l Hl. rewrite (T l Hl). clear.
    induction l as [|c r IH]; cbn; [reflexivity|now rewrite IH].
Qed.

(** The loops of unblock compute the same, without any effect. *)
Lemma unblock_cidr_list_run {L : IpLibrary} asn v w :
  asn_block.unblock_cidr_list asn v w
  = (cidr_list_of (parse_dataset (asn_block.parse_line asn) (files w v)), w, []).
Proof.
  unfold asn_block.unblock_cidr_list, cidr_list_of, bind at 1, read_file, for_gen.
  set (g := parse_dataset _ _). clearbody g. destruct g as [pairs e]. cbn [fst snd].
  assert (H : forall acc,
             foldM (fun cidr_list se =>
                      for_result (iprange_to_cidr (fst se) (snd se))
                        (fun cidr_list net => ret (cidr_list ++ [str_network net])%list)
                        cidr_list) pairs acc w
             = (lift_result (app acc) (pure_cidrs pairs), w, [])).
  { induction pairs as [|se r IH]; intros acc; cbn [foldM pure_cidrs].
    - cbn. now rewrite app_nil_r.
    - destruct (iprange_to_cidr (fst se) (snd se)) as [nets| |]; cbn [for_result]; try reflexivity.
      assert (Hin : forall a, foldM (fun cidr_list net => ret (cidr_list ++ [str_network net])%list) nets a w
                         = (Ok (a ++ map str_network nets)%list, w, [])).
      { clear. induction nets as [|n r IH]; intros a; cbn [foldM map].
        - cbn. now rewrite app_nil_r.
        - unfold bind, ret at 1. rewrite IH. cbn. now rewrite <- app_assoc. }
      rewrite (bind_Ok _ _ _ _ _ _ (Hin acc)), IH. cbn.
      destruct (pure_cidrs r); cbn; try reflexivity. now rewrite app_assoc. }
  unfold bind. rewrite H. cbn.
  destruct (pure_cidrs pairs); cbn; try reflexivity. destruct e; reflexivity.
Qed.

Lemma run_unit argv w : exists w',
  (_ <- run argv ;; ret tt) w = (Ok tt, w', [Run argv]) /\ same_env w w'.
Proof.
  destruct (run_spec argv w) as (rc & w' & H & E). exists w'.
  split; [|exact E]. rewrite (bind_Ok _ _ _ _ _ _ H). reflexivity.
Qed.

(** [create_or_reset_ipset], live: list, destroy when the set exists,
    create. *)
Lemma reset_spec ipset_name v w : exists w' d,
  asn_block.create_or_reset_ipset ipset_name v false w
  = (Ok tt, w', Run [BIN_IPSET; "list"; ipset_name] :: d ++ [Run (create_cmd ipset_name v)])
  /\ (d = [] \/ d = [Run [BIN_IPSET; "destroy"; ipset_name]])
  /\ same_env w w'.
Proof.
  unfold asn_block.create_or_reset_ipset.
  destruct (run_spec [BIN_IPSET; "list"; ipset_name] w) as (rc & w1 & H1 & E1).
  rewrite (bind_Ok _ _ _ _ _ _ H1).
  destruct (rc =? 0)%Z.
  - destruct (run_unit [BIN_IPSET; "destroy"; ipset_name] w1) as (w2 & H2 & E2).
    destruct (run_unit (create_cmd ipset_name v) w2) as (w3 & H3 & E3).
    exists w3, [Run [BIN_IPSET; "destroy"; ipset_name]].
    split; [|split; [now right|eauto using same_env_trans]].
    rewrite (bind_Ok _ _ _ _ _ _ H2). unfold create_cmd in H3. rewrite H3. reflexivity.
  - destruct (run_unit (create_cmd ipset_name v) w1) as (w3 & H3 & E3).
    exists w3, []. split; [|split; [now left|eauto using same_env_trans]].
    rewrite (bind_Ok _ _ _ _ _ _ (eq_refl : ret tt w1 = (Ok tt, w1, []))).
    unfold create_cmd in H3. rewrite H3. reflexivity.
Qed.

Lemma cidr_list_ok_file {L : IpLibrary} pl (file : option (list string)) l :
  cidr_list_of (parse_dataset pl file) = Ok l -> exists lines, file = Some lines.
Proof.
  destruct file as [lines|]; [eauto|]. cbn. discriminate.
Qed.





Lemma ensure_datasets_cached keep updated w l4 l6 :
  files w v4 = Some l4 -> files w v6 = Some l6 ->
  ensure_datasets keep updated w = (Ok tt, w, []).
Proof.
  intros H4 H6. unfold ensure_datasets, bind, file_exists. rewrite H4, H6. reflexivity.
Qed.

Ltac step H := rewrite (bind_Ok _ _ _ _ _ _ H); cbn [outcome final trace fst snd].

Lemma print_run s w : print s w = (Ok tt, w, [Print s]).
Proof. reflexivity. Qed.

Lemma commands_app t1 t2 : commands (t1 ++ t2) = (commands t1 ++ commands t2)%list.
Proof.
  induction t1 as [|e r IH]; [reflexivity|]. destruct e; cbn; now rewrite IH.
Qed.

Lemma mutations_app t1 t2 : mutations (t1 ++ t2) = (mutations t1 ++ mutations t2)%list.
Proof. unfold mutations. now rewrite commands_app, filter_app. Qed.

Lemma commands_adds ipset_name c :
  commands (map (add_event false ipset_name) c)
  = map (fun x => [BIN_IPSET; "add"; ipset_name; x]) c.
Proof. induction c as [|x r IH]; cbn; [reflexivity|now rewrite IH]. Qed.

Lemma mutations_adds ipset_name c :
  mutations (map (add_event false ipset_name) c)
  = map (fun x => [BIN_IPSET; "add"; ipset_name; x]) c.
Proof.
  unfold mutations. rewrite commands_adds.
  induction c as [|x r IH]; cbn; [reflexivity|now rewrite IH].
Qed.



(** ** Dry run against live run *)

Lemma printed_app t1 t2 : printed (t1 ++ t2) = (printed t1 ++ printed t2)%list.
Proof. induction t1 as [|e r IH]; [reflexivity|]. destruct e; cbn; now rewrite IH. Qed.

Lemma would_run_app t1 t2 : would_run (t1 ++ t2) = (would_run t1 ++ would_run t2)%list.
Proof. unfold would_run. now rewrite printed_app, filter_app. Qed.

Lemma agree_weaken D D' wd wl : incl D D' -> agree D wd wl -> agree D' wd wl.
Proof.
  intros Hi [He Hs]. split; [exact He|]. intros n Hn. apply Hs. intros H. apply Hn, Hi, H.
Qed.

Lemma sim_weaken {A} D1 D2 D1' D2' (dry live : M A) :
  incl D1' D1 -> incl D2 D2' -> simulates D1 D2 dry live -> simulates D1' D2' dry live.
Proof.
  intros H1 H2 Hs wd wl Ha.
  destruct (Hs wd wl (agree_weaken _ _ _ _ H1 Ha)) as (Ho & Ha' & Hm & Hw).
  repeat split; try assumption; try apply (agree_weaken _ _ _ _ H2 Ha'); apply Ha'.
Qed.

Lemma sim_ret {A} D (a : A) : simulates D D (ret a) (ret a).
Proof. intros wd wl Ha. repeat split; try apply Ha; reflexivity. Qed.

Lemma sim_raise {A} D (e : exn) : simulates D D (@raise A e) (raise e).
Proof. intros wd wl Ha. repeat split; try apply Ha; reflexivity. Qed.

(** Simulation goes through [bind]. *)
Lemma sim_bind {A B} D1 D2 D3 (md ml : M A) (kd kl : A -> M B) :
  incl D2 D3 ->
  simulates D1 D2 md ml -> (forall a, simulates D2 D3 (kd a) (kl a)) ->
  simulates D1 D3 (bind md kd) (bind ml kl).
Proof.
  intros Hi Hm Hk wd wl Ha. specialize (Hm wd wl Ha). unfold bind.
  destruct (md wd) as [[rd wd1] td1], (ml wl) as [[rl wl1] tl1].
  cbn [outcome final trace fst snd] in Hm. destruct Hm as (Ho & Ha1 & Hm1 & Hw1).
  subst rl. destruct rd as [a|e|]; cbn [outcome final trace fst snd].
  - specialize (Hk a wd1 wl1 Ha1).
    destruct (kd a wd1) as [[rd2 wd2] td2], (kl a wl1) as [[rl2 wl2] tl2].
    cbn [outcome final trace fst snd] in *. destruct Hk as (Ho2 & Ha2 & Hm2 & Hw2).
    split; [exact Ho2|]. split; [exact Ha2|]. split.
    + rewrite mutations_app, Hm1, Hm2. reflexivity.
    + rewrite would_run_app, mutations_app, map_app, Hw1, Hw2. reflexivity.
  - repeat split; try assumption; apply (agree_weaken _ _ _ _ Hi Ha1).
  - repeat split; try assumption; apply (agree_weaken _ _ _ _ Hi Ha1).
Qed.

(** The same step in both runs. *)
Lemma sim_bind_same {A B} D (md ml : M A) (kd kl : A -> M B) :
  simulates D D md ml -> (forall a, simulates D D (kd a) (kl a)) ->
  simulates D D (bind md kd) (bind ml kl).
Proof. apply sim_bind, incl_refl. Qed.

Lemma sim_print D s : is_would_run s = false -> simulates D D (print s) (print s).
Proof.
  intros Hs wd wl Ha. cbn. repeat split; try apply Ha.
  unfold would_run. cbn. rewrite Hs. reflexivity.
Qed.

Lemma sim_logger D lv s : simulates D D (logger lv s) (logger lv s).
Proof. intros wd wl Ha. cbn. repeat split; apply Ha. Qed.

(** A command leaves alone the sets it does not name. *)
Lemma exec_other_sets w argv n :
  touches argv n = false -> set_exists (snd (exec w argv)) n = set_exists w n.
Proof.
  unfold exec, touches. destruct argv as [|bin [|op rest]]; try reflexivity.
  destruct (bin =? BIN_SYSTEMCTL).
  - intros _. destruct rest as [|q [|sv [|]]]; try reflexivity.
    destruct (_ && _); reflexivity.
  - destruct (bin =? BIN_IPSET).
    + destruct rest as [|name args]; [reflexivity|]. cbn [andb]. intros Hn.
      unfold ipset_command, set_exists.
      repeat match goal with
             | |- context [if ?b then _ else _] => destruct b
             | |- context [match ?l with [] => _ | _ :: _ => _ end] => destruct l
             end; cbn [snd ipsets with_ipsets]; try reflexivity.
      * induction (ipsets w) as [|p r IH]; [reflexivity|]. cbn.
        destruct (String.eqb_spec (fst p) name) as [->|]; cbn; rewrite IH; [|reflexivity].
        rewrite Hn. reflexivity.
      * rewrite existsb_app. cbn. rewrite Hn. now rewrite !orb_false_r.
      * induction (ipsets w) as [|p r IH]; [reflexivity|]. cbn.
        destruct (String.eqb_spec (fst p) name) as [->|]; cbn; rewrite IH; [|reflexivity].
        reflexivity.
      * induction (ipsets w) as [|p r IH]; [reflexivity|]. cbn.
        destruct (String.eqb_spec (fst p) name) as [->|]; cbn; rewrite IH; [|reflexivity].
        reflexivity.
    + intros _. destruct (tool_version bin) as [v|]; [|reflexivity].
      unfold iptables_command.
      repeat match goal with
             | |- context [if ?b then _ else _] => destruct b
             | |- context [match ?l with [] => _ | _ :: _ => _ end] => destruct l
             end; reflexivity.
Qed.

Lemma agree_refl D w : agree D w w.
Proof. split; [apply same_env_refl|reflexivity]. Qed.

Lemma is_would_run_describe c : is_would_run (describe c) = true.
Proof.
  unfold is_would_run, describe, dry_run_line, startswith. cbn.
  destruct (join " " c); reflexivity.
Qed.

Lemma agree_exec D wd wl c :
  agree D wd wl -> (forall n, ~ In n D -> touches c n = false) ->
  agree D wd (snd (exec wl c)).
Proof.
  intros [He Hs] Ht. split; [eapply same_env_trans; [exact He|apply exec_env]|].
  intros n Hn. rewrite exec_other_sets by (apply Ht, Hn). apply Hs, Hn.
Qed.

(** A command the dry run describes and the live run issues, followed by
    the rest of both runs. *)
Lemma sim_mutation_bind {B} D D' (c : list string) (line : string)
  (kd : unit -> M B) (kl : Z -> M B) :
  line = describe c -> is_query c = false ->
  (forall n, ~ In n D -> touches c n = false) ->
  (forall rc, simulates D D' (kd tt) (kl rc)) ->
  simulates D D' (bind (print line) kd) (bind (run c) kl).
Proof.
  intros -> Hq Ht Hk wd wl Ha. unfold bind, print, emit, run.
  pose proof (agree_exec D wd wl c Ha Ht) as Ha'.
  destruct (exec wl c) as [rc wl']. cbn [snd] in Ha'.
  specialize (Hk rc wd wl' Ha').
  destruct (kd tt wd) as [[rd wd2] td], (kl rc wl') as [[rl wl2] tl].
  cbn [outcome final trace fst snd] in *. destruct Hk as (Ho & Ha2 & Hm & Hw).
  split; [exact Ho|]. split; [exact Ha2|]. split.
  - exact Hm.
  - unfold would_run, mutations in *. cbn [printed app commands filter map].
    rewrite Hq, is_would_run_describe. cbn [negb map]. now rewrite Hw.
Qed.

(** The same, when the description is the last thing the dry run does. *)
Lemma sim_mutation D (c : list string) (line : string) (kl : Z -> M unit) :
  line = describe c -> is_query c = false ->
  (forall n, ~ In n D -> touches c n = false) ->
  (forall rc, simulates D D (ret tt) (kl rc)) ->
  simulates D D (print line) (bind (run c) kl).
Proof.
  intros -> Hq Ht Hk wd wl Ha. unfold bind, print, emit, run.
  pose proof (agree_exec D wd wl c Ha Ht) as Ha'.
  destruct (exec wl c) as [rc wl']. cbn [snd] in Ha'.
  specialize (Hk rc wd wl' Ha'). unfold ret in Hk.
  destruct (kl rc wl') as [[rl wl2] tl].
  cbn [outcome final trace fst snd] in *. destruct Hk as (Ho & Ha2 & Hm & Hw).
  split; [exact Ho|]. split; [exact Ha2|]. split.
  - reflexivity.
  - unfold would_run, mutations in *. cbn [printed app commands filter map] in *.
    rewrite Hq, is_would_run_describe. cbn [negb map]. now rewrite <- Hw.
Qed.

Lemma sim_logger_live D lv s : simulates D D (ret tt) (logger lv s).
Proof. intros wd wl Ha. cbn. repeat split; apply Ha. Qed.

Lemma sim_systemctl D service :
  simulates D D (run [BIN_SYSTEMCTL; "is-active"; "--quiet"; service])
                (run [BIN_SYSTEMCTL; "is-active"; "--quiet"; service]).
Proof.
  intros wd wl Ha. unfold run. cbn.
  destruct Ha as [(Hact & Hf & Hr) Hs]. rewrite Hact.
  repeat split; assumption.
Qed.

Lemma sim_ipset_list D name :
  ~ In name D ->
  simulates D D (run [BIN_IPSET; "list"; name]) (run [BIN_IPSET; "list"; name]).
Proof.
  intros Hn wd wl Ha. unfold run. cbn.
  destruct Ha as [He Hs]. rewrite (Hs name Hn).
  repeat split; try assumption; apply He.
Qed.

Lemma sim_read_file D v : simulates D D (read_file v) (read_file v).
Proof.
  intros wd wl Ha. unfold read_file. cbn. destruct Ha as [(Hact & Hf & Hr) Hs].
  rewrite Hf. repeat split; assumption.
Qed.

Lemma sim_file_exists D v : simulates D D (file_exists v) (file_exists v).
Proof.
  intros wd wl Ha. unfold file_exists. cbn. destruct Ha as [(Hact & Hf & Hr) Hs].
  rewrite Hf. repeat split; assumption.
Qed.

Lemma sim_ensure_data_dir D : simulates D D ensure_data_dir ensure_data_dir.
Proof.
  intros wd wl [(Hact & Hf & Hr) Hs]. cbn. repeat split; assumption.
Qed.

Lemma sim_download_file D keep v : simulates D D (download_file keep v) (download_file keep v).
Proof.
  intros wd wl [(Hact & Hf & Hr) Hs]. unfold download_file. rewrite Hr.
  destruct (remote wd v) as [lines|]; cbn.
  - split; [reflexivity|]. split; [|split; reflexivity]. split; [|exact Hs].
    unfold same_env. cbn. rewrite Hf. repeat split; assumption.
  - repeat split; assumption.
Qed.

Lemma sim_foldM {A S} D (bd bl : S -> A -> M S) :
  (forall s x, simulates D D (bd s x) (bl s x)) ->
  forall l s, simulates D D (foldM bd l s) (foldM bl l s).
Proof.
  intros Hb l. induction l as [|x r IH]; intros s; cbn [foldM].
  - apply sim_ret.
  - apply sim_bind_same; [apply Hb|]. intros a. apply IH.
Qed.

Lemma sim_for_gen {A S} D (g : gen A) (bd bl : S -> A -> M S) :
  (forall s x, simulates D D (bd s x) (bl s x)) ->
  forall s, simulates D D (for_gen g bd s) (for_gen g bl s).
Proof.
  intros Hb s. unfold for_gen. apply sim_bind_same; [apply sim_foldM, Hb|].
  intros a. destruct (snd g); [apply sim_raise|apply sim_ret].
Qed.

Lemma sim_for_result {A S} D (r : result (list A)) (bd bl : S -> A -> M S) :
  (forall s x, simulates D D (bd s x) (bl s x)) ->
  forall s, simulates D D (for_result r bd s) (for_result r bl s).
Proof.
  intros Hb s. destruct r as [l|e|]; cbn [for_result].
  - apply sim_foldM, Hb.
  - apply sim_raise.
  - intros wd wl Ha. repeat split; try apply Ha; reflexivity.
Qed.

Lemma sim_is_service_active D service :
  simulates D D (asn_block.is_service_active service) (asn_block.is_service_active service).
Proof.
  unfold asn_block.is_service_active. apply sim_bind_same; [apply sim_systemctl|].
  intros rc. apply sim_ret.
Qed.

Lemma sim_detect D :
  simulates D D asn_block.detect_firewall_backend asn_block.detect_firewall_backend.
Proof.
  unfold asn_block.detect_firewall_backend.
  apply sim_bind_same; [apply sim_is_service_active|]. intros firewalld.
  apply sim_bind_same; [apply sim_is_service_active|]. intros ufw.
  apply sim_bind_same.
  - apply sim_bind_same; [apply sim_is_service_active|]. intros a.
    destruct a; [apply sim_ret|apply sim_is_service_active].
  - intros ipt. destruct (1 <? sum_bools [firewalld; ufw; ipt])%Z.
    + apply sim_bind_same; [apply sim_logger|]. intros _. apply sim_ret.
    + destruct firewalld; [apply sim_ret|]. destruct ufw; [apply sim_ret|].
      destruct ipt; apply sim_ret.
Qed.

Lemma touches_ipset D name op args :
  In name D -> forall n, ~ In n D -> touches (BIN_IPSET :: op :: name :: args) n = false.
Proof.
  intros Hin n Hn. cbn. destruct (String.eqb_spec name n) as [->|]; [contradiction|reflexivity].
Qed.

Lemma sim_create_or_reset D name v :
  ~ In name D ->
  simulates D (name :: D) (asn_block.create_or_reset_ipset name v true)
                          (asn_block.create_or_reset_ipset name v false).
Proof.
  intros Hn. unfold asn_block.create_or_reset_ipset.
  apply (sim_bind _ D); [apply incl_tl, incl_refl|apply sim_ipset_list, Hn|]. intros rc.
  apply (sim_weaken (name :: D) (name :: D)); [apply incl_tl, incl_refl|apply incl_refl|].
  apply sim_bind_same.
  - destruct (rc =? 0)%Z; [|apply sim_ret].
    apply sim_mutation; [reflexivity|reflexivity|apply touches_ipset; now left|].
    intros; apply sim_ret.
  - intros _. apply sim_mutation; [reflexivity|reflexivity|apply touches_ipset; now left|].
    intros; apply sim_ret.
Qed.

Lemma sim_add_ip D name cidr :
  In name D ->
  simulates D D (asn_block.add_ip_to_ipset name cidr true)
                (asn_block.add_ip_to_ipset name cidr false).
Proof.
  intros Hin. unfold asn_block.add_ip_to_ipset. cbv zeta.
  apply sim_mutation; [reflexivity|reflexivity|apply touches_ipset, Hin|].
  intros; apply sim_ret.
Qed.

Lemma sim_apply_iptables D v name :
  simulates D D (asn_block.apply_iptables_rule (iptables_bin v) name true)
                (asn_block.apply_iptables_rule (iptables_bin v) name false).
Proof.
  unfold asn_block.apply_iptables_rule. cbv zeta.
  apply sim_mutation; [reflexivity|destruct v; reflexivity|destruct v; reflexivity|].
  intros; apply sim_ret.
Qed.

Lemma sim_remove_iptables D v name :
  simulates D D (asn_block.remove_iptables_rule (iptables_bin v) name true)
                (asn_block.remove_iptables_rule (iptables_bin v) name false).
Proof.
  unfold asn_block.remove_iptables_rule. cbv zeta.
  apply sim_mutation; [reflexivity|destruct v; reflexivity|destruct v; reflexivity|].
  intros; apply sim_ret.
Qed.

Lemma sim_apply_firewalld D name :
  simulates D D (asn_block.apply_firewalld_rule name true)
                (asn_block.apply_firewalld_rule name false).
Proof.
  unfold asn_block.apply_firewalld_rule. cbv zeta.
  apply sim_mutation_bind; [reflexivity|reflexivity|reflexivity|]. intros _.
  apply sim_mutation; [reflexivity|reflexivity|reflexivity|]. intros; apply sim_ret.
Qed.

Lemma sim_remove_firewalld D name :
  simulates D D (asn_block.remove_firewalld_rule name true)
                (asn_block.remove_firewalld_rule name false).
Proof.
  unfold asn_block.remove_firewalld_rule. cbv zeta.
  apply sim_mutation_bind; [reflexivity|reflexivity|reflexivity|]. intros _.
  apply sim_mutation; [reflexivity|reflexivity|reflexivity|]. intros; apply sim_ret.
Qed.

Lemma sim_apply_ufw D cidr_list :
  simulates D D (asn_block.apply_ufw_rule cidr_list true)
                (asn_block.apply_ufw_rule cidr_list false).
Proof.
  unfold asn_block.apply_ufw_rule, for_each. apply sim_foldM. intros _ cidr. cbv zeta.
  apply sim_mutation; [reflexivity|reflexivity|reflexivity|]. intros; apply sim_ret.
Qed.

Lemma sim_remove_ufw D cidr_list :
  simulates D D (asn_block.remove_ufw_rule cidr_list true)
                (asn_block.remove_ufw_rule cidr_list false).
Proof.
  unfold asn_block.remove_ufw_rule, for_each. apply sim_foldM. intros _ cidr. cbv zeta.
  apply sim_mutation; [reflexivity|reflexivity|reflexivity|]. intros; apply sim_ret.
Qed.

Lemma append_inj_l (s a b : string) : s ++ a = s ++ b -> a = b.
Proof. induction s as [|c s IH]; cbn; [trivial|]. intros [= H]. apply IH, H. Qed.

Lemma set_names_differ asn : set_name asn v4 <> set_name asn v6.
Proof.
  unfold set_name. intros H. apply (append_inj_l "ASN") in H.
  apply append_inj_l in H. discriminate.
Qed.

Section DryRun.
Context {L : IpLibrary}.

Lemma sim_block_cidr_list D asn v name :
  In name D ->
  simulates D D (asn_block.block_cidr_list asn true v name)
                (asn_block.block_cidr_list asn false v name).
Proof.
  intros Hin. unfold asn_block.block_cidr_list.
  apply sim_bind_same; [apply sim_read_file|]. intros file.
  apply sim_for_gen. intros cidr_list se.
  apply sim_for_result. intros cl net. cbv zeta.
  apply sim_bind_same; [apply sim_add_ip, Hin|]. intros _. apply sim_ret.
Qed.

Lemma sim_block_version D asn fw v :
  ~ In (set_name asn v) D ->
  simulates D (set_name asn v :: D) (asn_block.block_version asn true fw v)
                                    (asn_block.block_version asn false fw v).
Proof.
  intros Hn. unfold asn_block.block_version. cbv zeta.
  apply (sim_bind _ (set_name asn v :: D)); [apply incl_refl|apply sim_create_or_reset, Hn|].
  intros _. apply sim_bind_same; [apply sim_block_cidr_list; now left|]. intros cidr_list.
  destruct (fw =? "iptables"); [apply sim_apply_iptables|].
  destruct (fw =? "firewalld"); [apply sim_apply_firewalld|].
  destruct (fw =? "ufw"); [apply sim_apply_ufw|apply sim_ret].
Qed.

Lemma sim_unblock_cidr_list D asn v :
  simulates D D (asn_block.unblock_cidr_list asn v) (asn_block.unblock_cidr_list asn v).
Proof.
  intros wd wl Ha. rewrite !unblock_cidr_list_run. cbn [outcome final trace fst snd].
  destruct Ha as [(Hact & Hf & Hr) Hs]. rewrite Hf.
  repeat split; assumption.
Qed.

Lemma sim_unblock_version D asn fw v :
  simulates D (set_name asn v :: D) (asn_block.unblock_version asn true fw v)
                                    (asn_block.unblock_version asn false fw v).
Proof.
  apply (sim_weaken (set_name asn v :: D) (set_name asn v :: D));
    [apply incl_tl, incl_refl|apply incl_refl|].
  unfold asn_block.unblock_version. cbv zeta.
  apply sim_bind_same; [apply sim_unblock_cidr_list|]. intros cidr_list.
  apply sim_bind_same.
  - destruct (fw =? "iptables"); [apply sim_remove_iptables|].
    destruct (fw =? "firewalld"); [apply sim_remove_firewalld|].
    destruct (fw =? "ufw"); [apply sim_remove_ufw|apply sim_ret].
  - intros _. apply sim_mutation; [reflexivity|reflexivity|apply touches_ipset; now left|].
    intros rc. apply sim_logger_live.
Qed.

Lemma sim_update_datasets D keep updated :
  simulates D D (update_datasets keep updated) (update_datasets keep updated).
Proof.
  unfold update_datasets.
  repeat (apply sim_bind_same;
          [first [apply sim_ensure_data_dir|apply sim_logger|apply sim_download_file]
          |intros _]).
  apply sim_logger.
Qed.

Lemma sim_ensure_datasets D keep updated :
  simulates D D (ensure_datasets keep updated) (ensure_datasets keep updated).
Proof.
  unfold ensure_datasets.
  apply sim_bind_same; [apply sim_file_exists|]. intros e4.
  apply sim_bind_same; [apply sim_file_exists|]. intros e6.
  destruct (negb e4 || negb e6); [|apply sim_ret].
  apply sim_bind_same; [apply sim_logger|]. intros _. apply sim_update_datasets.
Qed.

Lemma is_would_run_detected fw : is_would_run ("Firewall system detected: " ++ fw) = false.
Proof. reflexivity. Qed.

Lemma sim_create_ipset_and_rules asn :
  simulates [] [set_name asn v6; set_name asn v4]
    (asn_block.create_ipset_and_rules asn true)
    (asn_block.create_ipset_and_rules asn false).
Proof.
  unfold asn_block.create_ipset_and_rules.
  apply (sim_bind _ []); [apply incl_nil_l|apply sim_print; reflexivity|]. intros _.
  destruct (negb (validate_asn asn)).
  { eapply sim_weaken; [apply incl_refl|apply incl_nil_l|apply sim_logger]. }
  apply (sim_bind _ []); [apply incl_nil_l|apply sim_detect|]. intros firewall.
  destruct (firewall =? "conflict").
  { eapply sim_weaken; [apply incl_refl|apply incl_nil_l|apply sim_ret]. }
  apply (sim_bind _ []); [apply incl_nil_l|apply sim_print, is_would_run_detected|]. intros _.
  apply (sim_bind _ []); [apply incl_nil_l|apply sim_ensure_data_dir|]. intros _.
  apply (sim_bind _ []); [apply incl_nil_l|apply sim_ensure_datasets|]. intros _.
  unfold for_each. cbn [foldM].
  apply (sim_bind _ [set_name asn v4]);
    [apply incl_tl, incl_refl|apply sim_block_version; intros []|]. intros _.
  apply (sim_bind _ [set_name asn v6; set_name asn v4]); [apply incl_refl| |intros; apply sim_ret].
  apply sim_block_version. intros [H|[]]. apply (set_names_differ asn H).
Qed.

Lemma sim_cleanup_ipsets asn :
  simulates [] [set_name asn v6; set_name asn v4]
    (asn_block.cleanup_ipsets asn true)
    (asn_block.cleanup_ipsets asn false).
Proof.
  unfold asn_block.cleanup_ipsets.
  apply (sim_bind _ []); [apply incl_nil_l|apply sim_print; reflexivity|]. intros _.
  destruct (negb (validate_asn asn)).
  { eapply sim_weaken; [apply incl_refl|apply incl_nil_l|apply sim_logger]. }
  apply (sim_bind _ []); [apply incl_nil_l|apply sim_detect|]. intros firewall.
  destruct (firewall =? "conflict").
  { eapply sim_weaken; [apply incl_refl|apply incl_nil_l|apply sim_ret]. }
  apply (sim_bind _ []); [apply incl_nil_l|apply sim_print, is_would_run_detected|]. intros _.
  unfold for_each. cbn [foldM].
  apply (sim_bind _ [set_name asn v4]); [apply incl_tl, incl_refl|apply sim_unblock_version|].
  intros _.
  apply (sim_bind _ [set_name asn v6; set_name asn v4]); [apply incl_refl| |intros; apply sim_ret].
  apply sim_unblock_version.
Qed.

(** X17.  asn_block.py does what C4 says, on every host and for every
    ASN: for block and unblock, a dry run ends with the outcome of the
    live run, issues no mutating command, and the lines it prints as
    would-run are the descriptions of the mutating commands of the live
    run, in the same order. *)
Theorem asn_block_dry_run_pure (a : action) (asn : option Z) (w : World) :
  let dry := asn_block.main (mkArgs a asn true) w in
  let live := asn_block.main (mkArgs a asn false) w in
  a <> update ->
  outcome dry = outcome live /\
  mutations (trace dry) = [] /\
  would_run (trace dry) = map describe (mutations (trace live)).
Proof.
  cbv zeta. intros Ha.
  assert (H : simulates [] [set_name (match asn with Some n => n | None => 0%Z end) v6;
                            set_name (match asn with Some n => n | None => 0%Z end) v4]
                (asn_block.main (mkArgs a asn true)) (asn_block.main (mkArgs a asn false))).
  { unfold asn_block.main. cbn [args_action args_asn args_dry_run].
    destruct a; [contradiction| |].
    - destruct (asn_missing asn);
        [eapply sim_weaken; [apply incl_refl|apply incl_nil_l|apply sim_logger]|].
      apply sim_create_ipset_and_rules.
    - destruct (asn_missing asn);
        [eapply sim_weaken; [apply incl_refl|apply incl_nil_l|apply sim_logger]|].
      apply sim_cleanup_ipsets. }
  destruct (H w w (agree_refl [] w)) as (Ho & _ & Hm & Hw). repeat split; assumption.
Qed.

End DryRun.

(** The defect of C4 on every host: unblock of iptables_asn_block.py runs
    the same four commands with and without [--dry-run]. *)
Lemma iptables_unblock_same_in_dry_run {L : IpLibrary} (asn : Z) (dry_run : bool)
  (w : World) :
  validate_asn asn = true ->
  trace (iptables_asn_block.main (mkArgs unblock (Some asn) dry_run) w)
  = [Run (BIN_IPTABLES :: "-D" :: "INPUT" :: rule_spec (set_name asn v4));
     Run [BIN_IPSET; "destroy"; set_name asn v4];
     Log Info ("Removed ipset and rules for " ++ set_name asn v4);
     Run (BIN_IP6TABLES :: "-D" :: "INPUT" :: rule_spec (set_name asn v6));
     Run [BIN_IPSET; "destroy"; set_name asn v6];
     Log Info ("Removed ipset and rules for " ++ set_name asn v6)].
Proof.
  intros Hv. unfold iptables_asn_block.main. cbn [args_action args_asn args_dry_run].
  assert (Hz : asn_missing (Some asn) = false).
  { unfold validate_asn in Hv. apply andb_true_iff in Hv. destruct Hv as [Hv _].
    apply Z.ltb_lt in Hv. cbn. apply Z.eqb_neq. lia. }
  rewrite Hz. unfold iptables_asn_block.cleanup_ipsets. rewrite Hv. cbn [negb].
  unfold for_each. cbn [foldM]. cbv zeta.
  destruct (run_spec (iptables_bin v4 :: "-D" :: "INPUT" :: rule_spec (set_name asn v4)) w)
    as (r1 & w1 & H1 & _).
  destruct (run_spec [BIN_IPSET; "destroy"; set_name asn v4] w1) as (r2 & w2 & H2 & _).
  destruct (run_spec (iptables_bin v6 :: "-D" :: "INPUT" :: rule_spec (set_name asn v6)) w2)
    as (r3 & w3 & H3 & _).
  destruct (run_spec [BIN_IPSET; "destroy"; set_name asn v6] w3) as (r4 & w4 & H4 & _).
  assert (E1 : (_ <- run (iptables_bin v4 :: "-D" :: "INPUT" :: rule_spec (set_name asn v4)) ;;
                _ <- run [BIN_IPSET; "destroy"; set_name asn v4] ;;
                logger Info ("Removed ipset and rules for " ++ set_name asn v4)) w
               = (Ok tt, w2,
                  [Run (BIN_IPTABLES :: "-D" :: "INPUT" :: rule_spec (set_name asn v4));
                   Run [BIN_IPSET; "destroy"; set_name asn v4];
                   Log Info ("Removed ipset and rules for " ++ set_name asn v4)])).
  { step H1. step H2. reflexivity. }
  assert (E2 : (_ <- run (iptables_bin v6 :: "-D" :: "INPUT" :: rule_spec (set_name asn v6)) ;;
                _ <- run [BIN_IPSET; "destroy"; set_name asn v6] ;;
                logger Info ("Removed ipset and rules for " ++ set_name asn v6)) w2
               = (Ok tt, w4,
                  [Run (BIN_IP6TABLES :: "-D" :: "INPUT" :: rule_spec (set_name asn v6));
                   Run [BIN_IPSET; "destroy"; set_name asn v6];
                   Log Info ("Removed ipset and rules for " ++ set_name asn v6)])).
  { step H3. step H4. reflexivity. }
  step E1. step E2. reflexivity.
Qed.

(** [ipset] never touches the rules, and after a create the set is
    there. *)
Lemma ipset_command_chain w op name args v :
  chain (snd (ipset_command w op name args)) v = chain w v.
Proof.
  unfold ipset_command.
  repeat match goal with
         | |- context [if ?b then _ else _] => destruct b
         | |- context [match ?l with [] => _ | _ :: _ => _ end] => destruct l
         end; reflexivity.
Qed.

Lemma ipset_create_exists w name args :
  set_exists (snd (ipset_command w "create" name args)) name = true.
Proof.
  unfold ipset_command. cbn [String.eqb Ascii.eqb Bool.eqb].
  destruct (set_exists w name) eqn:He; [exact He|].
  unfold set_exists. cbn [snd ipsets with_ipsets]. rewrite existsb_app. cbn.
  rewrite String.eqb_refl. apply orb_true_r.
Qed.

(** After [create_or_reset_ipset] the set exists; the rules are as they
    were. *)
Lemma reset_creates ipset_name v w : exists w' t,
  asn_block.create_or_reset_ipset ipset_name v false w = (Ok tt, w', t)
  /\ same_env w w' /\ (forall v', chain w' v' = chain w v')
  /\ set_exists w' ipset_name = true.
Proof.
  unfold asn_block.create_or_reset_ipset.
  assert (Hrun : forall op args w0,
            run (BIN_IPSET :: op :: ipset_name :: args) w0
            = (Ok (fst (ipset_command w0 op ipset_name args)),
               snd (ipset_command w0 op ipset_name args),
               [Run (BIN_IPSET :: op :: ipset_name :: args)])).
  { intros op args w0. unfold run.
    change (exec w0 (BIN_IPSET :: op :: ipset_name :: args))
      with (ipset_command w0 op ipset_name args).
    destruct (ipset_command w0 op ipset_name args); reflexivity. }
  step (Hrun "list" (@nil string) w).
  set (w1 := snd (ipset_command w "list" ipset_name [])).
  assert (E1 : same_env w w1) by apply ipset_command_env.
  assert (C1 : forall v', chain w1 v' = chain w v') by (intros; apply ipset_command_chain).
  set (create_args := ["hash:net"; "family"; match v with v6 => "inet6" | v4 => "inet" end]).
  assert (Hfin : forall w2, same_env w w2 -> (forall v', chain w2 v' = chain w v') ->
            exists w' t,
              (_ <- run (BIN_IPSET :: "create" :: ipset_name :: create_args) ;; ret tt) w2
              = (Ok tt, w', t)
              /\ same_env w w' /\ (forall v', chain w' v' = chain w v')
              /\ set_exists w' ipset_name = true).
  { intros w2 E2 C2. step (Hrun "create" create_args w2). unfold ret; cbn [outcome final trace fst snd].
    eexists _, _. split; [reflexivity|]. split; [|split].
    - eapply same_env_trans; [exact E2|apply ipset_command_env].
    - intros v'. rewrite ipset_command_chain. apply C2.
    - apply ipset_create_exists. }
  destruct (fst (ipset_command w "list" ipset_name []) =? 0)%Z.
  - assert (Hd : (_ <- run [BIN_IPSET; "destroy"; ipset_name] ;; ret tt) w1
                 = (Ok tt, snd (ipset_command w1 "destroy" ipset_name []),
                    [Run [BIN_IPSET; "destroy"; ipset_name]])).
    { step (Hrun "destroy" (@nil string) w1). reflexivity. }
    step Hd.
    destruct (Hfin (snd (ipset_command w1 "destroy" ipset_name []))) as (w' & t & H & E & C & S).
    + eapply same_env_trans; [exact E1|apply ipset_command_env].
    + intros v'. rewrite ipset_command_chain. apply C1.
    + rewrite H. eexists _, _. split; [reflexivity|]. repeat split; try apply E; assumption.
  - step (eq_refl : ret tt w1 = (Ok tt, w1, [])).
    destruct (Hfin w1 E1 C1) as (w' & t & H & E & C & S).
    rewrite H. eexists _, _. split; [reflexivity|]. repeat split; try apply E; assumption.
Qed.

Lemma chain_with_chain w v c v' :
  chain (with_chain w v c) v' = if version_eqb v' v then c else chain w v'.
Proof. reflexivity. Qed.

(** The body of block under the iptables backend puts one more rule at
    the head of the chain of its version, whatever the chain holds, and
    leaves the set of the version in place. *)
Lemma block_version_iptables {L : IpLibrary} asn v w c :
  cidr_list_of (parse_dataset (asn_block.parse_line asn) (files w v)) = Ok c ->
  exists w' t,
    asn_block.block_version asn false "iptables" v w = (Ok tt, w', t)
    /\ same_env w w'
    /\ (forall v', chain w' v' = if version_eqb v' v then set_name asn v :: chain w v
                                else chain w v')
    /\ ~ In (Run (iptables_bin v :: "-C" :: "INPUT" :: rule_spec (set_name asn v))) t
    /\ set_exists w' (set_name asn v) = true.
Proof.
  intros Hc. unfold asn_block.block_version. cbv zeta.
  destruct (reset_spec (set_name asn v) v w) as (w1' & d & H1' & Hd & _).
  destruct (reset_creates (set_name asn v) v w) as (w1 & t1 & H1 & E1 & C1 & S1).
  assert (Ht1 : t1 = (Run [BIN_IPSET; "list"; set_name asn v] :: d
                      ++ [Run (create_cmd (set_name asn v) v)])%list) by congruence.
  step H1.
  destruct (block_cidr_list_run asn false v (set_name asn v) w1) as (w2 & t2 & H2 & (E2 & C2 & S2) & T2).
  assert (Hf : files w1 = files w) by apply E1. rewrite Hf, Hc in H2.
  rewrite Hf in T2. specialize (T2 c Hc).
  step H2. replace ("iptables" =? "iptables") with true by reflexivity.
  unfold asn_block.apply_iptables_rule. cbv zeta.
  assert (Hi : run (iptables_bin v :: "-I" :: "INPUT" :: rule_spec (set_name asn v)) w2
               = (Ok 0%Z, with_chain w2 v (set_name asn v :: chain w2 v),
                  [Run (iptables_bin v :: "-I" :: "INPUT" :: rule_spec (set_name asn v))])).
  { unfold run.
    assert (Hx : exec w2 (iptables_bin v :: "-I" :: "INPUT" :: rule_spec (set_name asn v))
                 = iptables_command w2 v "-I" ("INPUT" :: rule_spec (set_name asn v)))
      by (destruct v; reflexivity).
    rewrite Hx. unfold iptables_command, rule_spec, argv_eqb.
    destruct (list_eq_dec string_dec _ _) as [_|N]; [|exfalso; apply N; reflexivity].
    cbn [String.eqb Ascii.eqb Bool.eqb]. rewrite S2, S1. reflexivity. }
  step Hi. eexists _, _. split; [reflexivity|]. split; [|split; [|split]].
  4: { unfold ret; cbn [outcome final trace fst snd].
       change (set_exists (with_chain w2 v (set_name asn v :: chain w2 v)) (set_name asn v))
         with (set_exists w2 (set_name asn v)).
       rewrite S2. exact S1. }
  - eapply same_env_trans; [exact E1|]. eapply same_env_trans; [exact E2|].
    repeat split.
  - intros v'. unfold ret; cbn [outcome final trace fst snd]. rewrite chain_with_chain, !C2, !C1. reflexivity.
  - subst t1 t2. cbn [app]. intros Hin.
    destruct Hin as [Hin|Hin]; [discriminate|].
    rewrite <- app_assoc in Hin. apply in_app_or in Hin. destruct Hin as [Hin|Hin].
    { destruct Hd as [->| ->]; [destruct Hin|destruct Hin as [Hin|[]]; discriminate]. }
    cbn [app] in Hin. destruct Hin as [Hin|Hin]; [unfold create_cmd in Hin; discriminate|].
    apply in_app_or in Hin. destruct Hin as [Hin|Hin].
    + apply in_map_iff in Hin. destruct Hin as (x & Hx & _). unfold add_event in Hx.
      discriminate.
    + cbn in Hin. destruct Hin as [Hin|[]]. destruct v; discriminate.
Qed.

(** * The claims *)

(** The examples of section 8 of the specification, on the sample
    library. *)
Example single_address :
  option_map (fun a => ipaddress.summarize_address_range a a) (dotted_quad "10.1.2.3")
  = Some (Ok [mkNet v4 167838211 32]).
Proof. reflexivity. Qed.

Example full_range :
  @iprange_to_cidr sample_library "0.0.0.0" "255.255.255.255" = Ok [mkNet v4 0 0].
Proof. reflexivity. Qed.

Example six_addresses :
  lift_result (map (@str_network sample_library))
    (@iprange_to_cidr sample_library "1.2.3.4" "1.2.3.9")
  = Ok ["1.2.3.4/30"; "1.2.3.8/31"].
Proof. reflexivity. Qed.

Lemma greedy_version v l : forall a b,
  greedy v a b l -> Forall (fun blk => net_version blk = v) l.
Proof.
  induction l as [|blk rest IH]; cbn; intros a b H; constructor.
  - apply H.
  - destruct H as (_ & _ & _ & _ & _ & _ & Hr). eapply IH, Hr.
Qed.

Lemma iprange_to_cidr_greedy {L : IpLibrary} (start_ip end_ip : string) (s e : IpAddress) :
  ip_address start_ip = Some s -> ip_address end_ip = Some e ->
  wf_address s -> wf_address e -> addr_version s = addr_version e ->
  (addr_ip s <= addr_ip e)%Z ->
  exists blocks, iprange_to_cidr start_ip end_ip = Ok blocks /\
                 greedy (addr_version s) (addr_ip s) (addr_ip e + 1) blocks.
Proof.
  intros Hs He Ws We Hv Hle. unfold iprange_to_cidr. rewrite Hs, He.
  apply summarize_address_range_greedy; assumption.
Qed.

(** C1.  For two addresses of the same version with [start <= end],
    [iprange_to_cidr] returns a list of blocks that covers exactly the
    interval [[start, end]]: an address is in some block iff it lies in
    the interval, no two blocks share an address, and every block is a
    valid CIDR block of that version. *)
Theorem iprange_to_cidr_exact_cover {L : IpLibrary} (start_ip end_ip : string)
  (s e : IpAddress) :
  ip_address start_ip = Some s -> ip_address end_ip = Some e ->
  wf_address s -> wf_address e -> addr_version s = addr_version e ->
  (addr_ip s <= addr_ip e)%Z ->
  exists blocks,
    iprange_to_cidr start_ip end_ip = Ok blocks /\
    (forall a, covered blocks a = true <-> (addr_ip s <= a <= addr_ip e)%Z) /\
    ForallOrdPairs (fun b1 b2 => ~ overlap b1 b2) blocks /\
    Forall (fun b => valid_block b /\ net_version b = addr_version s) blocks.
Proof.
  intros Hs He Ws We Hv Hle.
  destruct (iprange_to_cidr_greedy start_ip end_ip s e Hs He Ws We Hv Hle) as (blocks & Hb & Hg).
  exists blocks. split; [exact Hb|]. split; [|split].
  - intros a. rewrite (greedy_covered _ _ _ _ a Hg). lia.
  - eapply greedy_no_overlap, Hg.
  - apply Forall_and; [|eapply greedy_version, Hg].
    eapply greedy_valid; [| |exact Hg]; [apply Ws|].
    destruct We as [_ We]. rewrite <- Hv in We. lia.
Qed.

Lemma iprange_to_cidr_exact_cover_witness :
  exists blocks,
    @iprange_to_cidr sample_library "1.2.3.4" "1.2.3.9" = Ok blocks /\
    (forall a, covered blocks a = true <-> (16909060 <= a <= 16909065)%Z) /\
    ForallOrdPairs (fun b1 b2 => ~ overlap b1 b2) blocks /\
    Forall (fun b => valid_block b /\ net_version b = v4) blocks.
Proof.
  apply (@iprange_to_cidr_exact_cover sample_library "1.2.3.4" "1.2.3.9"
           (mkAddr v4 16909060) (mkAddr v4 16909065)).
  - reflexivity.
  - reflexivity.
  - unfold wf_address; cbn; lia.
  - unfold wf_address; cbn; lia.
  - reflexivity.
  - cbn; lia.
Defined.

(** C2.  For two addresses of the same version with [start <= end],
    no two adjacent blocks of the list [iprange_to_cidr] returns are the two
    halves of one parent block of twice the size, and the list cannot be
    replaced by fewer valid CIDR blocks: every list of valid blocks of
    that version whose union is the interval has at least as many
    blocks. *)
Theorem iprange_to_cidr_minimal {L : IpLibrary} (start_ip end_ip : string)
  (s e : IpAddress) :
  ip_address start_ip = Some s -> ip_address end_ip = Some e ->
  wf_address s -> wf_address e -> addr_version s = addr_version e ->
  (addr_ip s <= addr_ip e)%Z ->
  exists blocks,
    iprange_to_cidr start_ip end_ip = Ok blocks /\
    (forall b1 b2, adjacent blocks b1 b2 -> siblings b1 b2 = false) /\
    (forall cover,
        Forall (fun b => valid_block b /\ net_version b = addr_version s) cover ->
        (forall a, covered cover a = true <-> (addr_ip s <= a <= addr_ip e)%Z) ->
        (List.length blocks <= List.length cover)%nat).
Proof.
  intros Hs He Ws We Hv Hle.
  destruct (iprange_to_cidr_greedy start_ip end_ip s e Hs He Ws We Hv Hle) as (blocks & Hb & Hg).
  exists blocks. split; [exact Hb|]. split.
  - intros b1 b2 Hadj. eapply greedy_no_siblings; eassumption.
  - intros cover Hval Hcov. eapply greedy_fewest; [exact Hg|apply Ws| |exact Hval|].
    + destruct We as [_ We]. rewrite <- Hv in We. lia.
    + intros a. rewrite Hcov. lia.
Qed.

Lemma iprange_to_cidr_minimal_witness :
  exists blocks,
    @iprange_to_cidr sample_library "1.2.3.4" "1.2.3.9" = Ok blocks /\
    (forall b1 b2, adjacent blocks b1 b2 -> siblings b1 b2 = false) /\
    (forall cover,
        Forall (fun b => valid_block b /\ net_version b = v4) cover ->
        (forall a, covered cover a = true <-> (16909060 <= a <= 16909065)%Z) ->
        (List.length blocks <= List.length cover)%nat).
Proof.
  apply (@iprange_to_cidr_minimal sample_library "1.2.3.4" "1.2.3.9"
           (mkAddr v4 16909060) (mkAddr v4 16909065)).
  - reflexivity.
  - reflexivity.
  - unfold wf_address; cbn; lia.
  - unfold wf_address; cbn; lia.
  - reflexivity.
  - cbn; lia.
Defined.

Lemma harmless_no_mutations t : forallb harmless t = true -> mutations t = [].
Proof.
  unfold mutations. induction t as [|e r IH]; [reflexivity|]. cbn [forallb].
  intros H. apply andb_true_iff in H. destruct H as [He Hr].
  destruct e; cbn in *; try (apply IH; assumption); try discriminate.
  rewrite He. cbn. apply IH; assumption.
Qed.

Lemma unblock_invalid {L : IpLibrary} asn dry_run w :
  validate_asn asn = false ->
  asn_block.cleanup_ipsets asn dry_run w
  = (Ok tt, w, [Print "--- Cleaning up block rules ---"; Log Error "Invalid ASN."]).
Proof.
  intros H. unfold asn_block.cleanup_ipsets, bind, print, logger, emit.
  rewrite H. reflexivity.
Qed.

Lemma unblock_conflict {L : IpLibrary} asn dry_run w :
  detected (active w "firewalld") (active w "ufw")
           (active w "iptables" || active w "ip6tables") = "conflict" ->
  exists t, asn_block.cleanup_ipsets asn dry_run w = (Ok tt, w, t)
            /\ forallb harmless t = true.
Proof.
  intros Hc. destruct (validate_asn asn) eqn:Hv.
  - destruct (detect_run w) as (t & Hd & Ht).
    unfold asn_block.cleanup_ipsets.
    step (print_run "--- Cleaning up block rules ---" w). rewrite Hv. cbn [negb].
    step Hd. rewrite Hc. cbn.
    eexists. split; [reflexivity|]. rewrite app_nil_r. exact Ht.
  - rewrite unblock_invalid by assumption. eexists. split; reflexivity.
Qed.

(** C3 as stated fails: with the iptables and the ip6tables service both
    active and nothing else, two backend services report active and
    [detect_firewall_backend] answers "iptables", not "conflict". *)
Lemma two_services_without_conflict :
  ~ (forall w : World,
       (2 <= active_services w)%Z ->
       outcome (asn_block.detect_firewall_backend w) = Ok "conflict").
Proof.
  intros H. specialize (H (sample_world ["iptables"; "ip6tables"])).
  assert (Hn : (2 <= active_services (sample_world ["iptables"; "ip6tables"]))%Z)
    by (vm_compute; discriminate).
  specialize (H Hn). vm_compute in H. discriminate.
Qed.

(** C3, amended.  Count three backends, the iptables backend being
    active when the iptables or the ip6tables service is.  Detection
    changes nothing and issues only queries; with at most one backend
    active it returns that backend, or "unknown" when there is none; with
    two or more it returns "conflict", and then block and unblock leave
    the host as it was, every event of theirs being output or a query:
    they issue no mutating command. *)
Theorem detect_backend_exclusive {L : IpLibrary} (w : World) :
  let firewalld := active w "firewalld" in
  let ufw := active w "ufw" in
  let ipt := active w "iptables" || active w "ip6tables" in
  let n := sum_bools [firewalld; ufw; ipt] in
  let d := asn_block.detect_firewall_backend w in
  final d = w /\ mutations (trace d) = [] /\
  ((n <= 1)%Z ->
   outcome d = Ok (if firewalld then "firewalld" else if ufw then "ufw"
                   else if ipt then "iptables" else "unknown")) /\
  ((2 <= n)%Z ->
   outcome d = Ok "conflict" /\
   forall asn dry_run,
     let b := asn_block.create_ipset_and_rules asn dry_run w in
     let u := asn_block.cleanup_ipsets asn dry_run w in
     final b = w /\ forallb harmless (trace b) = true /\ mutations (trace b) = [] /\
     final u = w /\ forallb harmless (trace u) = true /\ mutations (trace u) = []).
Proof.
  cbv zeta. destruct (detect_run w) as (t & Hd & Ht). rewrite Hd.
  cbn [outcome final trace fst snd].
  split; [reflexivity|]. split; [apply harmless_no_mutations, Ht|]. split.
  - intros Hn. f_equal. unfold detected.
    destruct (Z.ltb_spec 1 (sum_bools [active w "firewalld"; active w "ufw";
                                        active w "iptables" || active w "ip6tables"]));
      [lia|reflexivity].
  - intros Hn.
    assert (Hc : detected (active w "firewalld") (active w "ufw")
                   (active w "iptables" || active w "ip6tables") = "conflict").
    { unfold detected.
      destruct (Z.ltb_spec 1 (sum_bools [active w "firewalld"; active w "ufw";
                                          active w "iptables" || active w "ip6tables"]));
        [reflexivity|lia]. }
    split; [now rewrite Hc|]. intros asn dry_run.
    destruct (block_conflict asn dry_run w Hc) as (tb & Hb & Htb).
    destruct (unblock_conflict asn dry_run w Hc) as (tu & Hu & Htu).
    rewrite Hb, Hu. cbn [final trace fst snd].
    repeat split; try assumption; apply harmless_no_mutations; assumption.
Qed.

Lemma detect_backend_exclusive_witness :
  let w := sample_world ["firewalld"; "ufw"] in
  outcome (asn_block.detect_firewall_backend w) = Ok "conflict" /\
  mutations (trace (@asn_block.create_ipset_and_rules sample_library 64500 false w)) = [] /\
  mutations (trace (@asn_block.cleanup_ipsets sample_library 64500 false w)) = [].
Proof.
  cbv zeta.
  destruct (@detect_backend_exclusive sample_library (sample_world ["firewalld"; "ufw"]))
    as (_ & _ & _ & H).
  destruct H as [Hd Hr]; [vm_compute; discriminate|].
  split; [exact Hd|].
  destruct (Hr 64500 false) as (_ & _ & Hb & _ & _ & Hu). split; assumption.
Defined.

(** C5 as stated fails: 4294967295, which is [2^32 - 1], is rejected by
    [validate_asn]. *)
Lemma last_asn_rejected :
  ~ (forall asn : Z, validate_asn asn = true <-> (1 <= asn <= 2 ^ 32 - 1)%Z).
Proof.
  intros H. destruct (H 4294967295%Z) as [_ H2].
  assert (Hv : validate_asn 4294967295 = true) by (apply H2; lia).
  vm_compute in Hv. discriminate.
Qed.

Lemma iptables_block_invalid {L : IpLibrary} asn dry_run w :
  validate_asn asn = false ->
  iptables_asn_block.create_ipset_and_rules asn dry_run w
  = (Ok tt, w, [Log Error "Invalid ASN."]).
Proof.
  intros H. unfold iptables_asn_block.create_ipset_and_rules. rewrite H. reflexivity.
Qed.

Lemma iptables_unblock_invalid {L : IpLibrary} asn w :
  validate_asn asn = false ->
  iptables_asn_block.cleanup_ipsets asn w = (Ok tt, w, [Log Error "Invalid ASN."]).
Proof.
  intros H. unfold iptables_asn_block.cleanup_ipsets. rewrite H. reflexivity.
Qed.

(** C5, amended.  An ASN is valid exactly when it lies in
    [1 .. 2^32 - 2]; for every other ASN, block and unblock of both
    scripts log "Invalid ASN." and return at once, before any detection,
    dataset access or command, and leave the host unchanged. *)
Theorem invalid_asn_aborts {L : IpLibrary} (asn : Z) :
  (validate_asn asn = true <-> (1 <= asn <= 2 ^ 32 - 2)%Z) /\
  (~ (1 <= asn <= 2 ^ 32 - 2)%Z ->
   forall (w : World) (dry_run : bool),
     asn_block.create_ipset_and_rules asn dry_run w
     = (Ok tt, w, [Print "--- Creating block rules ---"; Log Error "Invalid ASN."]) /\
     asn_block.cleanup_ipsets asn dry_run w
     = (Ok tt, w, [Print "--- Cleaning up block rules ---"; Log Error "Invalid ASN."]) /\
     iptables_asn_block.create_ipset_and_rules asn dry_run w
     = (Ok tt, w, [Log Error "Invalid ASN."]) /\
     iptables_asn_block.cleanup_ipsets asn w = (Ok tt, w, [Log Error "Invalid ASN."])).
Proof.
  assert (Hv : validate_asn asn = true <-> (1 <= asn <= 2 ^ 32 - 2)%Z).
  { unfold validate_asn. rewrite andb_true_iff, !Z.ltb_lt.
    change (2 ^ 32 - 2)%Z with 4294967294%Z. lia. }
  split; [exact Hv|]. intros Hn w dry_run.
  assert (Hf : validate_asn asn = false).
  { destruct (validate_asn asn); [|reflexivity]. exfalso. apply Hn, Hv. reflexivity. }
  split; [apply block_invalid, Hf|]. split; [apply unblock_invalid, Hf|].
  split; [apply iptables_block_invalid, Hf|apply iptables_unblock_invalid, Hf].
Qed.

Lemma invalid_asn_aborts_witness :
  @asn_block.create_ipset_and_rules sample_library 4294967295 true (sample_world ["ufw"])
  = (Ok tt, sample_world ["ufw"],
     [Print "--- Creating block rules ---"; Log Error "Invalid ASN."]).
Proof.
  destruct (@invalid_asn_aborts sample_library 4294967295) as [_ H].
  destruct (H ltac:(lia) (sample_world ["ufw"]) true) as [Hb _]. exact Hb.
Defined.

(** C6 as stated fails: on a line with a single field [parse_dataset]
    raises, it does not skip the line. *)
Lemma short_line_raises :
  ~ (forall (asn : Z) (lines : list string),
       snd (parse_dataset (asn_block.parse_line asn) (Some lines)) = None).
Proof.
  intros H. specialize (H 64500%Z ["garbage" ++ String newline ""]).
  vm_compute in H. discriminate.
Qed.

Lemma parse_line_well_shaped (s : script) (asn : Z) (line : string) :
  well_shaped s line = true ->
  parse_line_of s asn line
  = match wanted asn line with
    | [] => Skip
    | (a, b) :: _ => Yield a b
    end.
Proof.
  unfold well_shaped, wanted. intros H.
  assert (Hp : parse_line_of s asn line
               = if skipped line then Skip
                 else match fields line with
                      | a :: b :: c :: rest =>
                          match s, rest with
                          | iptables_asn_block_py, _ :: _ => Fail ValueError
                          | _, _ => if c =? str_of_int asn then Yield a b else Skip
                          end
                      | _ => Fail (match s with asn_block_py => IndexError
                                           | iptables_asn_block_py => ValueError end)
                      end).
  { destruct s; cbn [parse_line_of]; unfold asn_block.parse_line, iptables_asn_block.parse_line,
      skipped, fields.
    - destruct (_ || _); [reflexivity|].
      destruct (split tab (strip line)) as [|a [|b [|c rest]]]; try reflexivity;
        destruct rest; reflexivity.
    - destruct (_ || _); [reflexivity|].
      destruct (split tab (strip line)) as [|a [|b [|c rest]]]; try reflexivity;
        destruct rest; reflexivity. }
  rewrite Hp. destruct (skipped line); [reflexivity|]. cbn [orb] in H.
  destruct (fields line) as [|a [|b [|c rest]]]; cbn [List.length] in H;
    try (destruct s; discriminate).
  destruct s.
  - destruct rest; destruct (c =? str_of_int asn); reflexivity.
  - destruct rest; [destruct (c =? str_of_int asn); reflexivity|].
    cbn [List.length] in H. exfalso. apply Z.eqb_eq in H. lia.
Qed.

Lemma parse_lines_well_shaped (s : script) (asn : Z) (lines : list string) :
  forallb (well_shaped s) lines = true ->
  parse_lines (parse_line_of s asn) lines = (flat_map (wanted asn) lines, None).
Proof.
  induction lines as [|line rest IH]; [reflexivity|].
  cbn [forallb parse_lines flat_map]. intros H. apply andb_true_iff in H.
  destruct H as [Hl Hr]. rewrite (parse_line_well_shaped s asn line Hl), (IH Hr).
  unfold wanted. destruct (skipped line); [reflexivity|].
  destruct (fields line) as [|a [|b [|c tl]]]; try reflexivity.
  destruct (c =? str_of_int asn); reflexivity.
Qed.

(** C6, amended.  On a dataset whose lines are comments, blank lines or
    lines with at least three tab-separated fields (exactly three for
    iptables_asn_block.py), [parse_dataset] does not raise: it skips
    comments and blank lines and yields, in order, the first two fields of
    exactly the other lines whose third field is the target ASN. *)
Theorem parse_dataset_well_shaped (s : script) (asn : Z) (lines : list string) :
  forallb (well_shaped s) lines = true ->
  parse_dataset (parse_line_of s asn) (Some lines)
  = (flat_map (wanted asn) lines, None).
Proof. apply parse_lines_well_shaped. Qed.

Lemma parse_dataset_well_shaped_witness :
  parse_dataset (asn_block.parse_line 64500) (Some sample_lines_v4)
  = ([("1.2.3.0", "1.2.3.255"); ("1.2.4.4", "1.2.4.9")], None).
Proof.
  exact (parse_dataset_well_shaped asn_block_py 64500 sample_lines_v4 eq_refl).
Defined.

(** What [download_file] keeps is well shaped: the cache it writes never
    makes [parse_dataset] raise. *)
Lemma kept_line_well_shaped (s : script) (line : string) :
  line_shape_ok_of s (strip line) = true -> well_shaped s line = true.
Proof.
  unfold well_shaped, fields. intros H. apply orb_true_iff. right.
  destruct s; cbn [line_shape_ok_of] in H;
    unfold asn_block.line_shape_ok, iptables_asn_block.line_shape_ok in H;
    destruct (split tab (strip line)) as [|a [|b [|c rest]]]; try discriminate.
  - cbn [List.length]. apply Z.leb_le. lia.
  - destruct rest; [reflexivity|discriminate].
Qed.

Lemma downloaded_dataset_parses (s : script) (asn : Z) (v : version) (w : World) :
  outcome (download_file (line_shape_ok_of s) v w) = Ok tt ->
  exists lines,
    files (final (download_file (line_shape_ok_of s) v w)) v = Some lines /\
    snd (parse_dataset (parse_line_of s asn) (Some lines)) = None.
Proof.
  unfold download_file. destruct (remote w v) as [raw|]; [|discriminate].
  intros _. exists (filter (fun l => line_shape_ok_of s (strip l)) raw).
  split; [destruct v; reflexivity|].
  cbn [parse_dataset]. rewrite parse_lines_well_shaped; [reflexivity|].
  apply forallb_forall. intros line Hin. apply filter_In in Hin.
  apply kept_line_well_shaped, Hin.
Qed.

(** C9.  On the same dataset of a version, the list of CIDR strings that
    [cleanup_ipsets] recomputes is the list [create_ipset_and_rules]
    computed (and both raise the same exception when the dataset makes
    them raise), in dry-run mode or not. *)
Theorem unblock_recomputes_block_cidrs {L : IpLibrary} (asn : Z) (dry_run : bool)
  (v : version) (w w' : World) :
  files w v = files w' v ->
  outcome (asn_block.block_cidr_list asn dry_run v (set_name asn v) w)
  = outcome (asn_block.unblock_cidr_list asn v w').
Proof.
  intros Hf.
  destruct (block_cidr_list_run asn dry_run v (set_name asn v) w) as (w1 & t & H & _).
  rewrite H, unblock_cidr_list_run, Hf. reflexivity.
Qed.

Lemma unblock_recomputes_block_cidrs_witness :
  outcome (@asn_block.block_cidr_list sample_library 64500 false v4
             (set_name 64500 v4) (sample_world ["ufw"]))
  = outcome (@asn_block.unblock_cidr_list sample_library 64500 v4
               (sample_world ["firewalld"])).
Proof.
  apply (@unblock_recomputes_block_cidrs sample_library 64500 false v4
           (sample_world ["ufw"]) (sample_world ["firewalld"])).
  reflexivity.
Defined.


(** The run behind it: detection answers "unknown", [unblock] raises
    [FileNotFoundError], downloads nothing and changes nothing, where
    [block] on the same host fetches the datasets and fills both sets. *)
Lemma unblock_bare_host :
  let u := @asn_block.cleanup_ipsets sample_library 64500 false bare_world in
  let b := @asn_block.create_ipset_and_rules sample_library 64500 false bare_world in
  outcome (asn_block.detect_firewall_backend bare_world) = Ok "unknown" /\
  outcome u = Raise FileNotFoundError /\
  existsb is_download (trace u) = false /\
  mutations (trace u) = [] /\
  final u = bare_world /\
  outcome b = Ok tt /\
  ipsets (final b)
  = [("ASN64500_v4", ["1.2.3.0/24"; "1.2.4.4/30"; "1.2.4.8/31"]); ("ASN64500_v6", [])].
Proof.
  vm_compute. repeat split.
Qed.



(** C4 at its failing input: [iptables_asn_block.py unblock 64500
    --dry-run] prints no description and runs the four commands that
    remove the rules and destroy the sets; the rule and the sets are
    gone afterwards. *)
Theorem iptables_unblock_ignores_dry_run :
  let r := @iptables_asn_block.main sample_library
             (mkArgs unblock (Some 64500%Z) true) missing_world in
  outcome r = Ok tt /\
  printed (trace r) = [] /\
  mutations (trace r)
  = [BIN_IPTABLES :: "-D" :: "INPUT" :: rule_spec "ASN64500_v4";
     [BIN_IPSET; "destroy"; "ASN64500_v4"];
     BIN_IP6TABLES :: "-D" :: "INPUT" :: rule_spec "ASN64500_v6";
     [BIN_IPSET; "destroy"; "ASN64500_v6"]] /\
  chain missing_world v4 = ["ASN64500_v4"] /\ chain (final r) v4 = [] /\
  ipsets (final r) = [].
Proof. vm_compute. repeat split. Qed.

(** The defect of C7 on every host: with a valid ASN, at most one backend
    active and the IPv4 dataset missing, unblock raises before it changes
    anything, and downloads nothing. *)
Lemma unblock_without_dataset {L : IpLibrary} (asn : Z) (dry_run : bool) (w : World) :
  validate_asn asn = true ->
  (sum_bools [active w "firewalld"; active w "ufw";
              active w "iptables" || active w "ip6tables"] <= 1)%Z ->
  files w v4 = None ->
  let u := asn_block.cleanup_ipsets asn dry_run w in
  outcome u = Raise FileNotFoundError /\ final u = w /\
  forallb harmless (trace u) = true.
Proof.
  intros Hv Hn Hf. cbv zeta. destruct (detect_run w) as (t & Hd & Ht).
  unfold asn_block.cleanup_ipsets.
  step (print_run "--- Cleaning up block rules ---" w). rewrite Hv. cbn [negb].
  step Hd.
  set (fw := detected _ _ _) in *.
  assert (Hfw : (fw =? "conflict") = false).
  { unfold fw, detected.
    destruct (Z.ltb_spec 1 (sum_bools [active w "firewalld"; active w "ufw";
                                        active w "iptables" || active w "ip6tables"]));
      [lia|].
    destruct (active w "firewalld"), (active w "ufw"),
      (active w "iptables" || active w "ip6tables"); reflexivity. }
  rewrite Hfw. step (print_run ("Firewall system detected: " ++ fw) w).
  unfold for_each. cbn [foldM].
  assert (Hu : asn_block.unblock_version asn dry_run fw v4 w
               = (Raise FileNotFoundError, w, [])).
  { unfold asn_block.unblock_version. cbv zeta.
    apply bind_Raise. rewrite unblock_cidr_list_run, Hf. reflexivity. }
  rewrite (bind_Raise _ _ _ _ _ _ Hu).
  cbn [outcome final trace fst snd].
  split; [reflexivity|]. split; [reflexivity|].
  cbn [forallb app harmless]. rewrite forallb_app, Ht. reflexivity.
Qed.

(** C7 at its failing input: with the dataset cache missing,
    [asn_block.py unblock 64500] raises [FileNotFoundError] without any
    download and before any removal (the rule is still there), where
    [block] on the same host downloads the datasets and goes on. *)
Theorem unblock_missing_dataset_raises :
  let u := @asn_block.main sample_library
             (mkArgs unblock (Some 64500%Z) false) missing_world in
  let b := @asn_block.main sample_library
             (mkArgs block (Some 64500%Z) false) missing_world in
  outcome u = Raise FileNotFoundError /\
  existsb is_download (trace u) = false /\
  mutations (trace u) = [] /\
  chain (final u) v4 = ["ASN64500_v4"] /\
  outcome b = Ok tt /\
  existsb is_download (trace b) = true.
Proof. vm_compute. repeat split. Qed.

(** C8 at its failing input: with the iptables backend, running
    [asn_block.py block 64500] twice leaves two identical rules in the
    INPUT chain; the second run never checks for the rule. *)
Theorem block_twice_duplicates_rule :
  let w0 := sample_world ["iptables"] in
  let w1 := final (@asn_block.create_ipset_and_rules sample_library 64500 false w0) in
  let r2 := @asn_block.create_ipset_and_rules sample_library 64500 false w1 in
  chain w0 v4 = [] /\
  chain w1 v4 = ["ASN64500_v4"] /\
  outcome r2 = Ok tt /\
  chain (final r2) v4 = ["ASN64500_v4"; "ASN64500_v4"] /\
  existsb (fun a => argv_eqb a (BIN_IPTABLES :: "-C" :: "INPUT" :: rule_spec "ASN64500_v4"))
    (commands (trace r2)) = false.
Proof. vm_compute. repeat split. Qed.

(** The simpler script checks before it inserts. *)
Lemma iptables_block_twice_one_rule :
  let w0 := sample_world3 ["iptables"] in
  let w1 := final (@iptables_asn_block.create_ipset_and_rules sample_library 64500 false w0) in
  let r2 := @iptables_asn_block.create_ipset_and_rules sample_library 64500 false w1 in
  chain w1 v4 = ["ASN64500_v4"] /\
  outcome r2 = Ok tt /\
  chain (final r2) v4 = ["ASN64500_v4"].
Proof. vm_compute. repeat split. Qed.

(** With the iptables backend detected, every live [block] of a valid
    ASN puts one more rule at the head of both chains: a rule that is
    already there is doubled. *)
Lemma block_prepends_rule {L : IpLibrary} (asn : Z) (w : World) (c4 c6 : list string) :
  validate_asn asn = true ->
  active w "firewalld" = false -> active w "ufw" = false ->
  (active w "iptables" || active w "ip6tables") = true ->
  cidr_list_of (parse_dataset (asn_block.parse_line asn) (files w v4)) = Ok c4 ->
  cidr_list_of (parse_dataset (asn_block.parse_line asn) (files w v6)) = Ok c6 ->
  let r := asn_block.create_ipset_and_rules asn false w in
  outcome r = Ok tt /\
  forall v, chain (final r) v = set_name asn v :: chain w v.
Proof.
  intros Hv Hf Hu Hi H4 H6. cbv zeta.
  destruct (cidr_list_ok_file _ _ _ H4) as (l4 & Hl4).
  destruct (cidr_list_ok_file _ _ _ H6) as (l6 & Hl6).
  unfold asn_block.create_ipset_and_rules.
  step (print_run "--- Creating block rules ---" w). rewrite Hv. cbn [negb].
  destruct (detect_run w) as (t & Hd & _). rewrite Hf, Hu, Hi in Hd.
  change (detected false false true) with "iptables" in Hd.
  step Hd.
  replace ("iptables" =? "conflict") with false by reflexivity.
  step (print_run ("Firewall system detected: " ++ "iptables") w).
  step (eq_refl : ensure_data_dir w = (Ok tt, with_datadir w, [Mkdir])).
  step (ensure_datasets_cached asn_block.line_shape_ok "Datasets updated."
          (with_datadir w) l4 l6 Hl4 Hl6).
  unfold for_each. cbn [foldM].
  destruct (block_version_iptables asn v4 (with_datadir w) c4 H4) as (w1 & t1 & R4 & E4 & C4 & _).
  step R4.
  assert (H6' : cidr_list_of (parse_dataset (asn_block.parse_line asn) (files w1 v6)) = Ok c6).
  { replace (files w1) with (files w); [exact H6|]. symmetry. apply E4. }
  destruct (block_version_iptables asn v6 w1 c6 H6') as (w2 & t2 & R6 & E6 & C6 & _).
  step R6. split; [reflexivity|].
  intros v. unfold ret; cbn [outcome final trace fst snd].
  rewrite C6. destruct v; cbn [version_eqb]; rewrite !C4; reflexivity.
Qed.

(** * Further properties *)

(** ** The command line and the detection *)

(** X1.  In both scripts, block and unblock without an ASN, or with the
    ASN 0 (which [not args.asn] takes as missing), log "ASN argument
    required." and do nothing else: no validation, no command, the
    host unchanged. *)
Theorem asn_zero_is_missing {L : IpLibrary} (s : script) (a : action) (asn : option Z)
  (dry_run : bool) (w : World) :
  a <> update -> asn = None \/ asn = Some 0%Z ->
  main_of s (mkArgs a asn dry_run) w = (Ok tt, w, [Log Error "ASN argument required."]).
Proof.
  intros Ha Hz.
  assert (Hm : asn_missing asn = true) by (destruct Hz as [->| ->]; reflexivity).
  destruct s, a; try contradiction; cbn [main_of];
    unfold asn_block.main, iptables_asn_block.main; cbn [args_action args_asn];
    rewrite Hm; reflexivity.
Qed.

Lemma asn_zero_is_missing_witness :
  @asn_block.main sample_library (mkArgs block (Some 0%Z) false) (sample_world ["iptables"])
  = (Ok tt, sample_world ["iptables"], [Log Error "ASN argument required."]).
Proof.
  apply (@asn_zero_is_missing sample_library asn_block_py block (Some 0%Z) false
           (sample_world ["iptables"])).
  - discriminate.
  - right. reflexivity.
Defined.

(** X2.  [detect_firewall_backend] asks systemctl about firewalld, ufw
    and iptables, in this order, and about ip6tables only when iptables
    is not active; it logs the conflict error exactly when it answers
    "conflict". *)
Theorem detect_asks_in_order (w : World) :
  let d := asn_block.detect_firewall_backend w in
  commands (trace d)
  = ([ask "firewalld"; ask "ufw"; ask "iptables"]
     ++ (if active w "iptables" then [] else [ask "ip6tables"]))%list /\
  (In (Log Error "Multiple conflicting firewall systems detected. Please ensure only one is active.")
      (trace d) <-> outcome d = Ok "conflict").
Proof.
  cbv zeta.
  unfold asn_block.detect_firewall_backend, asn_block.is_service_active, bind, run, logger, emit, ret.
  cbn.
  destruct (active w "firewalld"), (active w "ufw"), (active w "iptables");
    cbn; try destruct (active w "ip6tables"); cbn;
    (split; [reflexivity|]); split; intros H; try reflexivity; try discriminate;
    repeat (destruct H as [H|H]; try discriminate); try contradiction; auto 10.
Qed.

(** ** Updating the cache *)

Lemma update_datasets_run keep updated w :
  update_datasets keep updated w
  = match remote w v4 with
    | None => (Raise HTTPError, with_datadir w,
               [Mkdir; Log Info "Downloading IPv4 dataset..."; Download v4])
    | Some l4 =>
        let w4 := with_file (with_datadir w) v4 (filter (fun l => keep (strip l)) l4) in
        match remote w v6 with
        | None => (Raise HTTPError, w4,
                   [Mkdir; Log Info "Downloading IPv4 dataset..."; Download v4;
                    Log Info "Downloading IPv6 dataset..."; Download v6])
        | Some l6 =>
            (Ok tt, with_file w4 v6 (filter (fun l => keep (strip l)) l6),
             [Mkdir; Log Info "Downloading IPv4 dataset..."; Download v4;
              Log Info "Downloading IPv6 dataset..."; Download v6; Log Info updated])
        end
    end.
Proof.
  unfold update_datasets, bind, ensure_data_dir, logger, emit, download_file.
  change (remote (with_datadir w)) with (remote w).
  destruct (remote w v4) as [l4|]; [|reflexivity].
  cbv zeta. cbn [fst snd].
  change (remote (with_file (with_datadir w) v4 (filter (fun l => keep (strip l)) l4)))
    with (remote w).
  destruct (remote w v6) as [l6|]; reflexivity.
Qed.

(** X3.  [update], in both scripts, whatever the ASN and [--dry-run]:
    it runs no command; it succeeds exactly when both downloads do and
    raises otherwise; the IPv4 cache is replaced by the lines kept from
    the download as soon as that download succeeds, also when the IPv6
    download then fails; the IPv6 download is attempted only when the
    IPv4 one succeeded, and the IPv6 cache is replaced only when both
    did; the last message is logged exactly on success. *)
Theorem update_outcome {L : IpLibrary} (s : script) (asn : option Z) (dry_run : bool)
  (w : World) :
  let r := main_of s (mkArgs update asn dry_run) w in
  outcome r = match remote w v4, remote w v6 with
              | Some _, Some _ => Ok tt
              | _, _ => Raise HTTPError
              end /\
  files (final r) v4 = match remote w v4 with
                       | Some l4 => Some (kept s l4)
                       | None => files w v4
                       end /\
  files (final r) v6 = match remote w v4, remote w v6 with
                       | Some _, Some l6 => Some (kept s l6)
                       | _, _ => files w v6
                       end /\
  commands (trace r) = [] /\
  (In (Download v6) (trace r) <-> remote w v4 <> None) /\
  (In (Log Info (updated_of s)) (trace r) <-> outcome r = Ok tt).
Proof.
  cbv zeta.
  assert (H : main_of s (mkArgs update asn dry_run) w
              = update_datasets (line_shape_ok_of s) (updated_of s) w)
    by (destruct s; reflexivity).
  rewrite H, update_datasets_run. unfold kept. clear H.
  assert (Hu : forall e, In e [Mkdir; Log Info "Downloading IPv4 dataset..."; Download v4;
                               Log Info "Downloading IPv6 dataset..."; Download v6]
                         -> e <> Log Info (updated_of s)).
  { intros e He. repeat (destruct He as [<-|He]; [destruct s; discriminate|]). destruct He. }
  destruct (remote w v4) as [l4|]; [destruct (remote w v6) as [l6|]|];
    cbn [outcome final trace fst snd files with_file with_datadir version_eqb commands].
  - split; [reflexivity|]. split; [reflexivity|]. split; [reflexivity|].
    split; [reflexivity|]. split; split; intros _; try discriminate; try reflexivity;
      cbn; auto 10.
  - split; [reflexivity|]. split; [reflexivity|]. split; [reflexivity|].
    split; [reflexivity|]. split; split; try discriminate.
    + intros _. cbn; auto 10.
    + intros Hin. exfalso. exact (Hu _ Hin eq_refl).
  - split; [reflexivity|]. split; [reflexivity|]. split; [reflexivity|].
    split; [reflexivity|]. split; split; try discriminate.
    + intros Hin. cbn in Hin. repeat (destruct Hin as [Hin|Hin]; try discriminate). destruct Hin.
    + intros Hn. exfalso. now apply Hn.
    + intros Hin. exfalso. apply (Hu _ (in_or_app _ [_; _] _ (or_introl Hin)) eq_refl).
Qed.

(** ** What a run keeps *)

Lemma iptables_block_unfold {L : IpLibrary} asn dry_run :
  iptables_asn_block.create_ipset_and_rules asn dry_run
  = if negb (validate_asn asn) then logger Error "Invalid ASN."
    else
      ensure_data_dir ;;
      ensure_datasets iptables_asn_block.line_shape_ok "Datasets updated!" ;;
      for_each [v4; v6] (iptables_block_version asn dry_run).
Proof. reflexivity. Qed.

Section Stable.
Variable P : World -> World -> Prop.
Hypothesis P_refl : forall w, P w w.
Hypothesis P_trans : forall w1 w2 w3, P w1 w2 -> P w2 w3 -> P w1 w3.

Lemma stable_ret {A} (a : A) : stable P (ret a).
Proof. intros w. apply P_refl. Qed.

Lemma stable_raise {A} (e : exn) : stable P (@raise A e).
Proof. intros w. apply P_refl. Qed.

Lemma stable_emit e : stable P (emit e).
Proof. intros w. apply P_refl. Qed.

Lemma stable_bind {A B} (m : M A) (k : A -> M B) :
  stable P m -> (forall a, stable P (k a)) -> stable P (bind m k).
Proof.
  intros Hm Hk w. specialize (Hm w). unfold bind.
  destruct (m w) as [[r w1] t1]. cbn [final fst snd] in Hm.
  destruct r as [a|e|]; try exact Hm.
  specialize (Hk a w1). destruct (k a w1) as [[r2 w2] t2]. cbn [final fst snd] in *.
  eapply P_trans; eassumption.
Qed.

Lemma stable_foldM {A S} (body : S -> A -> M S) :
  (forall s x, stable P (body s x)) -> forall l s, stable P (foldM body l s).
Proof.
  intros Hb l. induction l as [|x r IH]; intros s; cbn [foldM].
  - apply stable_ret.
  - apply stable_bind; [apply Hb|]. intros a. apply IH.
Qed.

Lemma stable_for_gen {A S} (g : gen A) (body : S -> A -> M S) :
  (forall s x, stable P (body s x)) -> forall s, stable P (for_gen g body s).
Proof.
  intros Hb s. unfold for_gen. apply stable_bind; [apply stable_foldM, Hb|].
  intros a. destruct (snd g); [apply stable_raise|apply stable_ret].
Qed.

Lemma stable_for_result {A S} (r : result (list A)) (body : S -> A -> M S) :
  (forall s x, stable P (body s x)) -> forall s, stable P (for_result r body s).
Proof.
  intros Hb s. destruct r as [l|e|]; cbn [for_result].
  - apply stable_foldM, Hb.
  - apply stable_raise.
  - intros w. apply P_refl.
Qed.

Lemma stable_for_each {A} (l : list A) (body : A -> M unit) :
  (forall x, stable P (body x)) -> stable P (for_each l body).
Proof. intros Hb. unfold for_each. apply stable_foldM. intros _ x. apply Hb. Qed.

Lemma stable_read_file v : stable P (read_file v).
Proof. intros w. apply P_refl. Qed.

Lemma stable_file_exists v : stable P (file_exists v).
Proof. intros w. apply P_refl. Qed.

(** The scripts, given that the commands they run keep the relation:
    in a live run the commands on the set of the version and the rule
    commands, in a dry run the queries. *)
Variable dry_run : bool.

Lemma owned_ipset op name args : owned name (BIN_IPSET :: op :: name :: args) = true.
Proof. unfold owned, touches. cbn [hd]. now rewrite !String.eqb_refl. Qed.

Lemma stable_query name argv :
  runs_keep P dry_run name -> is_query argv = true -> stable P (run argv).
Proof. intros Hr H. apply Hr. left. exact H. Qed.

Lemma stable_live name argv :
  runs_keep P dry_run name -> dry_run = false -> owned name argv = true ->
  stable P (run argv).
Proof. intros Hr Hd H. apply Hr. right. split; assumption. Qed.

Lemma stable_run_unit name argv :
  runs_keep P dry_run name -> dry_run = false -> owned name argv = true ->
  stable P (_ <- run argv ;; ret tt).
Proof.
  intros Hr Hd H. apply stable_bind; [apply (stable_live name); assumption|].
  intros _. apply stable_ret.
Qed.

Lemma stable_if_dry {A} (d l : M A) :
  stable P d -> (dry_run = false -> stable P l) -> stable P (if dry_run then d else l).
Proof. intros Hd Hl. destruct dry_run; [exact Hd|apply Hl; reflexivity]. Qed.

Lemma stable_if_live {A} (d l : M A) :
  stable P d -> (dry_run = false -> stable P l) ->
  stable P (if negb dry_run then l else d).
Proof. intros Hd Hl. destruct dry_run; [exact Hd|apply Hl; reflexivity]. Qed.

Lemma stable_detect name :
  runs_keep P dry_run name -> stable P asn_block.detect_firewall_backend.
Proof.
  intros Hr.
  unfold asn_block.detect_firewall_backend, asn_block.is_service_active.
  repeat (apply stable_bind;
          [apply stable_bind;
             [apply (stable_query name _ Hr); reflexivity|intros ?; apply stable_ret]
          |intros ?]).
  apply stable_bind.
  - apply stable_bind;
      [apply stable_bind;
         [apply (stable_query name _ Hr); reflexivity|intros ?; apply stable_ret]|].
    intros []; [apply stable_ret|].
    apply stable_bind; [apply (stable_query name _ Hr); reflexivity|intros ?; apply stable_ret].
  - intros ipt. destruct (1 <? _)%Z.
    + apply stable_bind; [apply stable_emit|intros _; apply stable_ret].
    + repeat match goal with |- context [if ?b then _ else _] => destruct b end;
        apply stable_ret.
Qed.

Context {L : IpLibrary}.

Lemma stable_block_version asn fw v :
  runs_keep P dry_run (set_name asn v) ->
  stable P (asn_block.block_version asn dry_run fw v).
Proof.
  intros Hr. unfold asn_block.block_version. cbv zeta.
  apply stable_bind.
  { unfold asn_block.create_or_reset_ipset.
    apply stable_bind; [apply (stable_query _ _ Hr); reflexivity|]. intros rc.
    apply stable_bind.
    - destruct (rc =? 0)%Z; [|apply stable_ret].
      apply stable_if_dry; [apply stable_emit|intros Hdr].
      apply (stable_run_unit _ _ Hr Hdr), owned_ipset.
    - intros _. apply stable_if_dry; [apply stable_emit|intros Hdr].
      apply (stable_run_unit _ _ Hr Hdr), owned_ipset. }
  intros _. apply stable_bind.
  { unfold asn_block.block_cidr_list. apply stable_bind; [apply stable_read_file|].
    intros file. apply stable_for_gen. intros s se. apply stable_for_result.
    intros s' net. cbv zeta. apply stable_bind; [|intros _; apply stable_ret].
    unfold asn_block.add_ip_to_ipset. cbv zeta.
    apply stable_if_dry; [apply stable_emit|intros Hdr].
    apply (stable_run_unit _ _ Hr Hdr), owned_ipset. }
  intros cidr_list.
  destruct (fw =? "iptables").
  { unfold asn_block.apply_iptables_rule. cbv zeta.
    apply stable_if_dry; [apply stable_emit|intros Hdr].
    apply (stable_run_unit _ _ Hr Hdr). destruct v; reflexivity. }
  destruct (fw =? "firewalld").
  { unfold asn_block.apply_firewalld_rule. cbv zeta. apply stable_if_dry; [|intros Hdr].
    - apply stable_bind; [apply stable_emit|intros _; apply stable_emit].
    - apply stable_bind; [apply (stable_live _ _ Hr Hdr); reflexivity|intros _].
      apply (stable_run_unit _ _ Hr Hdr). reflexivity. }
  destruct (fw =? "ufw"); [|apply stable_ret].
  unfold asn_block.apply_ufw_rule. apply stable_for_each. intros cidr. cbv zeta.
  apply stable_if_dry; [apply stable_emit|intros Hdr].
  apply (stable_run_unit _ _ Hr Hdr). reflexivity.
Qed.

Lemma stable_unblock_version asn fw v :
  runs_keep P dry_run (set_name asn v) ->
  stable P (asn_block.unblock_version asn dry_run fw v).
Proof.
  intros Hr. unfold asn_block.unblock_version. cbv zeta.
  apply stable_bind.
  { unfold asn_block.unblock_cidr_list. apply stable_bind; [apply stable_read_file|].
    intros file. apply stable_for_gen. intros s se. apply stable_for_result.
    intros s' net. apply stable_ret. }
  intros cidr_list. apply stable_bind.
  { destruct (fw =? "iptables").
    { unfold asn_block.remove_iptables_rule. cbv zeta.
      apply stable_if_dry; [apply stable_emit|intros Hdr].
      apply (stable_run_unit _ _ Hr Hdr). destruct v; reflexivity. }
    destruct (fw =? "firewalld").
    { unfold asn_block.remove_firewalld_rule. cbv zeta. apply stable_if_dry; [|intros Hdr].
      - apply stable_bind; [apply stable_emit|intros _; apply stable_emit].
      - apply stable_bind; [apply (stable_live _ _ Hr Hdr); reflexivity|intros _].
        apply (stable_run_unit _ _ Hr Hdr). reflexivity. }
    destruct (fw =? "ufw"); [|apply stable_ret].
    unfold asn_block.remove_ufw_rule. apply stable_for_each. intros cidr. cbv zeta.
    apply stable_if_dry; [apply stable_emit|intros Hdr].
    apply (stable_run_unit _ _ Hr Hdr). reflexivity. }
  intros _. apply stable_if_dry; [apply stable_emit|intros Hdr].
  apply stable_bind; [apply (stable_live _ _ Hr Hdr), owned_ipset|intros _; apply stable_emit].
Qed.

Lemma stable_add_cidrs asn v :
  runs_keep P dry_run (set_name asn v) ->
  stable P (iptables_asn_block.add_cidrs asn dry_run v (set_name asn v)).
Proof.
  intros Hr.
  unfold iptables_asn_block.add_cidrs. apply stable_bind; [apply stable_read_file|].
  intros file. apply stable_for_gen. intros s se. apply stable_for_result.
  intros s' net. apply stable_bind; [|intros _; apply stable_ret].
  apply stable_if_dry; [apply stable_emit|intros Hdr].
  apply (stable_run_unit _ _ Hr Hdr), owned_ipset.
Qed.

(** One version of block in iptables_asn_block.py. *)
Lemma stable_iptables_version asn v :
  runs_keep P dry_run (set_name asn v) ->
  stable P (iptables_block_version asn dry_run v).
Proof.
  intros Hr. unfold iptables_block_version. cbv zeta.
  apply stable_bind; [|intros _].
  { apply stable_if_live; [apply stable_ret|intros Hdr].
    apply stable_bind; [apply (stable_live _ _ Hr Hdr), owned_ipset|intros _].
    apply (stable_run_unit _ _ Hr Hdr), owned_ipset. }
  apply stable_bind; [apply stable_add_cidrs, Hr|intros count].
  apply stable_bind; [apply stable_emit|intros _].
  apply stable_if_live; [apply stable_ret|intros Hdr].
  apply stable_bind; [apply (stable_query _ _ Hr); destruct v; reflexivity|intros rc].
  destruct (negb (rc =? 0)%Z); [|apply stable_ret].
  apply stable_bind; [|intros _; apply stable_emit].
  apply (stable_live _ _ Hr Hdr). destruct v; reflexivity.
Qed.

End Stable.

(** ** Block refreshes a missing cache *)

Lemma run_env argv : stable same_env (run argv).
Proof.
  intros w. unfold run. pose proof (exec_env w argv) as H.
  destruct (exec w argv) as [rc w']. exact H.
Qed.

Lemma ensure_datasets_run keep updated w :
  ensure_datasets keep updated w
  = match files w v4, files w v6 with
    | Some _, Some _ => (Ok tt, w, [])
    | _, _ => (outcome (update_datasets keep updated w),
               final (update_datasets keep updated w),
               Log Warning "Datasets missing, downloading now..."
               :: trace (update_datasets keep updated w))
    end.
Proof.
  unfold ensure_datasets, bind at 1 2, file_exists.
  destruct (files w v4), (files w v6); cbn [negb orb]; try reflexivity;
    unfold bind, logger, emit; destruct (update_datasets keep updated w) as [[r w'] t];
    reflexivity.
Qed.

Lemma valid_asn_given asn : validate_asn asn = true -> asn_missing (Some asn) = false.
Proof.
  unfold validate_asn. intros Hv. apply andb_true_iff in Hv. destruct Hv as [Hv _].
  apply Z.ltb_lt in Hv. cbn. apply Z.eqb_neq. lia.
Qed.

Lemma block_refreshes_cache_aux keep updated (w : World) (l4 l6 : list string)
  (loops : M unit) :
  files w v4 = None \/ files w v6 = None ->
  remote w v4 = Some l4 -> remote w v6 = Some l6 ->
  stable same_env loops ->
  let r := (ensure_data_dir ;; ensure_datasets keep updated ;; loops) w in
  In (Download v4) (trace r) /\ In (Download v6) (trace r) /\
  files (final r) v4 = Some (filter (fun l => keep (strip l)) l4) /\
  files (final r) v6 = Some (filter (fun l => keep (strip l)) l6).
Proof.
  intros Hm H4 H6 Hl. cbv zeta.
  step (eq_refl : ensure_data_dir w = (Ok tt, with_datadir w, [Mkdir])).
  pose proof (ensure_datasets_run keep updated (with_datadir w)) as He.
  change (files (with_datadir w)) with (files w) in He.
  rewrite update_datasets_run in He.
  change (remote (with_datadir w)) with (remote w) in He. rewrite H4, H6 in He.
  cbv zeta in He. cbn [outcome final trace fst snd] in He.
  set (w2 := with_file _ v6 _) in He.
  assert (He' : ensure_datasets keep updated (with_datadir w)
                = (Ok tt, w2,
                   [Log Warning "Datasets missing, downloading now..."; Mkdir;
                    Log Info "Downloading IPv4 dataset..."; Download v4;
                    Log Info "Downloading IPv6 dataset..."; Download v6; Log Info updated])).
  { rewrite He. destruct Hm as [-> | Hm]; [reflexivity|].
    rewrite Hm. destruct (files w v4); reflexivity. }
  step He'. specialize (Hl w2). destruct Hl as (_ & Hf & _).
  split; [cbn; auto 10|]. split; [cbn; auto 10|].
  rewrite Hf. split; reflexivity.
Qed.

(** X4.  Block with a valid ASN (and, in asn_block.py, no conflict of
    backends), when one of the cached datasets is missing and both
    downloads succeed: both datasets are downloaded and both cache files
    rewritten, the one that was there too, in a dry run as in a live
    run, and whatever the rest of the run does. *)
Theorem block_refreshes_cache {L : IpLibrary} (s : script) (asn : Z) (dry_run : bool)
  (w : World) (l4 l6 : list string) :
  validate_asn asn = true ->
  (s = asn_block_py ->
   detected (active w "firewalld") (active w "ufw")
            (active w "iptables" || active w "ip6tables") <> "conflict") ->
  files w v4 = None \/ files w v6 = None ->
  remote w v4 = Some l4 -> remote w v6 = Some l6 ->
  let r := main_of s (mkArgs block (Some asn) dry_run) w in
  In (Download v4) (trace r) /\ In (Download v6) (trace r) /\
  files (final r) v4 = Some (kept s l4) /\ files (final r) v6 = Some (kept s l6).
Proof.
  intros Hv Hc Hm H4 H6. cbv zeta. unfold kept.
  destruct s; cbn [main_of line_shape_ok_of].
  - specialize (Hc eq_refl).
    unfold asn_block.main. cbn [args_action args_asn args_dry_run].
    rewrite (valid_asn_given asn Hv). unfold asn_block.create_ipset_and_rules.
    step (print_run "--- Creating block rules ---" w). rewrite Hv. cbn [negb].
    destruct (detect_run w) as (t & Hd & _). step Hd.
    apply String.eqb_neq in Hc. rewrite Hc.
    step (print_run ("Firewall system detected: "
                     ++ detected (active w "firewalld") (active w "ufw")
                          (active w "iptables" || active w "ip6tables")) w).
    destruct (block_refreshes_cache_aux asn_block.line_shape_ok "Datasets updated." w l4 l6
                (for_each [v4; v6]
                   (asn_block.block_version asn dry_run
                      (detected (active w "firewalld") (active w "ufw")
                         (active w "iptables" || active w "ip6tables")))) Hm H4 H6)
      as (I4 & I6 & F4 & F6).
    { apply stable_for_each; [apply same_env_refl|apply same_env_trans|]. intros v.
      apply stable_block_version;
        [apply same_env_refl|apply same_env_trans|intros argv _; apply run_env]. }
    split; [|split; [|split; assumption]].
    + do 3 (apply in_or_app; right). exact I4.
    + do 3 (apply in_or_app; right). exact I6.
  - unfold iptables_asn_block.main. cbn [args_action args_asn args_dry_run].
    rewrite (valid_asn_given asn Hv). unfold iptables_asn_block.create_ipset_and_rules.
    rewrite Hv. cbn [negb].
    exact (block_refreshes_cache_aux iptables_asn_block.line_shape_ok "Datasets updated!"
             w l4 l6 _ Hm H4 H6
             (stable_for_each same_env same_env_refl same_env_trans [v4; v6] _
                (fun v => stable_iptables_version same_env same_env_refl same_env_trans
                            dry_run asn v (fun argv _ => run_env argv)))).
Qed.

Lemma block_refreshes_cache_witness :
  files (final (@asn_block.main sample_library (mkArgs block (Some 64500%Z) true)
                  missing_world)) v6
  = Some [].
Proof.
  apply (@block_refreshes_cache sample_library asn_block_py 64500 true missing_world
           sample_lines_v4 []).
  - reflexivity.
  - intros _. discriminate.
  - left. reflexivity.
  - reflexivity.
  - reflexivity.
Defined.

(** ** Dry runs and the firewall *)

Lemma same_firewall_refl w : same_firewall w w.
Proof. split; reflexivity. Qed.

Lemma same_firewall_trans w1 w2 w3 :
  same_firewall w1 w2 -> same_firewall w2 w3 -> same_firewall w1 w3.
Proof. intros [? ?] [? ?]. split; congruence. Qed.

(** A query leaves the host as it is. *)
Lemma query_pure w argv : is_query argv = true -> snd (exec w argv) = w.
Proof.
  unfold is_query, exec. destruct argv as [|bin [|op rest]]; try discriminate.
  intros H.
  destruct (String.eqb_spec bin BIN_SYSTEMCTL) as [->|Hs].
  { clear H. destruct rest as [|q [|sv [|]]]; try reflexivity.
    destruct ((op =? "is-active") && (q =? "--quiet")); reflexivity. }
  destruct (String.eqb_spec bin BIN_IPSET) as [->|Hi].
  { cbn in H. rewrite orb_false_r in H.
    destruct rest as [|name args]; [reflexivity|].
    unfold ipset_command. rewrite H. reflexivity. }
  cbn [andb orb] in H.
  destruct (tool_version bin) as [v|]; [|reflexivity].
  apply andb_true_iff in H. destruct H as [_ H].
  unfold iptables_command. rewrite H.
  repeat match goal with
         | |- context [if ?b then _ else _] => destruct b
         | |- context [match ?l with [] => _ | _ :: _ => _ end] => destruct l
         end; reflexivity.
Qed.

Lemma query_firewall name : runs_keep same_firewall true name.
Proof.
  intros argv [H|[H _]]; [|discriminate]. intros w. unfold run.
  pose proof (query_pure w argv H) as Hq. destruct (exec w argv) as [rc w'].
  cbn in *. subst w'. apply same_firewall_refl.
Qed.

Lemma ensure_datasets_firewall keep updated :
  stable same_firewall (ensure_datasets keep updated).
Proof.
  intros w. rewrite ensure_datasets_run, update_datasets_run.
  change (remote (with_datadir w)) with (remote w).
  destruct (files w v4), (files w v6), (remote w v4), (remote w v6); split; reflexivity.
Qed.

Lemma update_datasets_firewall keep updated :
  stable same_firewall (update_datasets keep updated).
Proof.
  intros w. rewrite update_datasets_run.
  destruct (remote w v4), (remote w v6); split; reflexivity.
Qed.

(** X5.  A dry run of any action of asn_block.py, and of update and
    block of iptables_asn_block.py, leaves the ipsets and the rules of
    the host exactly as they were, whatever its outcome. *)
Theorem dry_run_keeps_firewall {L : IpLibrary} (s : script) (a : action)
  (asn : option Z) (w : World) :
  (s, a) <> (iptables_asn_block_py, unblock) ->
  let r := main_of s (mkArgs a asn true) w in
  ipsets (final r) = ipsets w /\ chain (final r) = chain w.
Proof.
  intros Hsa. cbv zeta.
  pose proof same_firewall_refl as R. pose proof same_firewall_trans as T.
  pose proof query_firewall as Q.
  assert (H : stable same_firewall (main_of s (mkArgs a asn true))); [|exact (H w)].
  destruct s, a; cbn [main_of]; unfold asn_block.main, iptables_asn_block.main;
    cbn [args_action args_asn args_dry_run];
    try apply update_datasets_firewall;
    try (exfalso; apply Hsa; reflexivity);
    (destruct (asn_missing asn); [apply (stable_emit _ R)|]).
  - unfold asn_block.create_ipset_and_rules.
    apply (stable_bind _ T); [apply (stable_emit _ R)|intros _].
    destruct (negb _); [apply (stable_emit _ R)|].
    apply (stable_bind _ T); [apply (stable_detect _ R T true "" (Q _))|intros fw].
    destruct (fw =? "conflict"); [apply (stable_ret _ R)|].
    apply (stable_bind _ T); [apply (stable_emit _ R)|intros _].
    apply (stable_bind _ T); [intros w0; split; reflexivity|intros _].
    apply (stable_bind _ T); [apply ensure_datasets_firewall|intros _].
    apply (stable_for_each _ R T). intros v. apply (stable_block_version _ R T true _ _ _ (Q _)).
  - unfold asn_block.cleanup_ipsets.
    apply (stable_bind _ T); [apply (stable_emit _ R)|intros _].
    destruct (negb _); [apply (stable_emit _ R)|].
    apply (stable_bind _ T); [apply (stable_detect _ R T true "" (Q _))|intros fw].
    destruct (fw =? "conflict"); [apply (stable_ret _ R)|].
    apply (stable_bind _ T); [apply (stable_emit _ R)|intros _].
    apply (stable_for_each _ R T). intros v. apply (stable_unblock_version _ R T true _ _ _ (Q _)).
  - unfold iptables_asn_block.create_ipset_and_rules.
    destruct (negb _); [apply (stable_emit _ R)|].
    apply (stable_bind _ T); [intros w0; split; reflexivity|intros _].
    apply (stable_bind _ T); [apply ensure_datasets_firewall|intros _].
    apply (stable_for_each _ R T). intros v.
    apply (stable_iptables_version _ R T true _ _ (Q _)).
Qed.

Lemma dry_run_keeps_firewall_witness :
  ipsets (final (@asn_block.main sample_library (mkArgs unblock (Some 64500%Z) true)
                   missing_world))
  = ipsets missing_world.
Proof.
  apply (@dry_run_keeps_firewall sample_library asn_block_py unblock (Some 64500%Z)
           missing_world).
  discriminate.
Defined.

(** ** The commands of each backend *)

(** A loop that runs one command per item. *)
Lemma for_each_run (f : string -> list string) l : forall w, exists w',
  for_each l (fun x => _ <- run (f x) ;; ret tt) w
  = (Ok tt, w', map (fun x => Run (f x)) l) /\ same_env w w'.
Proof.
  unfold for_each. induction l as [|x r IH]; intros w; cbn [foldM map].
  - exists w. split; [reflexivity|apply same_env_refl].
  - destruct (run_unit (f x) w) as (w1 & H1 & E1).
    destruct (IH w1) as (w2 & H2 & E2).
    exists w2. split; [|eapply same_env_trans; eassumption].
    step H1. rewrite H2. reflexivity.
Qed.

Lemma two_commands c1 c2 w : exists w',
  (_ <- run c1 ;; _ <- run c2 ;; ret tt) w = (Ok tt, w', [Run c1; Run c2]) /\ same_env w w'.
Proof.
  destruct (run_spec c1 w) as (r1 & w1 & H1 & E1).
  destruct (run_unit c2 w1) as (w2 & H2 & E2).
  exists w2. split; [|eapply same_env_trans; eassumption].
  step H1. rewrite H2. reflexivity.
Qed.

Section Backends.
Context {L : IpLibrary}.

(** The dispatch on the backend at the end of the loop body of block,
    live. *)
Lemma block_rules_run fw v name c w : exists w',
  (if fw =? "iptables" then asn_block.apply_iptables_rule (iptables_bin v) name false
   else if fw =? "firewalld" then asn_block.apply_firewalld_rule name false
   else if fw =? "ufw" then asn_block.apply_ufw_rule c false
   else ret tt) w
  = (Ok tt, w', map Run (block_rules fw v name c)) /\ same_env w w'.
Proof.
  unfold block_rules.
  destruct (fw =? "iptables"); [apply run_unit|].
  destruct (fw =? "firewalld"); [apply two_commands|].
  destruct (fw =? "ufw").
  - unfold asn_block.apply_ufw_rule. cbv zeta. rewrite map_map.
    apply (for_each_run (fun cidr => [BIN_UFW; "deny"; "from"; cidr])).
  - exists w. split; [reflexivity|apply same_env_refl].
Qed.

Lemma unblock_rules_run fw v name c w : exists w',
  (if fw =? "iptables" then asn_block.remove_iptables_rule (iptables_bin v) name false
   else if fw =? "firewalld" then asn_block.remove_firewalld_rule name false
   else if fw =? "ufw" then asn_block.remove_ufw_rule c false
   else ret tt) w
  = (Ok tt, w', map Run (unblock_rules fw v name c)) /\ same_env w w'.
Proof.
  unfold unblock_rules.
  destruct (fw =? "iptables"); [apply run_unit|].
  destruct (fw =? "firewalld"); [apply two_commands|].
  destruct (fw =? "ufw").
  - unfold asn_block.remove_ufw_rule. cbv zeta. rewrite map_map.
    apply (for_each_run (fun cidr => [BIN_UFW; "delete"; "deny"; "from"; cidr])).
  - exists w. split; [reflexivity|apply same_env_refl].
Qed.

Lemma block_version_live asn fw v w c :
  cidr_list_of (parse_dataset (asn_block.parse_line asn) (files w v)) = Ok c ->
  exists w' d,
    asn_block.block_version asn false fw v w
    = (Ok tt, w',
       (Run [BIN_IPSET; "list"; set_name asn v] :: d
        ++ Run (create_cmd (set_name asn v) v)
        :: map (add_event false (set_name asn v)) c
        ++ map Run (block_rules fw v (set_name asn v) c))%list)
    /\ (d = [] \/ d = [Run [BIN_IPSET; "destroy"; set_name asn v]])
    /\ same_env w w'.
Proof.
  intros Hc. unfold asn_block.block_version. cbv zeta.
  destruct (reset_spec (set_name asn v) v w) as (w1 & d & H1 & Hd & E1).
  step H1.
  destruct (block_cidr_list_run asn false v (set_name asn v) w1) as (w2 & t & H2 & E2 & T2).
  apply keeps_env in E2.
  assert (Hf : files w1 = files w) by apply E1. rewrite Hf in *.
  rewrite Hc in H2. specialize (T2 c Hc). subst t.
  step H2.
  destruct (block_rules_run fw v (set_name asn v) c w2) as (w3 & H3 & E3).
  rewrite H3. exists w3, d. split; [|split; [exact Hd|eauto using same_env_trans]].
  cbn [outcome final trace fst snd]. f_equal. cbn [app]. f_equal.
  rewrite <- app_assoc. reflexivity.
Qed.

Lemma unblock_version_live asn fw v w c :
  cidr_list_of (parse_dataset (asn_block.parse_line asn) (files w v)) = Ok c ->
  exists w',
    asn_block.unblock_version asn false fw v w
    = (Ok tt, w',
       (map Run (unblock_rules fw v (set_name asn v) c)
        ++ [Run [BIN_IPSET; "destroy"; set_name asn v];
            Log Info ("Removed ipset and rules for " ++ set_name asn v)])%list)
    /\ same_env w w'.
Proof.
  intros Hc. unfold asn_block.unblock_version. cbv zeta.
  pose proof (unblock_cidr_list_run asn v w) as Hu. rewrite Hc in Hu.
  step Hu.
  destruct (unblock_rules_run fw v (set_name asn v) c w) as (w1 & H1 & E1).
  step H1.
  destruct (run_spec [BIN_IPSET; "destroy"; set_name asn v] w1) as (rc & w2 & H2 & E2).
  step H2. exists w2. split; [reflexivity|eauto using same_env_trans].
Qed.

End Backends.

Lemma mutations_runs l :
  forallb (fun a => negb (is_query a)) l = true -> mutations (map Run l) = l.
Proof.
  unfold mutations. induction l as [|a r IH]; [reflexivity|]. cbn [forallb map commands filter].
  intros H. apply andb_true_iff in H. destruct H as [Ha Hr]. rewrite Ha, (IH Hr). reflexivity.
Qed.


Lemma unblock_rules_mutate fw v name c :
  forallb (fun a => negb (is_query a)) (unblock_rules fw v name c) = true.
Proof.
  unfold unblock_rules.
  destruct (fw =? "iptables"); [destruct v; reflexivity|].
  destruct (fw =? "firewalld"); [reflexivity|].
  destruct (fw =? "ufw"); [|reflexivity].
  induction c as [|x r IH]; [reflexivity|exact IH].
Qed.



(** X7.  Live unblock of asn_block.py with a valid ASN, no conflict and
    cached datasets that parse: it succeeds, and the commands it issues
    to change the host are, for IPv4 then IPv6: the removal commands of
    the detected backend ([-D] of the DROP rule; [--remove-source] and
    [--reload]; one [ufw delete deny from] per CIDR, those block denied,
    in the same order; none without backend), then the destroy of the
    set. *)
Theorem unblock_issues_backend_rules {L : IpLibrary} (asn : Z) (w : World)
  (c4 c6 : list string) :
  let fw := detected (active w "firewalld") (active w "ufw")
              (active w "iptables" || active w "ip6tables") in
  validate_asn asn = true ->
  fw <> "conflict" ->
  cidr_list_of (parse_dataset (asn_block.parse_line asn) (files w v4)) = Ok c4 ->
  cidr_list_of (parse_dataset (asn_block.parse_line asn) (files w v6)) = Ok c6 ->
  let u := asn_block.cleanup_ipsets asn false w in
  outcome u = Ok tt /\
  mutations (trace u)
  = (unblock_rules fw v4 (set_name asn v4) c4
     ++ [BIN_IPSET; "destroy"; set_name asn v4]
     :: unblock_rules fw v6 (set_name asn v6) c6
     ++ [[BIN_IPSET; "destroy"; set_name asn v6]])%list.
Proof.
  intros fw Hv Hc H4 H6. cbv zeta.
  unfold asn_block.cleanup_ipsets.
  step (print_run "--- Cleaning up block rules ---" w). rewrite Hv. cbn [negb].
  destruct (detect_run w) as (t & Hd & Ht). fold fw in Hd. step Hd.
  apply String.eqb_neq in Hc. rewrite Hc.
  step (print_run ("Firewall system detected: " ++ fw) w).
  unfold for_each. cbn [foldM].
  destruct (unblock_version_live asn fw v4 w c4 H4) as (w1 & R4 & E4).
  step R4.
  assert (H6' : cidr_list_of (parse_dataset (asn_block.parse_line asn) (files w1 v6)) = Ok c6).
  { replace (files w1) with (files w); [exact H6|]. symmetry. apply E4. }
  destruct (unblock_version_live asn fw v6 w1 c6 H6') as (w2 & R6 & E6).
  step R6. split; [reflexivity|].
  rewrite !mutations_app, !mutations_runs by apply unblock_rules_mutate.
  rewrite (harmless_no_mutations t Ht).
  rewrite <- !app_assoc. cbn. rewrite ?app_nil_r. reflexivity.
Qed.

Lemma unblock_issues_backend_rules_witness :
  mutations (trace (@asn_block.cleanup_ipsets sample_library 64500 false
                      (sample_world ["ufw"])))
  = [[BIN_UFW; "delete"; "deny"; "from"; "1.2.3.0/24"];
     [BIN_UFW; "delete"; "deny"; "from"; "1.2.4.4/30"];
     [BIN_UFW; "delete"; "deny"; "from"; "1.2.4.8/31"];
     [BIN_IPSET; "destroy"; "ASN64500_v4"];
     [BIN_IPSET; "destroy"; "ASN64500_v6"]].
Proof.
  apply (@unblock_issues_backend_rules sample_library 64500 (sample_world ["ufw"])
           ["1.2.3.0/24"; "1.2.4.4/30"; "1.2.4.8/31"] []).
  - reflexivity.
  - discriminate.
  - reflexivity.
  - reflexivity.
Defined.

(** ** Loops over a dataset *)

Section DatasetLoop.
Context {L : IpLibrary} {S : Type}.
Variable P : World -> World -> Prop.
Hypothesis P_refl : forall w, P w w.
Hypothesis P_trans : forall w1 w2 w3, P w1 w2 -> P w2 w3 -> P w1 w3.
Variable upd : S -> string -> S.
Variable step : World -> string -> World.
Variable body : S -> CidrBlock -> M S.
Variable ev : string -> list event.
Hypothesis body_spec : forall s x w,
  body s x w
  = (Ok (upd s (str_network x)), step w (str_network x), ev (str_network x))
  /\ P w (step w (str_network x)).

Lemma nets_loop nets : forall acc w,
  foldM body nets acc w
  = (Ok (fold_left upd (map str_network nets) acc),
     fold_left step (map str_network nets) w,
     flat_map ev (map str_network nets))
  /\ P w (fold_left step (map str_network nets) w).
Proof.
  induction nets as [|x r IH]; intros acc w; cbn [foldM map fold_left flat_map].
  - split; [reflexivity|apply P_refl].
  - destruct (body_spec acc x w) as (H1 & E1).
    destruct (IH (upd acc (str_network x)) (step w (str_network x))) as (H2 & E2).
    split; [|eapply P_trans; eassumption].
    step H1. rewrite H2. reflexivity.
Qed.

Lemma ranges_loop pairs : forall acc w, exists w' t,
  foldM (fun s se => for_result (iprange_to_cidr (fst se) (snd se)) body s) pairs acc w
  = (lift_result (fun l => fold_left upd l acc) (pure_cidrs pairs), w', t)
  /\ P w w'
  /\ (forall l, pure_cidrs pairs = Ok l -> t = flat_map ev l /\ w' = fold_left step l w).
Proof.
  induction pairs as [|se r IH]; intros acc w; cbn [foldM pure_cidrs].
  - exists w, []. split; [reflexivity|]. split; [apply P_refl|].
    intros l [= <-]. split; reflexivity.
  - destruct (iprange_to_cidr (fst se) (snd se)) as [nets|e|]; cbn [for_result].
    + destruct (nets_loop nets acc w) as (H1 & E1).
      destruct (IH (fold_left upd (map str_network nets) acc)
                  (fold_left step (map str_network nets) w)) as (w2 & t2 & H2 & E2 & T2).
      step H1. rewrite H2. cbn [outcome final trace fst snd].
      exists w2, (flat_map ev (map str_network nets) ++ t2)%list.
      split; [|split; [eapply P_trans; eassumption|]].
      * destruct (pure_cidrs r); cbn; try reflexivity. now rewrite fold_left_app.
      * intros l Hl. destruct (pure_cidrs r) as [l'| |]; try discriminate.
        injection Hl as <-. destruct (T2 l' eq_refl) as [-> ->].
        rewrite flat_map_app, fold_left_app. split; reflexivity.
    + exists w, []. split; [reflexivity|]. split; [apply P_refl|discriminate].
    + exists w, []. split; [reflexivity|]. split; [apply P_refl|discriminate].
Qed.

(** The loops over a dataset: the commands issued are those of the CIDRs
    of the ranges the generator yields, also when it ends with an
    exception. *)
Lemma generator_loop (g : gen (string * string)) init w : exists w' t,
  for_gen g (fun s se => for_result (iprange_to_cidr (fst se) (snd se)) body s) init w
  = (loop_result upd init (pure_cidrs (fst g)) (snd g), w', t)
  /\ P w w'
  /\ (forall l, pure_cidrs (fst g) = Ok l -> t = flat_map ev l /\ w' = fold_left step l w).
Proof.
  unfold for_gen, loop_result.
  destruct (ranges_loop (fst g) init w) as (w1 & t1 & H1 & E1 & T1).
  destruct (pure_cidrs (fst g)) as [l|e|] eqn:Hp; cbn [lift_result] in H1.
  - step H1. exists w1, (t1 ++ [])%list.
    split; [destruct (snd g); reflexivity|]. split; [exact E1|].
    intros l' [= <-]. rewrite app_nil_r. apply T1. reflexivity.
  - rewrite (bind_Raise _ _ _ _ _ _ H1).
    exists w1, t1. split; [reflexivity|]. split; [exact E1|discriminate].
  - rewrite (bind_OutOfFuel _ _ _ _ _ H1).
    exists w1, t1. split; [reflexivity|]. split; [exact E1|discriminate].
Qed.

End DatasetLoop.

Lemma count_items {A} (l : list A) n :
  fold_left (fun (k : Z) (_ : A) => (k + 1)%Z) l n = (n + Z.of_nat (List.length l))%Z.
Proof.
  revert n. induction l as [|x r IH]; intros n; cbn [fold_left List.length].
  - lia.
  - rewrite IH. lia.
Qed.

Lemma flat_map_singleton {A B} (f : A -> B) l : flat_map (fun x => [f x]) l = map f l.
Proof. induction l as [|x r IH]; cbn; [reflexivity|now rewrite IH]. Qed.


(** What [add_cidrs] does: one line (dry run) or one [ipset add] (live)
    per CIDR, and the count of them. *)
Lemma add_cidrs_run {L : IpLibrary} asn dry_run v name w : exists w' t,
  iptables_asn_block.add_cidrs asn dry_run v name w
  = (loop_result (fun (k : Z) (_ : string) => (k + 1)%Z) 0%Z
       (pure_cidrs (fst (parse_dataset (iptables_asn_block.parse_line asn) (files w v))))
       (snd (parse_dataset (iptables_asn_block.parse_line asn) (files w v))), w', t)
  /\ keeps w w'
  /\ (dry_run = true -> w' = w)
  /\ (forall l,
        pure_cidrs (fst (parse_dataset (iptables_asn_block.parse_line asn) (files w v))) = Ok l ->
        t = map (fun c => if dry_run then Print (would_add name c)
                          else Run [BIN_IPSET; "add"; name; c]) l)
  /\ (forall l,
        pure_cidrs (fst (parse_dataset (iptables_asn_block.parse_line asn) (files w v))) = Ok l ->
        w' = fold_left (add_step dry_run name) l w).
Proof.
  unfold iptables_asn_block.add_cidrs.
  step (eq_refl : read_file v w = (Ok (files w v), w, [])).
  set (g := parse_dataset _ _).
  destruct (generator_loop (fun w w' => keeps w w' /\ (dry_run = true -> w' = w))
              (fun w => conj (keeps_refl w) (fun _ => eq_refl))
              (fun w1 w2 w3 H1 H2 =>
                 conj (keeps_trans _ _ _ (proj1 H1) (proj1 H2))
                      (fun Hd => eq_trans (proj2 H2 Hd) (proj2 H1 Hd)))
              (fun (k : Z) (_ : string) => (k + 1)%Z)
              (add_step dry_run name)
              (fun count cidr =>
                 (if dry_run then
                    print ("[DRY-RUN] Would add " ++ str_network cidr ++ " to ipset '"
                           ++ name ++ "'")
                  else (_ <- run [BIN_IPSET; "add"; name; str_network cidr] ;; ret tt)) ;;
                 ret (count + 1)%Z)
              (fun c => [if dry_run then Print (would_add name c)
                         else Run [BIN_IPSET; "add"; name; c]])
              ltac:(intros s x w0; unfold add_step; destruct dry_run;
                    [split; [reflexivity|split; [apply keeps_refl|reflexivity]]
                    |split; [|split; [apply ipset_add_keeps|discriminate]];
                     unfold bind, run;
                     destruct (exec w0 [BIN_IPSET; "add"; name; str_network x]); reflexivity])
              g 0%Z w) as (w' & t & H & [E D] & T).
  rewrite H. exists w', t. cbn [outcome final trace fst snd app].
  split; [reflexivity|]. split; [exact E|]. split; [exact D|]. split.
  - intros l Hl. destruct (T l Hl) as [-> _]. apply flat_map_singleton.
  - intros l Hl. apply (T l Hl).
Qed.

(** ** Block of iptables_asn_block.py *)

Lemma cidr_list_ok {L : IpLibrary} (g : gen (string * string)) c :
  cidr_list_of g = Ok c -> pure_cidrs (fst g) = Ok c /\ snd g = None.
Proof.
  unfold cidr_list_of. destruct (pure_cidrs (fst g)) as [l|e|]; try discriminate.
  destruct (snd g); [discriminate|]. intros [= ->]. split; reflexivity.
Qed.

(** [ipset flush] empties a set, and nothing else. *)
Lemma ipset_flush_keeps w name : keeps w (snd (exec w [BIN_IPSET; "flush"; name])).
Proof.
  change (exec w [BIN_IPSET; "flush"; name]) with (ipset_command w "flush" name []).
  unfold ipset_command. cbn [String.eqb Ascii.eqb Bool.eqb].
  destruct (set_exists w name); [|apply keeps_refl].
  split; [repeat split|]. split; [reflexivity|].
  intros n. unfold set_exists. cbn [snd ipsets with_ipsets].
  induction (ipsets w) as [|p r IH]; [reflexivity|]. cbn [map existsb]. rewrite IH.
  destruct (String.eqb_spec (fst p) name) as [->|]; reflexivity.
Qed.

Lemma iptables_check w v name :
  exec w (iptables_bin v :: "-C" :: "INPUT" :: rule_spec name)
  = ((if mem name (chain w v) then 0 else 1)%Z, w).
Proof.
  assert (Hx : exec w (iptables_bin v :: "-C" :: "INPUT" :: rule_spec name)
               = iptables_command w v "-C" ("INPUT" :: rule_spec name))
    by (destruct v; reflexivity).
  rewrite Hx. unfold iptables_command, rule_spec, argv_eqb.
  destruct (list_eq_dec string_dec _ _) as [_|N]; [|exfalso; apply N; reflexivity].
  reflexivity.
Qed.

Lemma iptables_insert w v name :
  set_exists w name = true ->
  exec w (iptables_bin v :: "-I" :: "INPUT" :: rule_spec name)
  = (0%Z, with_chain w v (name :: chain w v)).
Proof.
  intros Hs.
  assert (Hx : exec w (iptables_bin v :: "-I" :: "INPUT" :: rule_spec name)
               = iptables_command w v "-I" ("INPUT" :: rule_spec name))
    by (destruct v; reflexivity).
  rewrite Hx. unfold iptables_command, rule_spec, argv_eqb.
  destruct (list_eq_dec string_dec _ _) as [_|N]; [|exfalso; apply N; reflexivity].
  cbn [String.eqb Ascii.eqb Bool.eqb]. rewrite Hs. reflexivity.
Qed.

Lemma iptables_delete w v name :
  exec w (iptables_bin v :: "-D" :: "INPUT" :: rule_spec name)
  = if mem name (chain w v)
    then (0%Z, with_chain w v (remove_first name (chain w v)))
    else (1%Z, w).
Proof.
  assert (Hx : exec w (iptables_bin v :: "-D" :: "INPUT" :: rule_spec name)
               = iptables_command w v "-D" ("INPUT" :: rule_spec name))
    by (destruct v; reflexivity).
  rewrite Hx. unfold iptables_command, rule_spec, argv_eqb.
  destruct (list_eq_dec string_dec _ _) as [_|N]; [|exfalso; apply N; reflexivity].
  reflexivity.
Qed.

Lemma run_exec argv w : run argv w = (Ok (fst (exec w argv)), snd (exec w argv), [Run argv]).
Proof. unfold run. destruct (exec w argv); reflexivity. Qed.

Lemma mem_head name l : mem name (name :: l) = true.
Proof. unfold mem. cbn. now rewrite String.eqb_refl. Qed.


Section IptablesScript.
Context {L : IpLibrary}.

(** One version of block in iptables_asn_block.py, live, on a dataset
    that parses. *)
Lemma iptables_version_live asn v w c :
  cidr_list_of (parse_dataset (iptables_asn_block.parse_line asn) (files w v)) = Ok c ->
  exists w',
    iptables_block_version asn false v w
    = (Ok tt, w',
       ([Run (create_cmd (set_name asn v) v); Run [BIN_IPSET; "flush"; set_name asn v]]
        ++ map (fun x => Run [BIN_IPSET; "add"; set_name asn v; x]) c
        ++ Log Info (count_message false (set_name asn v) (List.length c))
        :: Run (iptables_bin v :: "-C" :: "INPUT" :: rule_spec (set_name asn v))
        :: (if mem (set_name asn v) (chain w v) then []
            else [Run (iptables_bin v :: "-I" :: "INPUT" :: rule_spec (set_name asn v));
                  Log Info ("Rule added to INPUT chain for ipset '"
                            ++ set_name asn v ++ "'")]))%list)
    /\ same_env w w'
    /\ (forall v', chain w' v'
                   = if version_eqb v' v then ensure_rule (set_name asn v) (chain w v)
                     else chain w v')
    /\ set_exists w' (set_name asn v) = true.
Proof.
  intros Hc. unfold iptables_block_version. cbv zeta. cbn [negb].
  set (name := set_name asn v).
  (* create, flush *)
  pose proof (run_exec (create_cmd name v) w) as H1.
  set (w1 := snd (exec w (create_cmd name v))) in H1.
  assert (E1 : same_env w w1) by apply exec_env.
  assert (C1 : forall v', chain w1 v' = chain w v') by (intros; apply ipset_command_chain).
  assert (S1 : set_exists w1 name = true) by apply ipset_create_exists.
  pose proof (run_exec [BIN_IPSET; "flush"; name] w1) as H2.
  destruct (ipset_flush_keeps w1 name) as (E2 & C2 & S2).
  set (w2 := snd (exec w1 [BIN_IPSET; "flush"; name])) in *.
  assert (H12 : (_ <- run (create_cmd name v) ;; _ <- run [BIN_IPSET; "flush"; name] ;; ret tt) w
                = (Ok tt, w2, [Run (create_cmd name v); Run [BIN_IPSET; "flush"; name]])).
  { step H1. step H2. reflexivity. }
  unfold create_cmd in H12. step H12.
  (* the adds *)
  destruct (add_cidrs_run asn false v name w2) as (w3 & t & H3 & (E3 & C3 & S3) & _ & T3 & _).
  assert (Hf : files w2 = files w).
  { transitivity (files w1); [apply E2|apply E1]. }
  rewrite Hf in H3, T3. destruct (cidr_list_ok _ _ Hc) as [Hp Hs].
  rewrite Hp, Hs in H3. cbn [loop_result] in H3. rewrite count_items in H3.
  specialize (T3 c Hp). subst t. step H3.
  step (eq_refl : logger Info (str_of_int (0 + Z.of_nat (List.length c)) ++ " CIDRs "
                               ++ "added to" ++ " ipset '" ++ name ++ "'") w3
                  = (Ok tt, w3, [Log Info (count_message false name (List.length c))])).
  (* check, insert *)
  pose proof (run_exec (iptables_bin v :: "-C" :: "INPUT" :: rule_spec name) w3) as H4.
  rewrite iptables_check in H4. cbn [fst snd] in H4. step H4.
  assert (Hch : chain w3 v = chain w v) by (rewrite C3, C2, C1; reflexivity).
  rewrite Hch. unfold ensure_rule.
  destruct (mem name (chain w v)) eqn:Hm; cbn [Z.eqb negb].
  - exists w3. split; [reflexivity|]. split; [|split].
    + eapply same_env_trans; [exact E1|]. eapply same_env_trans; [exact E2|exact E3].
    + intros v'. rewrite C3, C2, C1. destruct (version_eqb v' v) eqn:Hv; [|reflexivity].
      destruct v, v'; try discriminate; reflexivity.
    + rewrite S3, S2. exact S1.
  - pose proof (run_exec (iptables_bin v :: "-I" :: "INPUT" :: rule_spec name) w3) as H5.
    rewrite iptables_insert in H5 by (rewrite S3, S2; exact S1). cbn [fst snd] in H5.
    step H5. exists (with_chain w3 v (name :: chain w3 v)).
    split; [reflexivity|]. split; [|split].
    + eapply same_env_trans; [exact E1|]. eapply same_env_trans; [exact E2|].
      eapply same_env_trans; [exact E3|]. repeat split.
    + intros v'. cbn [chain with_chain]. rewrite !C3, !C2, !C1. reflexivity.
    + change (set_exists (with_chain w3 v (name :: chain w3 v)) name)
        with (set_exists w3 name).
      rewrite S3, S2. exact S1.
Qed.

End IptablesScript.

Lemma ensure_rule_twice name rules :
  ensure_rule name (ensure_rule name rules) = ensure_rule name rules.
Proof.
  unfold ensure_rule. destruct (mem name rules) eqn:Hm; [now rewrite Hm|].
  now rewrite mem_head.
Qed.

Section IptablesBlock.
Context {L : IpLibrary}.

(** Block of iptables_asn_block.py, live, on datasets that parse. *)
Lemma iptables_block_live asn w c4 c6 :
  validate_asn asn = true ->
  cidr_list_of (parse_dataset (iptables_asn_block.parse_line asn) (files w v4)) = Ok c4 ->
  cidr_list_of (parse_dataset (iptables_asn_block.parse_line asn) (files w v6)) = Ok c6 ->
  exists w' t,
    iptables_asn_block.create_ipset_and_rules asn false w = (Ok tt, w', t)
    /\ same_env w w'
    /\ (forall v, chain w' v = ensure_rule (set_name asn v) (chain w v)).
Proof.
  intros Hv H4 H6.
  destruct (cidr_list_ok_file _ _ _ H4) as (l4 & Hl4).
  destruct (cidr_list_ok_file _ _ _ H6) as (l6 & Hl6).
  rewrite iptables_block_unfold, Hv. cbn [negb].
  step (eq_refl : ensure_data_dir w = (Ok tt, with_datadir w, [Mkdir])).
  step (ensure_datasets_cached iptables_asn_block.line_shape_ok "Datasets updated!"
          (with_datadir w) l4 l6 Hl4 Hl6).
  unfold for_each. cbn [foldM].
  destruct (iptables_version_live asn v4 (with_datadir w) c4 H4) as (w1 & R4 & E4 & C4 & _).
  step R4.
  assert (H6' : cidr_list_of (parse_dataset (iptables_asn_block.parse_line asn) (files w1 v6))
                = Ok c6).
  { replace (files w1) with (files w); [exact H6|]. symmetry. apply E4. }
  destruct (iptables_version_live asn v6 w1 c6 H6') as (w2 & R6 & E6 & C6 & _).
  step R6. eexists _, _. split; [reflexivity|]. split.
  - unfold ret; cbn [final fst snd].
    eapply same_env_trans; [|exact E6]. eapply same_env_trans; [|exact E4]. repeat split.
  - intros v. unfold ret; cbn [final fst snd]. rewrite C6.
    destruct v; cbn [version_eqb]; rewrite !C4; reflexivity.
Qed.

End IptablesBlock.

(** X8.  Live block of iptables_asn_block.py checks before it inserts:
    after one run the rule of each version is in its chain, put at the
    head only when it was not there, and a second run leaves both chains
    as the first left them. *)
Theorem iptables_block_twice_same_chain {L : IpLibrary} (asn : Z) (w : World)
  (c4 c6 : list string) :
  validate_asn asn = true ->
  cidr_list_of (parse_dataset (iptables_asn_block.parse_line asn) (files w v4)) = Ok c4 ->
  cidr_list_of (parse_dataset (iptables_asn_block.parse_line asn) (files w v6)) = Ok c6 ->
  let r1 := iptables_asn_block.create_ipset_and_rules asn false w in
  let r2 := iptables_asn_block.create_ipset_and_rules asn false (final r1) in
  outcome r1 = Ok tt /\ outcome r2 = Ok tt /\
  forall v,
    chain (final r1) v = ensure_rule (set_name asn v) (chain w v) /\
    chain (final r2) v = chain (final r1) v.
Proof.
  intros Hv H4 H6. cbv zeta.
  destruct (iptables_block_live asn w c4 c6 Hv H4 H6) as (w1 & t1 & R1 & E1 & C1).
  rewrite R1. cbn [outcome final fst snd].
  assert (Hf : files w1 = files w) by apply E1.
  rewrite <- Hf in H4, H6.
  destruct (iptables_block_live asn w1 c4 c6 Hv H4 H6) as (w2 & t2 & R2 & E2 & C2).
  rewrite R2. cbn [outcome final fst snd].
  split; [reflexivity|]. split; [reflexivity|]. intros v.
  split; [apply C1|]. rewrite C2, C1. apply ensure_rule_twice.
Qed.

Lemma iptables_block_twice_same_chain_witness :
  chain (final (@iptables_asn_block.create_ipset_and_rules sample_library 64500 false
                  (sample_world3 []))) v4
  = ["ASN64500_v4"].
Proof.
  apply (@iptables_block_twice_same_chain sample_library 64500 (sample_world3 [])
           ["1.2.3.0/24"; "1.2.4.4/30"; "1.2.4.8/31"] []); reflexivity.
Defined.

(** X9.  [block --dry-run] of iptables_asn_block.py with a valid ASN
    and cached datasets that parse runs no command: it makes sure of the
    cache directory, prints one "Would add" line per CIDR and logs the
    number of CIDRs of each version; nothing else of the host changes. *)
Theorem iptables_dry_run_block_counts {L : IpLibrary} (asn : Z) (w : World)
  (c4 c6 : list string) :
  validate_asn asn = true ->
  cidr_list_of (parse_dataset (iptables_asn_block.parse_line asn) (files w v4)) = Ok c4 ->
  cidr_list_of (parse_dataset (iptables_asn_block.parse_line asn) (files w v6)) = Ok c6 ->
  iptables_asn_block.create_ipset_and_rules asn true w
  = (Ok tt, with_datadir w,
     (Mkdir :: map (fun c => Print (would_add (set_name asn v4) c)) c4
      ++ Log Info (count_message true (set_name asn v4) (List.length c4))
      :: map (fun c => Print (would_add (set_name asn v6) c)) c6
      ++ [Log Info (count_message true (set_name asn v6) (List.length c6))])%list).
Proof.
  intros Hv H4 H6.
  destruct (cidr_list_ok_file _ _ _ H4) as (l4 & Hl4).
  destruct (cidr_list_ok_file _ _ _ H6) as (l6 & Hl6).
  rewrite iptables_block_unfold, Hv. cbn [negb].
  step (eq_refl : ensure_data_dir w = (Ok tt, with_datadir w, [Mkdir])).
  step (ensure_datasets_cached iptables_asn_block.line_shape_ok "Datasets updated!"
          (with_datadir w) l4 l6 Hl4 Hl6).
  unfold for_each. cbn [foldM].
  assert (Hb : forall v c,
             cidr_list_of (parse_dataset (iptables_asn_block.parse_line asn) (files w v)) = Ok c ->
             iptables_block_version asn true v (with_datadir w)
             = (Ok tt, with_datadir w,
                (map (fun x => Print (would_add (set_name asn v) x)) c
                 ++ [Log Info (count_message true (set_name asn v) (List.length c))])%list)).
  { intros v c Hc. unfold iptables_block_version. cbv zeta. cbn [negb].
    step (eq_refl : ret tt (with_datadir w) = (Ok tt, with_datadir w, [])).
    destruct (add_cidrs_run asn true v (set_name asn v) (with_datadir w))
      as (w3 & t & H3 & _ & D3 & T3 & _).
    rewrite (D3 eq_refl) in H3. change (files (with_datadir w)) with (files w) in H3, T3.
    destruct (cidr_list_ok _ _ Hc) as [Hp Hs].
    rewrite Hp, Hs in H3. cbn [loop_result] in H3. rewrite count_items in H3.
    specialize (T3 c Hp). subst t. step H3. reflexivity. }
  step (Hb v4 c4 H4). step (Hb v6 c6 H6).
  cbn [app ret outcome final trace fst snd]. rewrite app_nil_r, <- app_assoc. reflexivity.
Qed.

Lemma iptables_dry_run_block_counts_witness :
  commands (trace (@iptables_asn_block.create_ipset_and_rules sample_library 64500 true
                     (sample_world3 ["iptables"]))) = [].
Proof.
  rewrite (@iptables_dry_run_block_counts sample_library 64500 (sample_world3 ["iptables"])
             ["1.2.3.0/24"; "1.2.4.4/30"; "1.2.4.8/31"] []); reflexivity.
Defined.

(** ** Lines with more than three fields *)

(** A line with more than three fields does not pass the filter of
    iptables_asn_block.py, and its parser fails on it. *)
Lemma extended_line_dropped line :
  (3 < List.length (fields line))%nat ->
  iptables_asn_block.line_shape_ok (strip line) = false.
Proof.
  unfold fields, iptables_asn_block.line_shape_ok. intros H.
  destruct (split tab (strip line)) as [|a [|b [|c [|d r]]]]; try reflexivity.
  cbn in H. lia.
Qed.

Lemma extended_line_fails asn line :
  skipped line = false -> (3 < List.length (fields line))%nat ->
  iptables_asn_block.parse_line asn line = Fail ValueError.
Proof.
  unfold skipped, fields, iptables_asn_block.parse_line. intros -> H.
  destruct (split tab (strip line)) as [|a [|b [|c [|d r]]]]; try reflexivity.
  cbn in H. lia.
Qed.

Lemma extended_line_taken asn line :
  (3 < List.length (fields line))%nat ->
  forall e, asn_block.parse_line asn line <> Fail e.
Proof.
  unfold fields, asn_block.parse_line. intros H e.
  destruct (_ || _); [discriminate|].
  destruct (split tab (strip line)) as [|a [|b [|c r]]]; try (cbn in H; lia).
  destruct (c =? str_of_int asn); discriminate.
Qed.

Lemma filter_none {A} (f : A -> bool) l : (forall x, In x l -> f x = false) -> filter f l = [].
Proof.
  induction l as [|x r IH]; [reflexivity|]. intros H. cbn [filter].
  rewrite (H x (or_introl eq_refl)). apply IH. intros y Hy. apply H. now right.
Qed.

(** X10.  The filter of [download_file] in iptables_asn_block.py wants
    exactly three fields: from downloads whose lines all have more than
    three tab-separated fields (such as the five columns of
    iptoasn.com), update leaves both cache files empty, and no ASN has
    any CIDR afterwards. *)
Theorem iptables_update_drops_extended_lines {L : IpLibrary} (asn : option Z)
  (dry_run : bool) (w : World) (l4 l6 : list string) :
  remote w v4 = Some l4 -> remote w v6 = Some l6 ->
  (forall line, In line (l4 ++ l6)%list -> (3 < List.length (fields line))%nat) ->
  let w' := final (iptables_asn_block.main (mkArgs update asn dry_run) w) in
  files w' v4 = Some [] /\ files w' v6 = Some [] /\
  forall a v,
    cidr_list_of (parse_dataset (iptables_asn_block.parse_line a) (files w' v)) = Ok [].
Proof.
  intros H4 H6 Hl. cbv zeta.
  change (iptables_asn_block.main (mkArgs update asn dry_run) w)
    with (update_datasets iptables_asn_block.line_shape_ok "Datasets updated!" w).
  rewrite update_datasets_run, H4, H6. cbv zeta. cbn [final fst snd].
  assert (F4 : filter (fun l => iptables_asn_block.line_shape_ok (strip l)) l4 = []).
  { apply filter_none. intros x Hx. apply extended_line_dropped, Hl, in_or_app. now left. }
  assert (F6 : filter (fun l => iptables_asn_block.line_shape_ok (strip l)) l6 = []).
  { apply filter_none. intros x Hx. apply extended_line_dropped, Hl, in_or_app. now right. }
  rewrite F4, F6. split; [reflexivity|]. split; [reflexivity|].
  intros a []; reflexivity.
Qed.

Lemma iptables_update_drops_extended_lines_witness :
  files (final (@iptables_asn_block.main sample_library (mkArgs update None false)
                  missing_world)) v4
  = Some [].
Proof.
  apply (@iptables_update_drops_extended_lines sample_library None false missing_world
           sample_lines_v4 []); try reflexivity.
  intros line Hin. cbn [app] in Hin.
  repeat (destruct Hin as [<-|Hin]; [vm_compute; lia|]). destruct Hin.
Defined.

Lemma extended_line_block_run {L : IpLibrary} (asn : Z) (dry_run : bool)
  (w : World) (line : string) (rest l6 : list string) :
  validate_asn asn = true ->
  files w v4 = Some (line :: rest) -> files w v6 = Some l6 ->
  skipped line = false -> (3 < List.length (fields line))%nat ->
  exists w',
    iptables_asn_block.create_ipset_and_rules asn dry_run w
    = (Raise ValueError, w',
       Mkdir :: (if dry_run then []
                 else [Run (create_cmd (set_name asn v4) v4);
                       Run [BIN_IPSET; "flush"; set_name asn v4]])).
Proof.
  intros Hv H4 H6 Hs Hn.
  rewrite iptables_block_unfold, Hv. cbn [negb].
  step (eq_refl : ensure_data_dir w = (Ok tt, with_datadir w, [Mkdir])).
  step (ensure_datasets_cached iptables_asn_block.line_shape_ok "Datasets updated!"
          (with_datadir w) (line :: rest) l6 H4 H6).
  unfold for_each. cbn [foldM].
  assert (Hadd : forall w0, files w0 = files w -> exists w',
             iptables_asn_block.add_cidrs asn dry_run v4 (set_name asn v4) w0
             = (Raise ValueError, w', [])).
  { intros w0 Hf.
    destruct (add_cidrs_run asn dry_run v4 (set_name asn v4) w0)
      as (w3 & t & H3 & _ & _ & T3 & _).
    rewrite Hf, H4 in H3, T3. cbn [parse_dataset parse_lines] in H3, T3.
    rewrite (extended_line_fails asn line Hs Hn) in H3, T3.
    cbn [fst snd pure_cidrs loop_result] in H3, T3.
    rewrite (T3 [] eq_refl) in H3. exists w3. exact H3. }
  assert (Hb : exists w',
             iptables_block_version asn dry_run v4 (with_datadir w)
             = (Raise ValueError, w',
                if dry_run then []
                else [Run (create_cmd (set_name asn v4) v4);
                      Run [BIN_IPSET; "flush"; set_name asn v4]])).
  { unfold iptables_block_version. cbv zeta. destruct dry_run; cbn [negb].
    - step (eq_refl : ret tt (with_datadir w) = (Ok tt, with_datadir w, [])).
      destruct (Hadd (with_datadir w) eq_refl) as (w' & Ha).
      rewrite (bind_Raise _ _ _ _ _ _ Ha). exists w'. reflexivity.
    - pose proof (run_exec (create_cmd (set_name asn v4) v4) (with_datadir w)) as H1.
      set (w1 := snd (exec (with_datadir w) (create_cmd (set_name asn v4) v4))) in H1.
      assert (E1 : same_env (with_datadir w) w1) by apply exec_env.
      pose proof (run_exec [BIN_IPSET; "flush"; set_name asn v4] w1) as H2.
      set (w2 := snd (exec w1 [BIN_IPSET; "flush"; set_name asn v4])) in H2.
      assert (E2 : same_env w1 w2) by apply exec_env.
      assert (H12 : (_ <- run (create_cmd (set_name asn v4) v4) ;;
                     _ <- run [BIN_IPSET; "flush"; set_name asn v4] ;; ret tt) (with_datadir w)
                    = (Ok tt, w2, [Run (create_cmd (set_name asn v4) v4);
                                   Run [BIN_IPSET; "flush"; set_name asn v4]])).
      { step H1. step H2. reflexivity. }
      unfold create_cmd in H12. step H12.
      destruct (Hadd w2) as (w' & Ha).
      { transitivity (files w1); [apply E2|apply E1]. }
      rewrite (bind_Raise _ _ _ _ _ _ Ha). exists w'. reflexivity. }
  destruct Hb as (w' & Hb). rewrite (bind_Raise _ _ _ _ _ _ Hb).
  exists w'. cbn [outcome final trace fst snd app]. reflexivity.
Qed.

(** X11.  The two scripts share the cache, and iptables_asn_block.py
    cannot read what asn_block.py accepts: when the first line of the
    IPv4 dataset is no comment and has more than three fields, block of
    iptables_asn_block.py raises [ValueError] (the unpacking wants
    three), in a live run after it created and flushed the IPv4 set and
    before any add or rule; [parse_dataset] of asn_block.py does not
    fail on that line. *)
Theorem extended_line_breaks_iptables_block {L : IpLibrary} (asn : Z) (dry_run : bool)
  (w : World) (line : string) (rest l6 : list string) :
  validate_asn asn = true ->
  files w v4 = Some (line :: rest) -> files w v6 = Some l6 ->
  skipped line = false -> (3 < List.length (fields line))%nat ->
  let r := iptables_asn_block.create_ipset_and_rules asn dry_run w in
  outcome r = Raise ValueError /\
  commands (trace r)
  = (if dry_run then []
     else [create_cmd (set_name asn v4) v4; [BIN_IPSET; "flush"; set_name asn v4]]) /\
  forall e, asn_block.parse_line asn line <> Fail e.
Proof.
  intros Hv H4 H6 Hs Hn. cbv zeta.
  destruct (extended_line_block_run asn dry_run w line rest l6 Hv H4 H6 Hs Hn) as (w' & H).
  rewrite H. cbn [outcome trace fst snd].
  split; [reflexivity|]. split; [destruct dry_run; reflexivity|].
  apply extended_line_taken, Hn.
Qed.

Lemma extended_line_breaks_iptables_block_witness :
  outcome (@iptables_asn_block.create_ipset_and_rules sample_library 64500 false
             (sample_world ["iptables"]))
  = Raise ValueError.
Proof.
  apply (@extended_line_breaks_iptables_block sample_library 64500 false
           (sample_world ["iptables"])
           ("1.2.3.0" ++ String tab "1.2.3.255" ++ String tab "64500" ++ String tab "US"
              ++ String tab "EXAMPLE" ++ String newline "")
           (tl sample_lines_v4) []); try reflexivity.
  vm_compute. lia.
Defined.

(** ** Datasets that parse, datasets that do not *)

(** X12.  What update writes, the same script reads: after a
    successful update, [parse_dataset] of the same script on either
    cache file raises nothing and yields, for every ASN, the ranges of
    the kept lines whose third field is that ASN. *)
Theorem updated_cache_parses {L : IpLibrary} (s : script) (asn : option Z) (dry_run : bool)
  (a : Z) (w : World) (l4 l6 : list string) :
  remote w v4 = Some l4 -> remote w v6 = Some l6 ->
  let w' := final (main_of s (mkArgs update asn dry_run) w) in
  parse_dataset (parse_line_of s a) (files w' v4)
  = (flat_map (wanted a) (kept s l4), None) /\
  parse_dataset (parse_line_of s a) (files w' v6)
  = (flat_map (wanted a) (kept s l6), None).
Proof.
  intros H4 H6. cbv zeta.
  assert (H : main_of s (mkArgs update asn dry_run) w
              = update_datasets (line_shape_ok_of s) (updated_of s) w)
    by (destruct s; reflexivity).
  rewrite H, update_datasets_run, H4, H6. cbv zeta.
  cbn [final fst snd files with_file with_datadir version_eqb parse_dataset].
  fold (kept s l4). fold (kept s l6).
  assert (Hk : forall l, forallb (well_shaped s) (kept s l) = true).
  { intros l. apply forallb_forall. intros line Hin. apply filter_In in Hin.
    apply kept_line_well_shaped, Hin. }
  split; apply parse_lines_well_shaped, Hk.
Qed.

Lemma updated_cache_parses_witness :
  parse_dataset (asn_block.parse_line 64500)
    (files (final (@asn_block.main sample_library (mkArgs update None false) missing_world)) v4)
  = ([("1.2.3.0", "1.2.3.255"); ("1.2.4.4", "1.2.4.9")], None).
Proof.
  apply (@updated_cache_parses sample_library asn_block_py None false 64500 missing_world
           sample_lines_v4 []); reflexivity.
Defined.

(** A line with fewer than three fields makes [parse_dataset] of
    asn_block.py fail. *)
Lemma short_line_fails asn line :
  skipped line = false -> (List.length (fields line) < 3)%nat ->
  asn_block.parse_line asn line = Fail IndexError.
Proof.
  unfold skipped, fields, asn_block.parse_line. intros -> H.
  destruct (split tab (strip line)) as [|a [|b [|c r]]]; try reflexivity.
  cbn in H. lia.
Qed.

(** The generator yields the ranges of the lines before the first line
    it fails on. *)
Lemma parse_lines_until (s : script) (asn : Z) (good : list string) (bad : string)
  (rest : list string) (e : exn) :
  forallb (well_shaped s) good = true ->
  parse_line_of s asn bad = Fail e ->
  parse_lines (parse_line_of s asn) (good ++ bad :: rest)
  = (flat_map (wanted asn) good, Some e).
Proof.
  intros Hg Hb. induction good as [|line r IH]; cbn [app parse_lines flat_map].
  - rewrite Hb. reflexivity.
  - cbn [forallb] in Hg. apply andb_true_iff in Hg. destruct Hg as [Hl Hr].
    rewrite (parse_line_well_shaped s asn line Hl), (IH Hr).
    unfold wanted. destruct (skipped line); [reflexivity|].
    destruct (fields line) as [|a [|b [|c tl]]]; try reflexivity.
    destruct (c =? str_of_int asn); reflexivity.
Qed.

(** The loops of block, also when the generator ends with an
    exception. *)
Lemma block_cidr_list_partial {L : IpLibrary} asn dry_run v name w : exists w' t,
  asn_block.block_cidr_list asn dry_run v name w
  = (loop_result (fun s c => (s ++ [c])%list) []
       (pure_cidrs (fst (parse_dataset (asn_block.parse_line asn) (files w v))))
       (snd (parse_dataset (asn_block.parse_line asn) (files w v))), w', t)
  /\ keeps w w'
  /\ (forall l,
        pure_cidrs (fst (parse_dataset (asn_block.parse_line asn) (files w v))) = Ok l ->
        t = map (add_event dry_run name) l)
  /\ (forall l,
        pure_cidrs (fst (parse_dataset (asn_block.parse_line asn) (files w v))) = Ok l ->
        w' = fold_left (add_step dry_run name) l w).
Proof.
  unfold asn_block.block_cidr_list.
  step (eq_refl : read_file v w = (Ok (files w v), w, [])).
  set (g := parse_dataset _ _).
  destruct (generator_loop keeps keeps_refl keeps_trans
              (fun s c => (s ++ [c])%list)
              (add_step dry_run name)
              (fun cidr_list net =>
                 asn_block.add_ip_to_ipset name (str_network net) dry_run ;;
                 ret (cidr_list ++ [str_network net])%list)
              (fun c => [add_event dry_run name c])
              ltac:(intros s x w0; unfold add_step, asn_block.add_ip_to_ipset, add_event;
                    cbv zeta; destruct dry_run;
                    [split; [reflexivity|apply keeps_refl]
                    |split; [|apply ipset_add_keeps];
                     unfold bind, run;
                     destruct (exec w0 [BIN_IPSET; "add"; name; str_network x]); reflexivity])
              g [] w) as (w' & t & H & E & T).
  rewrite H. exists w', t. cbn [outcome final trace fst snd app].
  split; [reflexivity|]. split; [exact E|]. split.
  - intros l Hl. destruct (T l Hl) as [-> _]. apply flat_map_singleton.
  - intros l Hl. apply (T l Hl).
Qed.

(** X13.  In asn_block.py a line with fewer than three fields stops a
    live block half way: with well-shaped lines before it in the IPv4
    dataset, block raises [IndexError] after it reset the IPv4 set and
    added the CIDRs of the ranges before that line; no firewall rule is
    applied and nothing is done for IPv6. *)
Theorem short_line_aborts_block {L : IpLibrary} (asn : Z) (w : World)
  (good : list string) (bad : string) (rest l6 c : list string) :
  let fw := detected (active w "firewalld") (active w "ufw")
              (active w "iptables" || active w "ip6tables") in
  validate_asn asn = true ->
  fw <> "conflict" ->
  files w v4 = Some (good ++ bad :: rest)%list -> files w v6 = Some l6 ->
  forallb (well_shaped asn_block_py) good = true ->
  skipped bad = false -> (List.length (fields bad) < 3)%nat ->
  pure_cidrs (flat_map (wanted asn) good) = Ok c ->
  let r := asn_block.create_ipset_and_rules asn false w in
  outcome r = Raise IndexError /\
  exists d,
    (d = [] \/ d = [[BIN_IPSET; "destroy"; set_name asn v4]]) /\
    mutations (trace r)
    = (d ++ create_cmd (set_name asn v4) v4
         :: map (fun x => [BIN_IPSET; "add"; set_name asn v4; x]) c)%list.
Proof.
  intros fw Hv Hc H4 H6 Hg Hs Hn Hp. cbv zeta.
  unfold asn_block.create_ipset_and_rules.
  step (print_run "--- Creating block rules ---" w). rewrite Hv. cbn [negb].
  destruct (detect_run w) as (t & Hd & Ht). fold fw in Hd. step Hd.
  apply String.eqb_neq in Hc. rewrite Hc.
  step (print_run ("Firewall system detected: " ++ fw) w).
  step (eq_refl : ensure_data_dir w = (Ok tt, with_datadir w, [Mkdir])).
  step (ensure_datasets_cached asn_block.line_shape_ok "Datasets updated."
          (with_datadir w) (good ++ bad :: rest)%list l6 H4 H6).
  unfold for_each. cbn [foldM].
  assert (Hb : exists w' d,
             asn_block.block_version asn false fw v4 (with_datadir w)
             = (Raise IndexError, w',
                (Run [BIN_IPSET; "list"; set_name asn v4] :: d
                 ++ Run (create_cmd (set_name asn v4) v4)
                 :: map (add_event false (set_name asn v4)) c)%list)
             /\ (d = [] \/ d = [Run [BIN_IPSET; "destroy"; set_name asn v4]])).
  { unfold asn_block.block_version. cbv zeta.
    destruct (reset_spec (set_name asn v4) v4 (with_datadir w)) as (w1 & d & H1 & Hd1 & E1).
    step H1.
    destruct (block_cidr_list_partial asn false v4 (set_name asn v4) w1)
      as (w2 & t2 & H2 & _ & T2 & _).
    assert (Hf : files w1 = files w) by apply E1.
    rewrite Hf, H4 in H2, T2. cbn [parse_dataset] in H2, T2.
    pose proof (parse_lines_until asn_block_py asn good bad rest IndexError Hg
                  (short_line_fails asn bad Hs Hn)) as Hpl.
    cbn [parse_line_of] in Hpl. rewrite Hpl in H2, T2.
    cbn [fst snd] in H2, T2. rewrite Hp in H2. cbn [loop_result] in H2.
    rewrite (T2 c Hp) in H2. rewrite (bind_Raise _ _ _ _ _ _ H2).
    exists w2, d. split; [|exact Hd1].
    cbn [outcome final trace fst snd app]. rewrite <- app_assoc. reflexivity. }
  destruct Hb as (w' & d & Hb & Hd4). rewrite (bind_Raise _ _ _ _ _ _ Hb).
  cbn [outcome final trace fst snd]. split; [reflexivity|].
  exists (commands d). split; [destruct Hd4 as [->| ->]; [left|right]; reflexivity|].
  change (Run ?a :: ?d ++ ?x)%list with ([Run a] ++ d ++ x)%list.
  change (Run ?a :: map ?f ?x)%list with ([Run a] ++ map f x)%list.
  rewrite !mutations_app, !mutations_adds, (harmless_no_mutations t Ht).
  destruct Hd4 as [->| ->]; reflexivity.
Qed.

Lemma short_line_aborts_block_witness :
  outcome (@asn_block.create_ipset_and_rules sample_library 64500 false
             (with_file (sample_world ["ufw"]) v4
                (sample_lines3_v4 ++ ["garbage" ++ String newline ""])))
  = Raise IndexError.
Proof.
  apply (@short_line_aborts_block sample_library 64500
           (with_file (sample_world ["ufw"]) v4
              (sample_lines3_v4 ++ ["garbage" ++ String newline ""]))
           sample_lines3_v4 ("garbage" ++ String newline "") [] []
           ["1.2.3.0/24"; "1.2.4.4/30"; "1.2.4.8/31"]); try reflexivity.
  - discriminate.
  - vm_compute. lia.
Defined.

(** ** Names of the sets *)

(** [str] of an integer determines the integer. *)
Lemma str_of_int_inj a b : str_of_int a = str_of_int b -> a = b.
Proof.
  unfold str_of_int. intros H.
  assert (Hn : forall z, Z.to_int z <> Decimal.Pos Decimal.Nil
                         /\ Z.to_int z <> Decimal.Neg Decimal.Nil).
  { intros z. split; intros Hz; pose proof (DecimalZ.of_to z) as Ho; rewrite Hz in Ho;
      cbn in Ho; subst z; discriminate. }
  apply DecimalZ.to_int_inj.
  assert (Hs : Some (Z.to_int a) = Some (Z.to_int b)).
  { rewrite <- (NilZero.isi (Z.to_int a)) by apply Hn.
    rewrite <- (NilZero.isi (Z.to_int b)) by apply Hn. now rewrite H. }
  now injection Hs.
Qed.

(** It is written with digits and a sign. *)
Lemma str_of_int_chars n :
  all_chars (fun c => negb (Ascii.eqb c "_")) (str_of_int n) = true.
Proof.
  unfold str_of_int.
  assert (Hu : forall d, all_chars (fun c => negb (Ascii.eqb c "_"))
                           (NilEmpty.string_of_uint d) = true).
  { induction d; cbn; try reflexivity; exact IHd. }
  assert (Hz : forall d, all_chars (fun c => negb (Ascii.eqb c "_"))
                           (NilZero.string_of_uint d) = true).
  { intros d. destruct d; try reflexivity; apply (Hu (_ d)). }
  destruct (Z.to_int n) as [d|d]; cbn [NilZero.string_of_int all_chars]; [apply Hz|].
  rewrite Hz. reflexivity.
Qed.

Lemma split_at_first (sep : ascii) (s1 s2 r1 r2 : string) :
  all_chars (fun c => negb (Ascii.eqb c sep)) s1 = true ->
  all_chars (fun c => negb (Ascii.eqb c sep)) s2 = true ->
  s1 ++ String sep r1 = s2 ++ String sep r2 -> s1 = s2 /\ r1 = r2.
Proof.
  revert s2. induction s1 as [|c s1 IH]; intros [|c2 s2] H1 H2 H; cbn in *.
  - injection H as ->. split; reflexivity.
  - injection H as <- _. rewrite Ascii.eqb_refl in H2. discriminate.
  - injection H as -> _. rewrite Ascii.eqb_refl in H1. discriminate.
  - injection H as -> H. apply andb_true_iff in H1, H2.
    destruct (IH s2 (proj2 H1) (proj2 H2) H) as [-> ->]. split; reflexivity.
Qed.

(** X14.  The ipset names [ASN<asn>_<version>] of different (ASN,
    version) pairs are different: two blocks never share a set. *)
Theorem set_names_distinct (asn asn' : Z) (v v' : version) :
  (asn, v) <> (asn', v') -> set_name asn v <> set_name asn' v'.
Proof.
  intros Hne H. apply Hne. unfold set_name in H.
  apply (append_inj_l "ASN") in H.
  destruct (split_at_first "_" (str_of_int asn) (str_of_int asn')
              (version_str v) (version_str v')
              (str_of_int_chars asn) (str_of_int_chars asn') H) as [Ha Hv].
  apply str_of_int_inj in Ha. subst asn'.
  destruct v, v'; try discriminate; reflexivity.
Qed.

Lemma set_names_distinct_witness : set_name 1 v4 <> set_name 11 v4.
Proof. apply set_names_distinct. discriminate. Defined.

(** ** Block, then unblock *)

Lemma without_comm a b sets : without a (without b sets) = without b (without a sets).
Proof.
  unfold without. induction sets as [|p r IH]; [reflexivity|]. cbn [filter].
  destruct (negb (fst p =? b)) eqn:Hb, (negb (fst p =? a)) eqn:Ha; cbn [filter];
    rewrite ?Ha, ?Hb, IH; reflexivity.
Qed.

Lemma without_twice a sets : without a (without a sets) = without a sets.
Proof.
  unfold without. induction sets as [|p r IH]; [reflexivity|]. cbn [filter].
  destruct (negb (fst p =? a)) eqn:Ha; cbn [filter]; rewrite ?Ha, IH; reflexivity.
Qed.

Lemma without_absent w name : set_exists w name = false -> without name (ipsets w) = ipsets w.
Proof.
  unfold set_exists, without. induction (ipsets w) as [|p r IH]; [reflexivity|].
  cbn [existsb filter]. intros H. apply orb_false_iff in H. destruct H as [Hp Hr].
  rewrite Hp, (IH Hr). reflexivity.
Qed.

Lemma without_map name (f : string * list string -> string * list string) sets :
  (forall p, f p = p \/ (fst p = name /\ fst (f p) = name)) ->
  without name (map f sets) = without name sets.
Proof.
  intros Hf. unfold without. induction sets as [|p r IH]; [reflexivity|]. cbn [map filter].
  rewrite IH. destruct (Hf p) as [->|[H1 H2]]; [reflexivity|].
  rewrite H1, H2, String.eqb_refl. reflexivity.
Qed.

(** An ipset command changes no other set than its own. *)
Lemma ipset_command_without w op name args :
  without name (ipsets (snd (ipset_command w op name args))) = without name (ipsets w).
Proof.
  unfold ipset_command.
  repeat match goal with
         | |- context [if ?b then _ else _] => destruct b
         | |- context [match ?l with [] => _ | _ :: _ => _ end] => destruct l
         end; cbn [snd ipsets with_ipsets]; try reflexivity.
  - apply without_twice.
  - unfold without. rewrite filter_app. cbn. rewrite String.eqb_refl. cbn. apply app_nil_r.
  - apply without_map. intros p. destruct (String.eqb_spec (fst p) name); auto.
  - apply without_map. intros p. destruct (String.eqb_spec (fst p) name); auto.
Qed.

Lemma iptables_command_ipsets w v op args :
  ipsets (snd (iptables_command w v op args)) = ipsets w.
Proof.
  unfold iptables_command.
  repeat match goal with
         | |- context [if ?b then _ else _] => destruct b
         | |- context [match ?l with [] => _ | _ :: _ => _ end] => destruct l
         end; reflexivity.
Qed.

Lemma owned_without w name argv :
  owned name argv = true ->
  without name (ipsets (snd (exec w argv))) = without name (ipsets w).
Proof.
  unfold owned, touches, exec. destruct argv as [|bin [|op rest]]; try reflexivity.
  cbn [hd]. intros H.
  destruct (String.eqb_spec bin BIN_SYSTEMCTL) as [->|Hs].
  { destruct rest as [|q [|sv [|]]]; try reflexivity.
    destruct ((op =? "is-active") && (q =? "--quiet")); reflexivity. }
  destruct (String.eqb_spec bin BIN_IPSET) as [->|Hi].
  - destruct rest as [|n args]; [reflexivity|].
    cbn [andb negb orb] in H. rewrite orb_false_r in H. apply String.eqb_eq in H. subst n.
    apply ipset_command_without.
  - destruct (tool_version bin) as [v|]; [|reflexivity].
    now rewrite iptables_command_ipsets.
Qed.

Lemma owned_other name n argv :
  n <> name -> owned name argv = true -> touches argv n = false.
Proof.
  unfold owned, touches. destruct argv as [|bin [|op [|nm rest]]]; try reflexivity.
  cbn [hd]. intros Hn H.
  destruct (String.eqb_spec bin BIN_IPSET) as [->|Hi]; [|reflexivity].
  cbn [andb negb orb] in H. rewrite orb_false_r in H. apply String.eqb_eq in H. subst nm.
  cbn [andb]. apply String.eqb_neq. congruence.
Qed.

(** The commands of one version keep the sets of other names. *)
Lemma runs_keep_other dry_run name n :
  n <> name ->
  runs_keep (fun w w' => set_exists w' n = set_exists w n) dry_run name.
Proof.
  intros Hn argv Hi w. rewrite run_exec. cbn [final fst snd].
  destruct Hi as [Hq|[_ Ho]].
  - now rewrite (query_pure w argv Hq).
  - apply exec_other_sets. exact (owned_other name n argv Hn Ho).
Qed.

Lemma runs_keep_without dry_run a b name :
  name = a \/ name = b ->
  runs_keep (fun w w' => without a (without b (ipsets w')) = without a (without b (ipsets w)))
    dry_run name.
Proof.
  intros Hn argv Hi w. rewrite run_exec. cbn [final fst snd].
  destruct Hi as [Hq|[_ Ho]].
  - now rewrite (query_pure w argv Hq).
  - destruct Hn as [-> | ->].
    + rewrite !(without_comm a b). now rewrite (owned_without w a argv Ho).
    + now rewrite (owned_without w b argv Ho).
Qed.

Lemma ipset_destroy w name :
  exec w [BIN_IPSET; "destroy"; name]
  = if set_exists w name && negb (set_in_use w name)
    then (0%Z, with_ipsets w (without name (ipsets w)))
    else (1%Z, w).
Proof. reflexivity. Qed.

Lemma remove_first_head name l : remove_first name (name :: l) = l.
Proof. cbn. now rewrite String.eqb_refl. Qed.

Lemma set_exists_without w name n :
  n <> name ->
  existsb (fun p => fst p =? n) (without name (ipsets w)) = set_exists w n.
Proof.
  intros Hn. unfold set_exists, without. induction (ipsets w) as [|p r IH]; [reflexivity|].
  cbn [filter existsb]. destruct (String.eqb_spec (fst p) name) as [He|He]; cbn [negb existsb].
  - rewrite IH. destruct (String.eqb_spec (fst p) n); [congruence|reflexivity].
  - rewrite IH. reflexivity.
Qed.

Section RoundTrip.
Context {L : IpLibrary}.

(** One version of unblock under the iptables backend, live, when the
    rule is in the chain, the set exists and no other rule matches it:
    the first such rule and the set are removed. *)
Lemma unblock_version_iptables asn v w c :
  cidr_list_of (parse_dataset (asn_block.parse_line asn) (files w v)) = Ok c ->
  mem (set_name asn v) (chain w v) = true ->
  set_exists w (set_name asn v) = true ->
  set_in_use (with_chain w v (remove_first (set_name asn v) (chain w v))) (set_name asn v)
  = false ->
  asn_block.unblock_version asn false "iptables" v w
  = (Ok tt,
     with_ipsets (with_chain w v (remove_first (set_name asn v) (chain w v)))
       (without (set_name asn v) (ipsets w)),
     [Run (iptables_bin v :: "-D" :: "INPUT" :: rule_spec (set_name asn v));
      Run [BIN_IPSET; "destroy"; set_name asn v];
      Log Info ("Removed ipset and rules for " ++ set_name asn v)]).
Proof.
  intros Hc Hm Hs Hu. unfold asn_block.unblock_version. cbv zeta.
  pose proof (unblock_cidr_list_run asn v w) as Hl. rewrite Hc in Hl. step Hl.
  replace ("iptables" =? "iptables") with true by reflexivity.
  unfold asn_block.remove_iptables_rule. cbv zeta.
  pose proof (run_exec (iptables_bin v :: "-D" :: "INPUT" :: rule_spec (set_name asn v)) w) as H1.
  rewrite iptables_delete, Hm in H1. cbn [fst snd] in H1.
  set (w1 := with_chain w v (remove_first (set_name asn v) (chain w v))) in *.
  assert (H1' : (_ <- run (iptables_bin v :: "-D" :: "INPUT" :: rule_spec (set_name asn v)) ;;
                 ret tt) w
                = (Ok tt, w1,
                   [Run (iptables_bin v :: "-D" :: "INPUT" :: rule_spec (set_name asn v))])).
  { step H1. reflexivity. }
  step H1'.
  pose proof (run_exec [BIN_IPSET; "destroy"; set_name asn v] w1) as H2.
  rewrite ipset_destroy in H2.
  change (set_exists w1 (set_name asn v)) with (set_exists w (set_name asn v)) in H2.
  rewrite Hs, Hu in H2. cbn [andb negb fst snd] in H2.
  step H2. reflexivity.
Qed.

End RoundTrip.

Section RoundTrip2.
Context {L : IpLibrary}.

(** Block under the iptables backend, live: what is known of the host
    afterwards. *)
Lemma block_iptables_live asn w c4 c6 :
  validate_asn asn = true ->
  active w "firewalld" = false -> active w "ufw" = false ->
  (active w "iptables" || active w "ip6tables") = true ->
  cidr_list_of (parse_dataset (asn_block.parse_line asn) (files w v4)) = Ok c4 ->
  cidr_list_of (parse_dataset (asn_block.parse_line asn) (files w v6)) = Ok c6 ->
  exists w' t,
    asn_block.create_ipset_and_rules asn false w = (Ok tt, w', t)
    /\ same_env w w'
    /\ (forall v, chain w' v = set_name asn v :: chain w v)
    /\ (forall v, set_exists w' (set_name asn v) = true)
    /\ without (set_name asn v6) (without (set_name asn v4) (ipsets w'))
       = without (set_name asn v6) (without (set_name asn v4) (ipsets w)).
Proof.
  intros Hv Hf Hu Hi H4 H6.
  destruct (cidr_list_ok_file _ _ _ H4) as (l4 & Hl4).
  destruct (cidr_list_ok_file _ _ _ H6) as (l6 & Hl6).
  unfold asn_block.create_ipset_and_rules.
  step (print_run "--- Creating block rules ---" w). rewrite Hv. cbn [negb].
  destruct (detect_run w) as (t & Hd & _). rewrite Hf, Hu, Hi in Hd.
  change (detected false false true) with "iptables" in Hd.
  step Hd.
  replace ("iptables" =? "conflict") with false by reflexivity.
  step (print_run ("Firewall system detected: " ++ "iptables") w).
  step (eq_refl : ensure_data_dir w = (Ok tt, with_datadir w, [Mkdir])).
  step (ensure_datasets_cached asn_block.line_shape_ok "Datasets updated."
          (with_datadir w) l4 l6 Hl4 Hl6).
  unfold for_each. cbn [foldM].
  set (PO := fun w w' : World =>
               without (set_name asn v6) (without (set_name asn v4) (ipsets w'))
               = without (set_name asn v6) (without (set_name asn v4) (ipsets w))).
  assert (PO_refl : forall w, PO w w) by reflexivity.
  assert (PO_trans : forall w1 w2 w3, PO w1 w2 -> PO w2 w3 -> PO w1 w3)
    by (unfold PO; intros; congruence).
  set (P4 := fun w w' : World => set_exists w' (set_name asn v4) = set_exists w (set_name asn v4)).
  assert (P4_refl : forall w, P4 w w) by reflexivity.
  assert (P4_trans : forall w1 w2 w3, P4 w1 w2 -> P4 w2 w3 -> P4 w1 w3)
    by (unfold P4; intros; congruence).
  destruct (block_version_iptables asn v4 (with_datadir w) c4 H4)
    as (w1 & t1 & R4 & E4 & C4 & _ & S4).
  pose proof (stable_block_version PO PO_refl PO_trans false asn "iptables" v4
                (runs_keep_without false _ _ _ (or_intror eq_refl)) (with_datadir w)) as O4.
  rewrite R4 in O4. cbn [final fst snd] in O4.
  step R4.
  assert (H6' : cidr_list_of (parse_dataset (asn_block.parse_line asn) (files w1 v6)) = Ok c6).
  { replace (files w1) with (files w); [exact H6|]. symmetry. apply E4. }
  destruct (block_version_iptables asn v6 w1 c6 H6') as (w2 & t2 & R6 & E6 & C6 & _ & S6).
  pose proof (stable_block_version PO PO_refl PO_trans false asn "iptables" v6
                (runs_keep_without false _ _ _ (or_introl eq_refl)) w1) as O6.
  rewrite R6 in O6. cbn [final fst snd] in O6.
  pose proof (stable_block_version P4 P4_refl P4_trans false asn "iptables" v6
                (runs_keep_other false _ _ (set_names_differ asn)) w1) as K4.
  rewrite R6 in K4. cbn [final fst snd] in K4.
  step R6. eexists _, _. split; [reflexivity|].
  unfold ret; cbn [final fst snd].
  split; [|split; [|split]].
  - eapply same_env_trans; [|exact E6]. eapply same_env_trans; [|exact E4]. repeat split.
  - intros v. rewrite C6. destruct v; cbn [version_eqb]; rewrite !C4; reflexivity.
  - intros []; [unfold P4 in K4; rewrite K4; exact S4|exact S6].
  - unfold PO in O4, O6. rewrite O6, O4. reflexivity.
Qed.

End RoundTrip2.

(** X15.  Round trip under the iptables backend: on a host where the
    sets of the ASN do not exist and no rule matches them, a live block
    followed by a live unblock of asn_block.py (valid ASN, datasets that
    parse) both succeed and leave the ipsets and both INPUT chains as
    they were before the block. *)
Theorem block_then_unblock_restores {L : IpLibrary} (asn : Z) (w : World)
  (c4 c6 : list string) :
  validate_asn asn = true ->
  active w "firewalld" = false -> active w "ufw" = false ->
  (active w "iptables" || active w "ip6tables") = true ->
  cidr_list_of (parse_dataset (asn_block.parse_line asn) (files w v4)) = Ok c4 ->
  cidr_list_of (parse_dataset (asn_block.parse_line asn) (files w v6)) = Ok c6 ->
  (forall v, set_exists w (set_name asn v) = false) ->
  (forall v v', mem (set_name asn v) (chain w v') = false) ->
  let b := asn_block.create_ipset_and_rules asn false w in
  let u := asn_block.cleanup_ipsets asn false (final b) in
  outcome b = Ok tt /\ outcome u = Ok tt /\
  ipsets (final u) = ipsets w /\
  forall v, chain (final u) v = chain w v.
Proof.
  intros Hv Hf Hu Hi H4 H6 Hs Hm. cbv zeta.
  destruct (block_iptables_live asn w c4 c6 Hv Hf Hu Hi H4 H6)
    as (w2 & tb & Rb & Eb & Cb & Sb & Ob).
  rewrite Rb. cbn [outcome final fst snd]. split; [reflexivity|].
  destruct Eb as (Ea & Efi & Er).
  (* unblock *)
  unfold asn_block.cleanup_ipsets.
  step (print_run "--- Cleaning up block rules ---" w2). rewrite Hv. cbn [negb].
  destruct (detect_run w2) as (t & Hd & _). rewrite Ea, Hf, Hu, Hi in Hd.
  change (detected false false true) with "iptables" in Hd.
  step Hd.
  replace ("iptables" =? "conflict") with false by reflexivity.
  step (print_run ("Firewall system detected: " ++ "iptables") w2).
  unfold for_each. cbn [foldM].
  assert (Hne : (set_name asn v4 =? set_name asn v6) = false)
    by (apply String.eqb_neq, set_names_differ).
  assert (Hne' : (set_name asn v6 =? set_name asn v4) = false)
    by (apply String.eqb_neq; intros H; apply (set_names_differ asn); now symmetry).
  (* IPv4 *)
  assert (U4 : asn_block.unblock_version asn false "iptables" v4 w2
               = (Ok tt,
                  with_ipsets (with_chain w2 v4 (chain w v4))
                    (without (set_name asn v4) (ipsets w2)),
                  [Run (iptables_bin v4 :: "-D" :: "INPUT" :: rule_spec (set_name asn v4));
                   Run [BIN_IPSET; "destroy"; set_name asn v4];
                   Log Info ("Removed ipset and rules for " ++ set_name asn v4)])).
  { rewrite (unblock_version_iptables asn v4 w2 c4).
    - rewrite Cb, remove_first_head. reflexivity.
    - rewrite Efi. exact H4.
    - rewrite Cb. apply mem_head.
    - apply Sb.
    - unfold set_in_use. cbn [chain with_chain version_eqb].
      rewrite !Cb, remove_first_head, (Hm v4 v4). unfold mem. cbn [existsb orb].
      rewrite Hne. apply (Hm v4 v6). }
  step U4.
  set (w4 := with_ipsets (with_chain w2 v4 (chain w v4))
               (without (set_name asn v4) (ipsets w2))).
  (* IPv6 *)
  assert (U6 : asn_block.unblock_version asn false "iptables" v6 w4
               = (Ok tt,
                  with_ipsets (with_chain w4 v6 (chain w v6))
                    (without (set_name asn v6) (ipsets w4)),
                  [Run (iptables_bin v6 :: "-D" :: "INPUT" :: rule_spec (set_name asn v6));
                   Run [BIN_IPSET; "destroy"; set_name asn v6];
                   Log Info ("Removed ipset and rules for " ++ set_name asn v6)])).
  { assert (C6 : chain w4 v6 = set_name asn v6 :: chain w v6) by apply (Cb v6).
    rewrite (unblock_version_iptables asn v6 w4 c6).
    - rewrite C6, remove_first_head. reflexivity.
    - change (files w4) with (files w2). rewrite Efi. exact H6.
    - rewrite C6. apply mem_head.
    - unfold set_exists, w4. cbn [ipsets with_ipsets].
      rewrite set_exists_without by (intros H; apply (set_names_differ asn); now symmetry).
      apply Sb.
    - unfold set_in_use. cbn [chain with_chain version_eqb].
      rewrite C6, remove_first_head. unfold w4. cbn [chain with_chain with_ipsets version_eqb].
      rewrite (Hm v6 v4), (Hm v6 v6). reflexivity. }
  step U6. split; [reflexivity|].
  unfold ret; cbn [final fst snd]. split.
  - cbn [ipsets with_ipsets]. unfold w4. cbn [ipsets with_ipsets]. rewrite Ob.
    rewrite (without_absent w (set_name asn v4) (Hs v4)).
    apply (without_absent w (set_name asn v6) (Hs v6)).
  - intros []; reflexivity.
Qed.

Lemma block_then_unblock_restores_witness :
  ipsets (final (@asn_block.cleanup_ipsets sample_library 64500 false
                   (final (@asn_block.create_ipset_and_rules sample_library 64500 false
                             (sample_world ["iptables"])))))
  = [].
Proof.
  apply (@block_then_unblock_restores sample_library 64500 (sample_world ["iptables"])
           ["1.2.3.0/24"; "1.2.4.4/30"; "1.2.4.8/31"] []); reflexivity.
Defined.

(** ** Resetting a set in use *)

(** X16.  [create_or_reset_ipset] on a set that a rule still matches:
    ipset refuses the destroy, then the create, both return codes are
    ignored, and the function returns normally with the set and its
    members as they were. *)
Theorem reset_skips_set_in_use (ipset_name : string) (v : version) (w : World) :
  set_exists w ipset_name = true -> set_in_use w ipset_name = true ->
  asn_block.create_or_reset_ipset ipset_name v false w
  = (Ok tt, w,
     [Run [BIN_IPSET; "list"; ipset_name]; Run [BIN_IPSET; "destroy"; ipset_name];
      Run (create_cmd ipset_name v)]).
Proof.
  intros Hs Hu. unfold asn_block.create_or_reset_ipset.
  assert (H1 : run [BIN_IPSET; "list"; ipset_name] w
               = (Ok 0%Z, w, [Run [BIN_IPSET; "list"; ipset_name]])).
  { rewrite run_exec. change (exec w [BIN_IPSET; "list"; ipset_name])
      with (ipset_command w "list" ipset_name []).
    unfold ipset_command. cbn [String.eqb Ascii.eqb Bool.eqb]. rewrite Hs. reflexivity. }
  step H1. cbn [Z.eqb].
  assert (H2 : (_ <- run [BIN_IPSET; "destroy"; ipset_name] ;; ret tt) w
               = (Ok tt, w, [Run [BIN_IPSET; "destroy"; ipset_name]])).
  { rewrite (bind_Ok _ _ _ _ _ _ (run_exec _ w)), ipset_destroy, Hs, Hu. reflexivity. }
  step H2.
  assert (H3 : (_ <- run (create_cmd ipset_name v) ;; ret tt) w
               = (Ok tt, w, [Run (create_cmd ipset_name v)])).
  { rewrite (bind_Ok _ _ _ _ _ _ (run_exec _ w)).
    change (exec w (create_cmd ipset_name v))
      with (ipset_command w "create" ipset_name
              ["hash:net"; "family"; match v with v4 => "inet" | v6 => "inet6" end]).
    unfold ipset_command. cbn [String.eqb Ascii.eqb Bool.eqb]. rewrite Hs. reflexivity. }
  unfold create_cmd in H3. rewrite H3. reflexivity.
Qed.

Lemma reset_skips_set_in_use_witness :
  ipsets (final (asn_block.create_or_reset_ipset "ASN64500_v4" v4 false missing_world))
  = [("ASN64500_v4", ["1.2.3.0/24"]); ("ASN64500_v6", [])].
Proof.
  rewrite (reset_skips_set_in_use "ASN64500_v4" v4 missing_world); reflexivity.
Defined.

(** ** A dry run of asn_block.py beside the live run *)

Lemma asn_block_dry_run_pure_witness :
  would_run (trace (@asn_block.main sample_library (mkArgs unblock (Some 64500%Z) true)
                      (sample_world ["iptables"])))
  = map describe
      (mutations (trace (@asn_block.main sample_library (mkArgs unblock (Some 64500%Z) false)
                           (sample_world ["iptables"])))).
Proof.
  apply (@asn_block_dry_run_pure sample_library unblock (Some 64500%Z)
           (sample_world ["iptables"])).
  discriminate.
Defined.

(** ** Unblock of iptables_asn_block.py *)

Lemma remove_first_absent name l : mem name l = false -> remove_first name l = l.
Proof.
  unfold mem. induction l as [|y r IH]; [reflexivity|]. cbn [existsb remove_first].
  intros H. apply orb_false_iff in H. destruct H as [Hy Hr]. rewrite Hy, (IH Hr). reflexivity.
Qed.

(** [iptables -D] of the rule removes its first occurrence, if any. *)
Lemma iptables_delete_chain w v name v' :
  chain (snd (exec w (iptables_bin v :: "-D" :: "INPUT" :: rule_spec name))) v'
  = if version_eqb v' v then remove_first name (chain w v) else chain w v'.
Proof.
  rewrite iptables_delete. destruct (mem name (chain w v)) eqn:Hm; cbn [snd].
  - reflexivity.
  - destruct (version_eqb v' v) eqn:Hv; [|reflexivity].
    rewrite (remove_first_absent _ _ Hm). destruct v, v'; try discriminate; reflexivity.
Qed.

(** X18.  Unblock of iptables_asn_block.py with a valid ASN, on any
    host: it succeeds, removes from each chain the first rule of the ASN
    if there is one (a second identical rule stays), and logs "Removed
    ipset and rules" for both versions whether or not anything was
    removed. *)
Theorem iptables_unblock_removes_one_rule (asn : Z) (w : World) :
  validate_asn asn = true ->
  let u := iptables_asn_block.cleanup_ipsets asn w in
  outcome u = Ok tt /\
  (forall v, chain (final u) v = remove_first (set_name asn v) (chain w v)) /\
  forall v, In (Log Info ("Removed ipset and rules for " ++ set_name asn v)) (trace u).
Proof.
  intros Hv. cbv zeta. unfold iptables_asn_block.cleanup_ipsets. rewrite Hv. cbn [negb].
  unfold for_each. cbn [foldM]. cbv zeta.
  assert (Hb : forall v w0, exists w1,
             (_ <- run (iptables_bin v :: "-D" :: "INPUT" :: rule_spec (set_name asn v)) ;;
              _ <- run [BIN_IPSET; "destroy"; set_name asn v] ;;
              logger Info ("Removed ipset and rules for " ++ set_name asn v)) w0
             = (Ok tt, w1,
                [Run (iptables_bin v :: "-D" :: "INPUT" :: rule_spec (set_name asn v));
                 Run [BIN_IPSET; "destroy"; set_name asn v];
                 Log Info ("Removed ipset and rules for " ++ set_name asn v)])
             /\ forall v', chain w1 v'
                           = if version_eqb v' v
                             then remove_first (set_name asn v) (chain w0 v)
                             else chain w0 v').
  { intros v w0.
    exists (snd (exec (snd (exec w0 (iptables_bin v :: "-D" :: "INPUT"
                                       :: rule_spec (set_name asn v))))
                   [BIN_IPSET; "destroy"; set_name asn v])).
    split.
    - rewrite (bind_Ok _ _ _ _ _ _
                 (run_exec (iptables_bin v :: "-D" :: "INPUT" :: rule_spec (set_name asn v)) w0)).
      cbn [outcome final trace fst snd].
      rewrite (bind_Ok _ _ _ _ _ _
                 (run_exec [BIN_IPSET; "destroy"; set_name asn v]
                    (snd (exec w0 (iptables_bin v :: "-D" :: "INPUT"
                                     :: rule_spec (set_name asn v)))))).
      reflexivity.
    - intros v'.
      change (exec ?x [BIN_IPSET; "destroy"; ?n]) with (ipset_command x "destroy" n []).
      rewrite ipset_command_chain. apply iptables_delete_chain. }
  destruct (Hb v4 w) as (w1 & R4 & C4). step R4.
  destruct (Hb v6 w1) as (w2 & R6 & C6). step R6.
  unfold ret; cbn [outcome final trace fst snd].
  split; [reflexivity|]. split.
  - intros v. rewrite C6. destruct v; cbn [version_eqb]; rewrite !C4; reflexivity.
  - intros []; cbn; auto 10.
Qed.

Lemma iptables_unblock_removes_one_rule_witness :
  chain (final (iptables_asn_block.cleanup_ipsets 64500 missing_world)) v4
  = [].
Proof.
  apply (iptables_unblock_removes_one_rule 64500 missing_world).
  reflexivity.
Defined.

(** ** Unblock after two blocks *)

Section AfterTwoBlocks.
Context {L : IpLibrary}.

(** One version of unblock under the iptables backend, live: the two
    commands, whatever they answer. *)
Lemma unblock_version_iptables_run asn v w c :
  cidr_list_of (parse_dataset (asn_block.parse_line asn) (files w v)) = Ok c ->
  asn_block.unblock_version asn false "iptables" v w
  = (Ok tt,
     snd (exec (snd (exec w (iptables_bin v :: "-D" :: "INPUT"
                               :: rule_spec (set_name asn v))))
            [BIN_IPSET; "destroy"; set_name asn v]),
     [Run (iptables_bin v :: "-D" :: "INPUT" :: rule_spec (set_name asn v));
      Run [BIN_IPSET; "destroy"; set_name asn v];
      Log Info ("Removed ipset and rules for " ++ set_name asn v)]).
Proof.
  intros Hc. unfold asn_block.unblock_version. cbv zeta.
  pose proof (unblock_cidr_list_run asn v w) as Hl. rewrite Hc in Hl.
  rewrite (bind_Ok _ _ _ _ _ _ Hl). cbn [outcome final trace fst snd].
  replace ("iptables" =? "iptables") with true by reflexivity.
  unfold asn_block.remove_iptables_rule. cbv zeta.
  assert (H1 : (_ <- run (iptables_bin v :: "-D" :: "INPUT" :: rule_spec (set_name asn v)) ;;
                ret tt) w
               = (Ok tt,
                  snd (exec w (iptables_bin v :: "-D" :: "INPUT" :: rule_spec (set_name asn v))),
                  [Run (iptables_bin v :: "-D" :: "INPUT" :: rule_spec (set_name asn v))])).
  { rewrite (bind_Ok _ _ _ _ _ _ (run_exec _ w)). reflexivity. }
  rewrite (bind_Ok _ _ _ _ _ _ H1). cbn [outcome final trace fst snd].
  rewrite (bind_Ok _ _ _ _ _ _ (run_exec [BIN_IPSET; "destroy"; set_name asn v] _)).
  reflexivity.
Qed.

(** With two rules of the set at the head of the chain, unblock removes
    one; the set, still in use, stays. *)
Lemma unblock_version_doubled asn v w c rules :
  cidr_list_of (parse_dataset (asn_block.parse_line asn) (files w v)) = Ok c ->
  chain w v = set_name asn v :: set_name asn v :: rules ->
  exists t,
    asn_block.unblock_version asn false "iptables" v w
    = (Ok tt, with_chain w v (set_name asn v :: rules), t).
Proof.
  intros Hc Hch. rewrite (unblock_version_iptables_run asn v w c Hc).
  rewrite iptables_delete, Hch, mem_head, remove_first_head. cbn [snd].
  rewrite ipset_destroy.
  assert (Hu : set_in_use (with_chain w v (set_name asn v :: rules)) (set_name asn v) = true).
  { unfold set_in_use. destruct v; cbn [chain with_chain version_eqb];
      rewrite mem_head; [reflexivity|apply orb_true_r]. }
  rewrite Hu, andb_false_r. eexists. reflexivity.
Qed.

End AfterTwoBlocks.

(** X19.  After two live blocks of asn_block.py under the iptables
    backend, which leave two identical rules, one live unblock removes
    one rule only: all three runs succeed, and afterwards the rule is
    still at the head of both chains, as after one block, and the sets,
    still in use, are still there. *)
Theorem unblock_after_two_blocks {L : IpLibrary} (asn : Z) (w : World)
  (c4 c6 : list string) :
  validate_asn asn = true ->
  active w "firewalld" = false -> active w "ufw" = false ->
  (active w "iptables" || active w "ip6tables") = true ->
  cidr_list_of (parse_dataset (asn_block.parse_line asn) (files w v4)) = Ok c4 ->
  cidr_list_of (parse_dataset (asn_block.parse_line asn) (files w v6)) = Ok c6 ->
  let b1 := asn_block.create_ipset_and_rules asn false w in
  let b2 := asn_block.create_ipset_and_rules asn false (final b1) in
  let u := asn_block.cleanup_ipsets asn false (final b2) in
  outcome b1 = Ok tt /\ outcome b2 = Ok tt /\ outcome u = Ok tt /\
  forall v,
    chain (final u) v = set_name asn v :: chain w v /\
    set_exists (final u) (set_name asn v) = true.
Proof.
  intros Hv Hf Hu Hi H4 H6. cbv zeta.
  destruct (block_iptables_live asn w c4 c6 Hv Hf Hu Hi H4 H6)
    as (w1 & t1 & R1 & E1 & C1 & _).
  rewrite R1. cbn [outcome final fst snd]. split; [reflexivity|].
  destruct E1 as (Ea1 & Ef1 & Er1).
  assert (H4' : cidr_list_of (parse_dataset (asn_block.parse_line asn) (files w1 v4)) = Ok c4)
    by (rewrite Ef1; exact H4).
  assert (H6' : cidr_list_of (parse_dataset (asn_block.parse_line asn) (files w1 v6)) = Ok c6)
    by (rewrite Ef1; exact H6).
  destruct (block_iptables_live asn w1 c4 c6 Hv) as (w2 & t2 & R2 & E2 & C2 & S2 & _);
    try assumption; try (rewrite Ea1; assumption).
  rewrite R2. cbn [outcome final fst snd]. split; [reflexivity|].
  destruct E2 as (Ea2 & Ef2 & Er2).
  unfold asn_block.cleanup_ipsets.
  step (print_run "--- Cleaning up block rules ---" w2). rewrite Hv. cbn [negb].
  destruct (detect_run w2) as (t & Hd & _). rewrite Ea2, Ea1, Hf, Hu, Hi in Hd.
  change (detected false false true) with "iptables" in Hd.
  step Hd.
  replace ("iptables" =? "conflict") with false by reflexivity.
  step (print_run ("Firewall system detected: " ++ "iptables") w2).
  unfold for_each. cbn [foldM].
  destruct (unblock_version_doubled asn v4 w2 c4 (chain w v4)) as (u4 & U4).
  { rewrite Ef2. exact H4'. }
  { rewrite C2, C1. reflexivity. }
  step U4.
  destruct (unblock_version_doubled asn v6 (with_chain w2 v4 (set_name asn v4 :: chain w v4))
              c6 (chain w v6)) as (u6 & U6).
  { change (files (with_chain w2 v4 (set_name asn v4 :: chain w v4))) with (files w2).
    rewrite Ef2. exact H6'. }
  { cbn [chain with_chain version_eqb]. rewrite C2, C1. reflexivity. }
  step U6. split; [reflexivity|].
  unfold ret; cbn [final fst snd]. intros v. split.
  - destruct v; reflexivity.
  - change (set_exists (with_chain (with_chain w2 v4 (set_name asn v4 :: chain w v4)) v6
                          (set_name asn v6 :: chain w v6)) (set_name asn v))
      with (set_exists w2 (set_name asn v)).
    apply S2.
Qed.

Lemma unblock_after_two_blocks_witness :
  let w0 := sample_world ["iptables"] in
  let w1 := final (@asn_block.create_ipset_and_rules sample_library 64500 false w0) in
  let w2 := final (@asn_block.create_ipset_and_rules sample_library 64500 false w1) in
  chain (final (@asn_block.cleanup_ipsets sample_library 64500 false w2)) v4
  = ["ASN64500_v4"].
Proof.
  cbv zeta.
  apply (@unblock_after_two_blocks sample_library 64500 (sample_world ["iptables"])
           ["1.2.3.0/24"; "1.2.4.4/30"; "1.2.4.8/31"] []); reflexivity.
Defined.

(** ** Block, then unblock, in iptables_asn_block.py *)

(** Removing the rule at the head of a chain, then its set when no other
    rule matches it. *)
Lemma remove_rule_and_set w v name rules :
  chain w v = name :: rules ->
  set_exists w name = true ->
  set_in_use (with_chain w v rules) name = false ->
  snd (exec (snd (exec w (iptables_bin v :: "-D" :: "INPUT" :: rule_spec name)))
         [BIN_IPSET; "destroy"; name])
  = with_ipsets (with_chain w v rules) (without name (ipsets w)).
Proof.
  intros Hc Hs Hu. rewrite iptables_delete, Hc, mem_head, remove_first_head. cbn [snd].
  rewrite ipset_destroy.
  change (set_exists (with_chain w v rules) name) with (set_exists w name).
  rewrite Hs, Hu. reflexivity.
Qed.

Section IptablesRoundTrip.
Context {L : IpLibrary}.

(** Block of iptables_asn_block.py, live: the sets afterwards. *)
Lemma iptables_block_sets asn w c4 c6 :
  validate_asn asn = true ->
  cidr_list_of (parse_dataset (iptables_asn_block.parse_line asn) (files w v4)) = Ok c4 ->
  cidr_list_of (parse_dataset (iptables_asn_block.parse_line asn) (files w v6)) = Ok c6 ->
  exists w' t,
    iptables_asn_block.create_ipset_and_rules asn false w = (Ok tt, w', t)
    /\ (forall v, chain w' v = ensure_rule (set_name asn v) (chain w v))
    /\ (forall v, set_exists w' (set_name asn v) = true)
    /\ without (set_name asn v6) (without (set_name asn v4) (ipsets w'))
       = without (set_name asn v6) (without (set_name asn v4) (ipsets w)).
Proof.
  intros Hv H4 H6.
  destruct (cidr_list_ok_file _ _ _ H4) as (l4 & Hl4).
  destruct (cidr_list_ok_file _ _ _ H6) as (l6 & Hl6).
  rewrite iptables_block_unfold, Hv. cbn [negb].
  step (eq_refl : ensure_data_dir w = (Ok tt, with_datadir w, [Mkdir])).
  step (ensure_datasets_cached iptables_asn_block.line_shape_ok "Datasets updated!"
          (with_datadir w) l4 l6 Hl4 Hl6).
  unfold for_each. cbn [foldM].
  set (PO := fun w w' : World =>
               without (set_name asn v6) (without (set_name asn v4) (ipsets w'))
               = without (set_name asn v6) (without (set_name asn v4) (ipsets w))).
  assert (PO_refl : forall w, PO w w) by reflexivity.
  assert (PO_trans : forall w1 w2 w3, PO w1 w2 -> PO w2 w3 -> PO w1 w3)
    by (unfold PO; intros; congruence).
  set (P4 := fun w w' : World => set_exists w' (set_name asn v4) = set_exists w (set_name asn v4)).
  assert (P4_refl : forall w, P4 w w) by reflexivity.
  assert (P4_trans : forall w1 w2 w3, P4 w1 w2 -> P4 w2 w3 -> P4 w1 w3)
    by (unfold P4; intros; congruence).
  destruct (iptables_version_live asn v4 (with_datadir w) c4 H4) as (w1 & R4 & E4 & C4 & S4).
  pose proof (stable_iptables_version PO PO_refl PO_trans false asn v4
                (runs_keep_without false _ _ _ (or_intror eq_refl)) (with_datadir w)) as O4.
  rewrite R4 in O4. cbn [final fst snd] in O4.
  step R4.
  assert (H6' : cidr_list_of (parse_dataset (iptables_asn_block.parse_line asn) (files w1 v6))
                = Ok c6).
  { replace (files w1) with (files w); [exact H6|]. symmetry. apply E4. }
  destruct (iptables_version_live asn v6 w1 c6 H6') as (w2 & R6 & E6 & C6 & S6).
  pose proof (stable_iptables_version PO PO_refl PO_trans false asn v6
                (runs_keep_without false _ _ _ (or_introl eq_refl)) w1) as O6.
  rewrite R6 in O6. cbn [final fst snd] in O6.
  pose proof (stable_iptables_version P4 P4_refl P4_trans false asn v6
                (runs_keep_other false _ _ (set_names_differ asn)) w1) as K4.
  rewrite R6 in K4. cbn [final fst snd] in K4.
  step R6. eexists _, _. split; [reflexivity|].
  unfold ret; cbn [final fst snd]. split; [|split].
  - intros v. rewrite C6. destruct v; cbn [version_eqb]; rewrite !C4; reflexivity.
  - intros []; [unfold P4 in K4; rewrite K4; exact S4|exact S6].
  - unfold PO in O4, O6. rewrite O6, O4. reflexivity.
Qed.

End IptablesRoundTrip.

(** X20.  Round trip in iptables_asn_block.py: on a host where the sets
    of the ASN do not exist and no rule matches them, a live block
    followed by unblock (valid ASN, datasets that parse) both succeed
    and leave the ipsets and both INPUT chains as they were before the
    block. *)
Theorem iptables_block_then_unblock_restores {L : IpLibrary} (asn : Z) (w : World)
  (c4 c6 : list string) :
  validate_asn asn = true ->
  cidr_list_of (parse_dataset (iptables_asn_block.parse_line asn) (files w v4)) = Ok c4 ->
  cidr_list_of (parse_dataset (iptables_asn_block.parse_line asn) (files w v6)) = Ok c6 ->
  (forall v, set_exists w (set_name asn v) = false) ->
  (forall v v', mem (set_name asn v) (chain w v') = false) ->
  let b := iptables_asn_block.create_ipset_and_rules asn false w in
  let u := iptables_asn_block.cleanup_ipsets asn (final b) in
  outcome b = Ok tt /\ outcome u = Ok tt /\
  ipsets (final u) = ipsets w /\
  forall v, chain (final u) v = chain w v.
Proof.
  intros Hv H4 H6 Hs Hm. cbv zeta.
  destruct (iptables_block_sets asn w c4 c6 Hv H4 H6) as (w2 & tb & Rb & Cb & Sb & Ob).
  rewrite Rb. cbn [outcome final fst snd]. split; [reflexivity|].
  assert (Cb' : forall v, chain w2 v = set_name asn v :: chain w v).
  { intros v. rewrite Cb. unfold ensure_rule. now rewrite Hm. }
  unfold iptables_asn_block.cleanup_ipsets. rewrite Hv. cbn [negb].
  unfold for_each. cbn [foldM]. cbv zeta.
  assert (Hne : (set_name asn v4 =? set_name asn v6) = false)
    by (apply String.eqb_neq, set_names_differ).
  assert (Hb : forall v w0,
             (_ <- run (iptables_bin v :: "-D" :: "INPUT" :: rule_spec (set_name asn v)) ;;
              _ <- run [BIN_IPSET; "destroy"; set_name asn v] ;;
              logger Info ("Removed ipset and rules for " ++ set_name asn v)) w0
             = (Ok tt,
                snd (exec (snd (exec w0 (iptables_bin v :: "-D" :: "INPUT"
                                           :: rule_spec (set_name asn v))))
                       [BIN_IPSET; "destroy"; set_name asn v]),
                [Run (iptables_bin v :: "-D" :: "INPUT" :: rule_spec (set_name asn v));
                 Run [BIN_IPSET; "destroy"; set_name asn v];
                 Log Info ("Removed ipset and rules for " ++ set_name asn v)])).
  { intros v w0.
    rewrite (bind_Ok _ _ _ _ _ _
               (run_exec (iptables_bin v :: "-D" :: "INPUT" :: rule_spec (set_name asn v)) w0)).
    cbn [outcome final trace fst snd].
    rewrite (bind_Ok _ _ _ _ _ _ (run_exec [BIN_IPSET; "destroy"; set_name asn v] _)).
    reflexivity. }
  pose proof (Hb v4 w2) as U4.
  rewrite (remove_rule_and_set w2 v4 (set_name asn v4) (chain w v4)) in U4.
  2: apply Cb'.
  2: apply Sb.
  2: { unfold set_in_use. cbn [chain with_chain version_eqb].
       rewrite Cb', (Hm v4 v4). unfold mem. cbn [existsb orb].
       rewrite Hne. apply (Hm v4 v6). }
  step U4.
  set (w4 := with_ipsets (with_chain w2 v4 (chain w v4))
               (without (set_name asn v4) (ipsets w2))) in *.
  pose proof (Hb v6 w4) as U6.
  rewrite (remove_rule_and_set w4 v6 (set_name asn v6) (chain w v6)) in U6.
  2: apply (Cb' v6).
  2: { unfold set_exists, w4. cbn [ipsets with_ipsets].
       rewrite set_exists_without by (intros H; apply (set_names_differ asn); now symmetry).
       apply Sb. }
  2: { unfold set_in_use, w4. cbn [chain with_chain with_ipsets version_eqb].
       rewrite (Hm v6 v4), (Hm v6 v6). reflexivity. }
  step U6. split; [reflexivity|].
  unfold ret; cbn [final fst snd]. split.
  - unfold w4. cbn [ipsets with_ipsets]. rewrite Ob.
    rewrite (without_absent w (set_name asn v4) (Hs v4)).
    apply (without_absent w (set_name asn v6) (Hs v6)).
  - intros []; reflexivity.
Qed.

Lemma iptables_block_then_unblock_restores_witness :
  ipsets (final (iptables_asn_block.cleanup_ipsets 64500
                   (final (@iptables_asn_block.create_ipset_and_rules sample_library 64500
                             false (sample_world3 [])))))
  = [].
Proof.
  apply (@iptables_block_then_unblock_restores sample_library 64500 (sample_world3 [])
           ["1.2.3.0/24"; "1.2.4.4/30"; "1.2.4.8/31"] []); reflexivity.
Defined.

(** ** What the sets hold after a block *)

Lemma absent_names w name :
  set_exists w name = false -> forall p, In p (ipsets w) -> (fst p =? name) = false.
Proof.
  unfold set_exists. intros H p Hin.
  destruct (fst p =? name) eqn:He; [|reflexivity].
  rewrite <- H. symmetry. apply existsb_exists. exists p. split; assumption.
Qed.

Lemma map_others {A} (test : A -> bool) (g : A -> A) l :
  (forall p, In p l -> test p = false) ->
  map (fun p => if test p then g p else p) l = l.
Proof.
  induction l as [|p r IH]; [reflexivity|]. intros H. cbn [map].
  rewrite (H p (or_introl eq_refl)), IH; [reflexivity|].
  intros q Hq. apply H. now right.
Qed.

Lemma existsb_others {A} (test rest : A -> bool) l :
  (forall p, In p l -> test p = false) -> existsb (fun p => test p && rest p) l = false.
Proof.
  induction l as [|p r IH]; [reflexivity|]. intros H. cbn [existsb].
  rewrite (H p (or_introl eq_refl)), IH; [reflexivity|].
  intros q Hq. apply H. now right.
Qed.

Lemma mem_absent c m : ~ In c m -> mem c m = false.
Proof.
  unfold mem. intros H. destruct (existsb (String.eqb c) m) eqn:He; [|reflexivity].
  apply existsb_exists in He. destruct He as (x & Hx & Hc). apply String.eqb_eq in Hc.
  subst x. contradiction.
Qed.

(** [ipset add] of a new member to the one set of that name. *)
Lemma ipset_add_fills w name pre m c :
  ipsets w = (pre ++ [(name, m)])%list ->
  (forall p, In p pre -> (fst p =? name) = false) ->
  mem c m = false ->
  snd (exec w [BIN_IPSET; "add"; name; c])
  = with_ipsets w (pre ++ [(name, (m ++ [c])%list)])%list.
Proof.
  intros Hw Hp Hc.
  change (exec w [BIN_IPSET; "add"; name; c]) with (ipset_command w "add" name [c]).
  unfold ipset_command. cbn [String.eqb Ascii.eqb Bool.eqb]. rewrite Hw.
  rewrite existsb_app, (existsb_others _ _ pre Hp). cbn [existsb fst snd orb].
  rewrite String.eqb_refl, Hc. cbn [andb negb orb snd].
  rewrite map_app. cbn [map fst snd]. rewrite String.eqb_refl.
  rewrite (map_others (fun p => fst p =? name)
             (fun p => (name, (snd p ++ [c])%list)) pre Hp).
  reflexivity.
Qed.

(** The adds of a live run fill the set with the CIDRs, in order, when
    they are pairwise distinct and new to the set. *)
Lemma adds_fill name pre l : forall w m,
  ipsets w = (pre ++ [(name, m)])%list ->
  (forall p, In p pre -> (fst p =? name) = false) ->
  NoDup (m ++ l) ->
  ipsets (fold_left (add_step false name) l w) = (pre ++ [(name, (m ++ l)%list)])%list
  /\ chain (fold_left (add_step false name) l w) = chain w.
Proof.
  induction l as [|c r IH]; intros w m Hw Hp Hn; cbn [fold_left].
  - rewrite app_nil_r. split; [exact Hw|reflexivity].
  - change (add_step false name w c) with (snd (exec w [BIN_IPSET; "add"; name; c])).
    assert (Hc : mem c m = false).
    { apply mem_absent. intros Hin. apply NoDup_remove_2 in Hn. apply Hn, in_or_app. now left. }
    rewrite (ipset_add_fills w name pre m c Hw Hp Hc).
    destruct (IH (with_ipsets w (pre ++ [(name, (m ++ [c])%list)])%list) (m ++ [c])%list)
      as [Hi Hch].
    + reflexivity.
    + exact Hp.
    + rewrite <- app_assoc. exact Hn.
    + rewrite Hi, Hch, <- app_assoc. split; reflexivity.
Qed.

Lemma ipset_create_fresh w name args :
  set_exists w name = false ->
  snd (ipset_command w "create" name args) = with_ipsets w (ipsets w ++ [(name, [])])%list.
Proof.
  intros Hs. unfold ipset_command. cbn [String.eqb Ascii.eqb Bool.eqb]. rewrite Hs. reflexivity.
Qed.

(** A command of another tool than ipset leaves the sets alone. *)
Lemma exec_ipsets w argv :
  (hd "" argv =? BIN_IPSET) = false -> ipsets (snd (exec w argv)) = ipsets w.
Proof.
  unfold exec. destruct argv as [|bin [|op rest]]; try reflexivity. cbn [hd]. intros H.
  rewrite H.
  destruct (bin =? BIN_SYSTEMCTL).
  { destruct rest as [|q [|sv [|]]]; try reflexivity.
    destruct ((op =? "is-active") && (q =? "--quiet")); reflexivity. }
  destruct (tool_version bin) as [v|]; [|reflexivity].
  apply iptables_command_ipsets.
Qed.

Section Fill.
Context {L : IpLibrary}.

(** The rule commands leave the sets alone. *)
Lemma block_rules_ipsets fw v name c w :
  ipsets (final ((if fw =? "iptables"
                  then asn_block.apply_iptables_rule (iptables_bin v) name false
                  else if fw =? "firewalld" then asn_block.apply_firewalld_rule name false
                  else if fw =? "ufw" then asn_block.apply_ufw_rule c false
                  else ret tt) w))
  = ipsets w.
Proof.
  set (P := fun w w' : World => ipsets w' = ipsets w).
  assert (R : forall w, P w w) by reflexivity.
  assert (T : forall w1 w2 w3, P w1 w2 -> P w2 w3 -> P w1 w3)
    by (unfold P; intros; congruence).
  assert (Hr : forall argv, (hd "" argv =? BIN_IPSET) = false -> stable P (run argv)).
  { intros argv Ha w0. rewrite run_exec. apply exec_ipsets, Ha. }
  assert (Hu : forall argv, (hd "" argv =? BIN_IPSET) = false ->
                            stable P (_ <- run argv ;; ret tt)).
  { intros argv Ha. apply (stable_bind P T); [apply Hr, Ha|intros _; apply (stable_ret P R)]. }
  revert w. change (stable P (if fw =? "iptables"
                  then asn_block.apply_iptables_rule (iptables_bin v) name false
                  else if fw =? "firewalld" then asn_block.apply_firewalld_rule name false
                  else if fw =? "ufw" then asn_block.apply_ufw_rule c false
                  else ret tt)).
  destruct (fw =? "iptables"); [apply Hu; destruct v; reflexivity|].
  destruct (fw =? "firewalld").
  { unfold asn_block.apply_firewalld_rule. cbv zeta.
    apply (stable_bind P T); [apply Hr; reflexivity|intros _; apply Hu; reflexivity]. }
  destruct (fw =? "ufw"); [|apply (stable_ret P R)].
  unfold asn_block.apply_ufw_rule. apply (stable_for_each P R T). intros cidr.
  apply Hu. reflexivity.
Qed.

(** One version of live block of asn_block.py on a host without the set:
    the set is appended, filled with the CIDRs. *)
Lemma block_version_fills asn fw v w c :
  cidr_list_of (parse_dataset (asn_block.parse_line asn) (files w v)) = Ok c ->
  set_exists w (set_name asn v) = false ->
  NoDup c ->
  exists w' t,
    asn_block.block_version asn false fw v w = (Ok tt, w', t)
    /\ same_env w w'
    /\ ipsets w' = (ipsets w ++ [(set_name asn v, c)])%list.
Proof.
  intros Hc Hs Hn.
  destruct (block_version_live asn fw v w c Hc) as (w' & d & R & _ & E).
  eexists w', _. split; [exact R|]. split; [exact E|].
  replace w' with (final (asn_block.block_version asn false fw v w)) by (rewrite R; reflexivity).
  clear R E w' d.
  unfold asn_block.block_version. cbv zeta.
  (* reset *)
  assert (H1 : asn_block.create_or_reset_ipset (set_name asn v) v false w
               = (Ok tt, with_ipsets w (ipsets w ++ [(set_name asn v, [])])%list,
                  [Run [BIN_IPSET; "list"; set_name asn v];
                   Run (create_cmd (set_name asn v) v)])).
  { unfold asn_block.create_or_reset_ipset.
    assert (Hl : run [BIN_IPSET; "list"; set_name asn v] w
                 = (Ok 1%Z, w, [Run [BIN_IPSET; "list"; set_name asn v]])).
    { rewrite run_exec.
      change (exec w [BIN_IPSET; "list"; set_name asn v])
        with (ipset_command w "list" (set_name asn v) []).
      unfold ipset_command. cbn [String.eqb Ascii.eqb Bool.eqb]. rewrite Hs. reflexivity. }
    step Hl. cbn [Z.eqb].
    step (eq_refl : ret tt w = (Ok tt, w, [])).
    rewrite (bind_Ok _ _ _ _ _ _ (run_exec _ w)).
    change (exec w [BIN_IPSET; "create"; set_name asn v; "hash:net"; "family";
                    match v with v4 => "inet" | v6 => "inet6" end])
      with (ipset_command w "create" (set_name asn v)
              ["hash:net"; "family"; match v with v4 => "inet" | v6 => "inet6" end]).
    rewrite ipset_create_fresh by exact Hs. reflexivity. }
  step H1.
  set (w1 := with_ipsets w (ipsets w ++ [(set_name asn v, [])])%list).
  (* adds *)
  destruct (block_cidr_list_partial asn false v (set_name asn v) w1)
    as (w2 & t2 & H2 & _ & _ & W2).
  change (files w1) with (files w) in H2, W2.
  destruct (cidr_list_ok _ _ Hc) as [Hp Hg]. rewrite Hp, Hg in H2. cbn [loop_result] in H2.
  specialize (W2 c Hp). step H2.
  rewrite block_rules_ipsets, W2.
  destruct (adds_fill (set_name asn v) (ipsets w) c w1 []) as [Hi _].
  - reflexivity.
  - apply absent_names, Hs.
  - exact Hn.
  - exact Hi.
Qed.

(** One version of live block of iptables_asn_block.py on a host without
    the set. *)
Lemma iptables_version_fills asn v w c :
  cidr_list_of (parse_dataset (iptables_asn_block.parse_line asn) (files w v)) = Ok c ->
  set_exists w (set_name asn v) = false ->
  NoDup c ->
  exists w' t,
    iptables_block_version asn false v w = (Ok tt, w', t)
    /\ same_env w w'
    /\ ipsets w' = (ipsets w ++ [(set_name asn v, c)])%list.
Proof.
  intros Hc Hs Hn.
  destruct (iptables_version_live asn v w c Hc) as (w' & R & E & _).
  eexists w', _. split; [exact R|]. split; [exact E|].
  replace w' with (final (iptables_block_version asn false v w)) by (rewrite R; reflexivity).
  clear R E w'.
  unfold iptables_block_version. cbv zeta. cbn [negb].
  set (name := set_name asn v).
  set (w1 := with_ipsets w (ipsets w ++ [(name, [])])%list).
  assert (H12 : (_ <- run (create_cmd name v) ;; _ <- run [BIN_IPSET; "flush"; name] ;; ret tt) w
                = (Ok tt, w1, [Run (create_cmd name v); Run [BIN_IPSET; "flush"; name]])).
  { rewrite (bind_Ok _ _ _ _ _ _ (run_exec _ w)). cbn [outcome final trace fst snd].
    change (exec w (create_cmd name v))
      with (ipset_command w "create" name
              ["hash:net"; "family"; match v with v4 => "inet" | v6 => "inet6" end]).
    rewrite ipset_create_fresh by exact Hs. fold w1.
    rewrite (bind_Ok _ _ _ _ _ _ (run_exec _ w1)). cbn [outcome final trace fst snd].
    change (exec w1 [BIN_IPSET; "flush"; name]) with (ipset_command w1 "flush" name []).
    unfold ipset_command. cbn [String.eqb Ascii.eqb Bool.eqb].
    assert (Hx : set_exists w1 name = true).
    { unfold set_exists, w1. cbn [ipsets with_ipsets]. rewrite existsb_app. cbn.
      rewrite String.eqb_refl. apply orb_true_r. }
    rewrite Hx. cbn [snd].
    assert (Hm : map (fun p => if fst p =? name then (name, []) else p) (ipsets w1)
                 = ipsets w1).
    { unfold w1. cbn [ipsets with_ipsets]. rewrite map_app. cbn [map fst].
      rewrite String.eqb_refl.
      rewrite (map_others (fun p => fst p =? name) (fun _ => (name, []))
                 (ipsets w) (absent_names w name Hs)).
      reflexivity. }
    rewrite Hm. reflexivity. }
  unfold create_cmd in H12. step H12.
  destruct (add_cidrs_run asn false v name w1) as (w3 & t & H3 & _ & _ & _ & W3).
  change (files w1) with (files w) in H3, W3.
  destruct (cidr_list_ok _ _ Hc) as [Hp Hg]. rewrite Hp, Hg in H3. cbn [loop_result] in H3.
  specialize (W3 c Hp). step H3.
  destruct (adds_fill name (ipsets w) c w1 []) as [Hi _];
    [reflexivity|apply absent_names, Hs|exact Hn|].
  rewrite <- W3 in Hi. cbn [app] in Hi.
  rewrite (bind_Ok _ _ _ _ _ _
             (eq_refl : logger Info (str_of_int (fold_left (fun k _ => (k + 1)%Z) c 0%Z)
                                      ++ " CIDRs " ++ "added to" ++ " ipset '" ++ name ++ "'") w3
                        = (Ok tt, w3, [Log Info _]))).
  cbn [outcome final trace fst snd].
  rewrite (bind_Ok _ _ _ _ _ _ (run_exec _ w3)). cbn [outcome final trace fst snd].
  rewrite iptables_check. cbn [fst snd].
  destruct (negb ((if mem name (chain w3 v) then 0 else 1) =? 0)%Z); [|exact Hi].
  rewrite (bind_Ok _ _ _ _ _ _ (run_exec _ w3)). cbn [outcome final trace fst snd].
  unfold logger, emit. cbn [final fst snd].
  rewrite exec_ipsets by (destruct v; reflexivity). exact Hi.
Qed.

End Fill.

(** X21.  Live block of either script on a host without the sets of
    the ASN (valid ASN, no conflict of backends, cached datasets that
    parse, the CIDRs of a version pairwise distinct): it succeeds, and
    the ipsets afterwards are those before, followed by the IPv4 set and
    the IPv6 set, each holding exactly the CIDRs of its dataset, in
    order. *)
Theorem block_fills_sets {L : IpLibrary} (s : script) (asn : Z) (w : World)
  (c4 c6 : list string) :
  validate_asn asn = true ->
  (s = asn_block_py ->
   detected (active w "firewalld") (active w "ufw")
            (active w "iptables" || active w "ip6tables") <> "conflict") ->
  cidr_list_of (parse_dataset (parse_line_of s asn) (files w v4)) = Ok c4 ->
  cidr_list_of (parse_dataset (parse_line_of s asn) (files w v6)) = Ok c6 ->
  (forall v, set_exists w (set_name asn v) = false) ->
  NoDup c4 -> NoDup c6 ->
  let b := main_of s (mkArgs block (Some asn) false) w in
  outcome b = Ok tt /\
  ipsets (final b) = (ipsets w ++ [(set_name asn v4, c4); (set_name asn v6, c6)])%list.
Proof.
  intros Hv Hc H4 H6 Hs N4 N6. cbv zeta.
  destruct (cidr_list_ok_file _ _ _ H4) as (l4 & Hl4).
  destruct (cidr_list_ok_file _ _ _ H6) as (l6 & Hl6).
  assert (Hs6 : forall w1, ipsets w1 = (ipsets w ++ [(set_name asn v4, c4)])%list ->
                           set_exists w1 (set_name asn v6) = false).
  { intros w1 Hi. unfold set_exists. rewrite Hi, existsb_app. cbn [existsb fst].
    change (existsb (fun p => fst p =? set_name asn v6) (ipsets w))
      with (set_exists w (set_name asn v6)).
    rewrite (Hs v6). cbn [orb]. rewrite orb_false_r.
    apply String.eqb_neq, set_names_differ. }
  destruct s; cbn [main_of parse_line_of] in *.
  - specialize (Hc eq_refl).
    unfold asn_block.main. cbn [args_action args_asn args_dry_run].
    rewrite (valid_asn_given asn Hv). unfold asn_block.create_ipset_and_rules.
    step (print_run "--- Creating block rules ---" w). rewrite Hv. cbn [negb].
    destruct (detect_run w) as (t & Hd & _). step Hd.
    apply String.eqb_neq in Hc. rewrite Hc.
    step (print_run ("Firewall system detected: "
                     ++ detected (active w "firewalld") (active w "ufw")
                          (active w "iptables" || active w "ip6tables")) w).
    step (eq_refl : ensure_data_dir w = (Ok tt, with_datadir w, [Mkdir])).
    step (ensure_datasets_cached asn_block.line_shape_ok "Datasets updated."
            (with_datadir w) l4 l6 Hl4 Hl6).
    unfold for_each. cbn [foldM].
    set (fw := detected (active w "firewalld") (active w "ufw")
                 (active w "iptables" || active w "ip6tables")).
    destruct (block_version_fills asn fw v4 (with_datadir w) c4 H4 (Hs v4) N4)
      as (w1 & t1 & R4 & E4 & I4).
    step R4.
    assert (H6' : cidr_list_of (parse_dataset (asn_block.parse_line asn) (files w1 v6)) = Ok c6).
    { replace (files w1) with (files w); [exact H6|]. symmetry. apply E4. }
    destruct (block_version_fills asn fw v6 w1 c6 H6' (Hs6 w1 I4) N6)
      as (w2 & t2 & R6 & E6 & I6).
    step R6. split; [reflexivity|].
    unfold ret; cbn [final fst snd]. rewrite I6, I4, <- app_assoc. reflexivity.
  - unfold iptables_asn_block.main. cbn [args_action args_asn args_dry_run].
    rewrite (valid_asn_given asn Hv), iptables_block_unfold, Hv. cbn [negb].
    step (eq_refl : ensure_data_dir w = (Ok tt, with_datadir w, [Mkdir])).
    step (ensure_datasets_cached iptables_asn_block.line_shape_ok "Datasets updated!"
            (with_datadir w) l4 l6 Hl4 Hl6).
    unfold for_each. cbn [foldM].
    destruct (iptables_version_fills asn v4 (with_datadir w) c4 H4 (Hs v4) N4)
      as (w1 & t1 & R4 & E4 & I4).
    step R4.
    assert (H6' : cidr_list_of (parse_dataset (iptables_asn_block.parse_line asn) (files w1 v6))
                  = Ok c6).
    { replace (files w1) with (files w); [exact H6|]. symmetry. apply E4. }
    destruct (iptables_version_fills asn v6 w1 c6 H6' (Hs6 w1 I4) N6)
      as (w2 & t2 & R6 & E6 & I6).
    step R6. split; [reflexivity|].
    unfold ret; cbn [final fst snd]. rewrite I6, I4, <- app_assoc. reflexivity.
Qed.

Lemma block_fills_sets_witness :
  ipsets (final (@asn_block.main sample_library (mkArgs block (Some 64500%Z) false)
                   (sample_world ["firewalld"])))
  = [("ASN64500_v4", ["1.2.3.0/24"; "1.2.4.4/30"; "1.2.4.8/31"]); ("ASN64500_v6", [])].
Proof.
  apply (@block_fills_sets sample_library asn_block_py 64500 (sample_world ["firewalld"])
           ["1.2.3.0/24"; "1.2.4.4/30"; "1.2.4.8/31"] []); try reflexivity.
  - intros _. discriminate.
  - repeat constructor; cbn; intuition discriminate.
  - constructor.
Defined.

